(** * Expense-Tracker: a shallow embedding of the service layer

    The development follows the layout of [expense_budget_app]:
    - the interpreter facts the code relies on (exceptions, [datetime]
      arithmetic, binary64 floats with [sum] and [round]);
    - [models]   : [ExpenseCategory], [Expense], [User] and the database;
    - [schemas]  : [ExpenseFilter], [ExpenseCreate], [ExpenseUpdate],
      [ExpenseResponse], [BudgetSummary], [UserCreate], [UserUpdate],
      [UserResponse];
    - [services] : [ExpenseService] and [UserService];
    - [api]      : the endpoints of the expenses, of the accounts and of the
      login; [core] : the database URL of the settings;
    - the properties of the specification, one theorem per claim, and
      further properties of the code. *)

From Stdlib Require Import ZArith Floats.
From Stdlib Require Uint63.
From stdpp Require Import base option list sorting gmap strings pretty.

Set Warnings "-inexact-float".
Local Open Scope Z_scope.

(** ** Exceptions and results *)

(** The exceptions that the modelled code can raise.  [HTTPException] carries
    its status code; the others are the interpreter's and the libraries'. *)
Inductive exn : Type :=
  | HTTPException (status_code : Z)
  | ValidationError
  | ValueError
  | OverflowError
  | KeyError
  | IntegrityError
  | MultipleResultsFound.

Definition HTTP_404_NOT_FOUND : Z := 404.
Definition HTTP_403_FORBIDDEN : Z := 403.
Definition HTTP_400_BAD_REQUEST : Z := 400.
Definition HTTP_401_UNAUTHORIZED : Z := 401.

Inductive result (A : Type) : Type :=
  | Ok (a : A)
  | Err (e : exn).
Arguments Ok {A} a.
Arguments Err {A} e.

#[global] Instance result_ret : MRet result := λ A, Ok.
#[global] Instance result_bind : MBind result :=
  λ A B f m, match m with Ok a => f a | Err e => Err e end.
#[global] Instance result_fmap : FMap result :=
  λ A B f m, match m with Ok a => Ok (f a) | Err e => Err e end.

(** ** [datetime]: the proleptic Gregorian calendar of CPython *)

Module datetime.

Definition MINYEAR : Z := 1.
Definition MAXYEAR : Z := 9999.

Definition is_leap (year : Z) : bool :=
  (year mod 4 =? 0) && (negb (year mod 100 =? 0) || (year mod 400 =? 0)).

Definition days_before_year (year : Z) : Z :=
  let y := year - 1 in y * 365 + y / 4 - y / 100 + y / 400.

Definition DAYS_IN_MONTH : list Z :=
  [-1; 31; 28; 31; 30; 31; 30; 31; 31; 30; 31; 30; 31].

Definition DAYS_BEFORE_MONTH : list Z :=
  [-1; 0; 31; 59; 90; 120; 151; 181; 212; 243; 273; 304; 334].

Definition days_in_month (year month : Z) : Z :=
  if (month =? 2) && is_leap year then 29
  else nth (Z.to_nat month) DAYS_IN_MONTH 0.

Definition days_before_month (year month : Z) : Z :=
  nth (Z.to_nat month) DAYS_BEFORE_MONTH 0
  + (if (2 <? month) && is_leap year then 1 else 0).

(** Ordinal of a day, January 1st of year 1 being day 1. *)
Definition ymd2ord (year month day : Z) : Z :=
  days_before_year year + days_before_month year month + day.

Definition check_date_fields (year month day : Z) : bool :=
  (MINYEAR <=? year) && (year <=? MAXYEAR)
  && (1 <=? month) && (month <=? 12)
  && (1 <=? day) && (day <=? days_in_month year month).

(** A [date] is kept as its ordinal, a [datetime] as the number of
    microseconds since 0001-01-01T00:00:00 and a [timedelta] as a number of
    microseconds: comparison of datetimes is comparison of these numbers. *)
Abbreviation date := Z (only parsing).
Abbreviation t := Z (only parsing).
Abbreviation timedelta_t := Z (only parsing).

Definition US_PER_SECOND : Z := 1000000.
Definition US_PER_DAY : Z := 86400 * US_PER_SECOND.

(** One past [datetime.max] = 9999-12-31T23:59:59.999999. *)
Definition MAX_US : Z := ymd2ord MAXYEAR 12 31 * US_PER_DAY.

Definition in_range (us : Z) : bool := (0 <=? us) && (us <? MAX_US).

(** [date(year, month, day)] *)
Definition date_new (year month day : Z) : result date :=
  if check_date_fields year month day then Ok (ymd2ord year month day)
  else Err ValueError.

(** [datetime(year, month, day, hour, minute, second, microsecond)] *)
Definition new_full (year month day hour minute second microsecond : Z)
  : result t :=
  if check_date_fields year month day
     && (0 <=? hour) && (hour <? 24) && (0 <=? minute) && (minute <? 60)
     && (0 <=? second) && (second <? 60)
     && (0 <=? microsecond) && (microsecond <? US_PER_SECOND)
  then Ok ((ymd2ord year month day - 1) * US_PER_DAY
           + ((hour * 60 + minute) * 60 + second) * US_PER_SECOND
           + microsecond)
  else Err ValueError.

(** [datetime(year, month, day)] *)
Definition new (year month day : Z) : result t :=
  new_full year month day 0 0 0 0.

(** [timedelta(weeks=, days=, hours=, minutes=, seconds=)] *)
Definition timedelta (weeks days hours minutes seconds : Z) : timedelta_t :=
  ((((weeks * 7 + days) * 24 + hours) * 60 + minutes) * 60 + seconds)
  * US_PER_SECOND.

(** [dt + delta] and [dt - delta]; a result outside
    [datetime.min, datetime.max] raises [OverflowError]. *)
Definition add (dt : t) (delta : timedelta_t) : result t :=
  if in_range (dt + delta) then Ok (dt + delta) else Err OverflowError.

Definition sub (dt : t) (delta : timedelta_t) : result t :=
  if in_range (dt - delta) then Ok (dt - delta) else Err OverflowError.

(** [datetime.combine(d, datetime.min.time())] *)
Definition combine_min (d : date) : t := (d - 1) * US_PER_DAY.

(** [datetime.combine(d, datetime.max.time())], 23:59:59.999999 *)
Definition combine_max (d : date) : t := (d - 1) * US_PER_DAY + (US_PER_DAY - 1).

(** [dt.weekday()], Monday being 0. *)
Definition weekday (dt : t) : Z := (dt / US_PER_DAY + 1 + 6) mod 7.

End datetime.

(** ** Python floats: IEEE-754 binary64, the builtins [sum] and [round] *)

Module pyfloat.
Local Open Scope float_scope.

(** [sum] over floats, from the start value [0].  Up to CPython 3.11 it adds
    from left to right; from 3.12 on it keeps a compensation term (Neumaier)
    once the first float has been added.  The properties below are stated for
    both.  (The sum of no float is the integer [0]; where the code uses it, as
    an operand of a float subtraction and as a float field, it is [0.0].) *)
Inductive sum_algorithm : Type := Naive | Neumaier.

Definition sum_naive (xs : list float) : float :=
  fold_left PrimFloat.add xs 0.

Definition neumaier_step (st : float * float) (x : float) : float * float :=
  let '(f_result, c) := st in
  let t := f_result + x in
  if abs x <=? abs f_result
  then (t, c + ((f_result - t) + x))
  else (t, c + ((x - t) + f_result)).

Definition sum_neumaier (xs : list float) : float :=
  match xs with
  | [] => 0
  | x :: xs =>
      let '(f_result, c) := fold_left neumaier_step xs (0 + x, 0) in
      if negb (c =? 0) && is_finite c then f_result + c else f_result
  end.

Definition sum (alg : sum_algorithm) (xs : list float) : float :=
  match alg with
  | Naive => sum_naive xs
  | Neumaier => sum_neumaier xs
  end.

(** The integer nearest to [a / b], ties going to the even one
    ([0 <= a], [0 < b]). *)
Definition round_half_even_div (a b : Z) : Z :=
  let q := (a / b)%Z in
  match Z.compare (2 * (a mod b)) b with
  | Lt => q
  | Gt => (q + 1)%Z
  | Eq => if Z.even q then q else (q + 1)%Z
  end.

(** [round(x, 2)]: CPython prints [x] correctly rounded to two decimals
    (ties of the exact binary value to even) and reads the decimal back as the
    nearest double; infinities and NaN round to themselves. *)
Definition round2 (x : float) : float :=
  match Prim2SF x with
  | S754_finite s m e =>
      let n := if (0 <=? e)%Z then (100 * Zpos m * 2 ^ e)%Z
               else round_half_even_div (100 * Zpos m) (2 ^ (- e)) in
      match n with
      | Zpos p =>
          SF2Prim (SFdiv prec emax (S754_finite s p 0) (S754_finite false 100 0))
      | _ => SF2Prim (S754_zero s)
      end
  | _ => x
  end.

(** The exact value of a finite float, in units of [2^-1074]; [None] for
    infinities and NaN. *)
Definition exact (x : float) : option Z :=
  match Prim2SF x with
  | S754_zero _ => Some 0%Z
  | S754_finite s m e =>
      let v := (Zpos m * 2 ^ (e + 1074))%Z in Some (if s then (- v)%Z else v)
  | _ => None
  end.

End pyfloat.

(** ** models *)

Inductive ExpenseCategory : Type :=
  | FOOD | TRANSPORT | ENTERTAINMENT | UTILITIES | OTHER.

#[global] Instance ExpenseCategory_eq_dec : EqDecision ExpenseCategory.
Proof. solve_decision. Defined.

Definition ExpenseCategory_value (c : ExpenseCategory) : string :=
  match c with
  | FOOD => "Food"
  | TRANSPORT => "Transport"
  | ENTERTAINMENT => "Entertainment"
  | UTILITIES => "Utilities"
  | OTHER => "Other"
  end.

Definition all_categories : list ExpenseCategory :=
  [FOOD; TRANSPORT; ENTERTAINMENT; UTILITIES; OTHER].

Module Expense.
Record t : Type := mk {
  expense_id : Z;
  user_id : Z;
  name : string;
  amount : float;
  category : ExpenseCategory;
  created_at : datetime.t
}.
End Expense.

Module User.
Record t : Type := mk {
  user_id : Z;
  username : string;
  email : option string;
  hashed_password : option string;
  salary : float;
  is_active : bool;
  created_at : datetime.t;
  updated_at : datetime.t
}.
End User.

(** The two tables, rows in storage order. *)
Record DB : Type := mkDB {
  users : list User.t;
  expenses : list Expense.t
}.

(** [Result.scalar_one_or_none()] *)
Definition scalar_one_or_none {A : Type} (rows : list A) : result (option A) :=
  match rows with
  | [] => Ok None
  | [row] => Ok (Some row)
  | _ => Err MultipleResultsFound
  end.

(** Values as the interpreter sees them, where the code handles them
    dynamically (validator data, dumped models, object attributes). *)
Inductive pyval : Type :=
  | PNone
  | PInt (z : Z)
  | PStr (s : string)
  | PFloat (f : float)
  | PCategory (c : ExpenseCategory)
  | PDate (d : datetime.date)
  | PDatetime (d : datetime.t).

Definition of_option {A : Type} (inj : A → pyval) (o : option A) : pyval :=
  match o with Some a => inj a | None => PNone end.

(** Truth value of an [Optional[int]]: [None] and [0] are false. *)
Definition truthy_int (o : option Z) : bool :=
  match o with Some n => negb (n =? 0) | None => false end.

(** ** Commands on the database state *)

(** A command runs against the database and may change it.  An exception
    leaves the database as it was when it was raised: nothing is written
    before [commit]. *)
Definition M (A : Type) : Type := DB → result A * DB.

#[global] Instance M_ret : MRet M := λ A a db, (Ok a, db).
#[global] Instance M_bind : MBind M :=
  λ A B f m db,
    match m db with
    | (Ok a, db') => f a db'
    | (Err e, db') => (Err e, db')
    end.

Definition raise {A : Type} (e : exn) : M A := λ db, (Err e, db).
Definition query {A : Type} (q : DB → result A) : M A := λ db, (q db, db).

(** ** Mapped objects

    A loaded row is an object whose attributes can be set to any value;
    [commit] writes it back and the table's [NOT NULL] columns refuse [None]. *)

Definition Expense_attrs (e : Expense.t) : gmap string pyval :=
  <["expense_id" := PInt (Expense.expense_id e)]>
  (<["user_id" := PInt (Expense.user_id e)]>
  (<["name" := PStr (Expense.name e)]>
  (<["amount" := PFloat (Expense.amount e)]>
  (<["category" := PCategory (Expense.category e)]>
  (<["created_at" := PDatetime (Expense.created_at e)]> ∅))))).

Definition setattr (obj : gmap string pyval) (field : string) (value : pyval)
  : gmap string pyval :=
  <[field := value]> obj.

Definition Expense_of_attrs (obj : gmap string pyval) : result Expense.t :=
  match obj !! "expense_id", obj !! "user_id", obj !! "name",
        obj !! "amount", obj !! "category", obj !! "created_at" with
  | Some (PInt i), Some (PInt u), Some (PStr n),
    Some (PFloat a), Some (PCategory c), Some (PDatetime d) =>
      Ok (Expense.mk i u n a c d)
  | _, _, _, _, _, _ => Err IntegrityError
  end.

(** [commit] after attributes of the row [expense_id] were set, then
    [refresh]: the row as stored. *)
Definition commit_expense (expense_id : Z) (obj : gmap string pyval) : M Expense.t :=
  λ db,
    match Expense_of_attrs obj with
    | Ok row =>
        (Ok row,
         mkDB (users db)
              ((λ r, if decide (Expense.expense_id r = expense_id) then row else r)
                 <$> expenses db))
    | Err e => (Err e, db)
    end.

(** [delete] and [commit] *)
Definition delete_row (expense_id : Z) : M () :=
  λ db,
    (Ok (),
     mkDB (users db)
          (filter (λ r, Expense.expense_id r ≠ expense_id) (expenses db))).

(** [add] of a new [Expense], [commit] and [refresh].  The database assigns
    the primary key [expense_id], and the default of [created_at] is a
    reading [utcnow] of the clock; a key that a row already holds is refused.
    The new row is stored after the existing ones. *)
Definition insert_expense (expense_id : Z) (utcnow : datetime.t)
    (user_id : Z) (name : string) (amount : float) (category : ExpenseCategory)
  : M Expense.t :=
  λ db,
    if bool_decide (expense_id ∈ Expense.expense_id <$> expenses db)
    then (Err IntegrityError, db)
    else
      let row := Expense.mk expense_id user_id name amount category utcnow in
      (Ok row, mkDB (users db) (expenses db ++ [row])).

(** A nullable string column that was set. *)
Definition nullable_str (v : pyval) : result (option string) :=
  match v with
  | PNone => Ok None
  | PStr s => Ok (Some s)
  | _ => Err IntegrityError
  end.

(** A loaded [User] is the row [stored] it was loaded from and the
    attributes [attrs] set since.  At the flush, a column is written when
    its attribute was set to a value that differs from the loaded one, by
    the equality of the interpreter; [username] and [salary] refuse [None].
    When a column is written, [onupdate] sets [updated_at] to a reading
    [utcnow] of the clock; when none is, no [UPDATE] is sent. *)
Definition User_of_attrs (utcnow : datetime.t) (stored : User.t)
    (attrs : gmap string pyval) : result User.t :=
  username ←
    match attrs !! "username" with
    | None => Ok (User.username stored)
    | Some (PStr s) => Ok s
    | Some _ => Err IntegrityError
    end;
  email ←
    match attrs !! "email" with
    | None => Ok (User.email stored)
    | Some v => nullable_str v
    end;
  hashed_password ←
    match attrs !! "hashed_password" with
    | None => Ok (User.hashed_password stored)
    | Some v => nullable_str v
    end;
  salary ←
    match attrs !! "salary" with
    | None => Ok None
    | Some (PFloat x) => Ok (Some x)
    | Some _ => Err IntegrityError
    end;
  let salary_written :=
    match salary with
    | Some x => negb (x =? User.salary stored)%float
    | None => false
    end in
  let written :=
    negb (bool_decide (username = User.username stored))
    || negb (bool_decide (email = User.email stored))
    || negb (bool_decide (hashed_password = User.hashed_password stored))
    || salary_written in
  Ok (User.mk (User.user_id stored) username email hashed_password
        (if salary_written then default (User.salary stored) salary
         else User.salary stored)
        (User.is_active stored) (User.created_at stored)
        (if written then utcnow else User.updated_at stored)).

(** [commit] after attributes of the loaded user [stored] were set, then
    [refresh].  [username] and [email] are unique: a new value that a row
    holds is refused ([NULL] is held by no row). *)
Definition commit_user (utcnow : datetime.t) (stored : User.t)
    (attrs : gmap string pyval) : M User.t :=
  λ db,
    match User_of_attrs utcnow stored attrs with
    | Ok row =>
        let username_taken :=
          negb (bool_decide (User.username row = User.username stored))
          && bool_decide (User.username row ∈ User.username <$> users db) in
        let email_taken :=
          negb (bool_decide (User.email row = User.email stored))
          && bool_decide (is_Some (User.email row))
          && bool_decide (User.email row ∈ User.email <$> users db) in
        if username_taken || email_taken then (Err IntegrityError, db)
        else
          (Ok row,
           mkDB ((λ r, if decide (User.user_id r = User.user_id stored)
                       then row else r) <$> users db)
                (expenses db))
    | Err e => (Err e, db)
    end.

(** [add] of a new [User], [commit] and [refresh].  The database assigns the
    primary key; [is_active] takes its default [True], [created_at] and
    [updated_at] a reading of the clock each. *)
Definition insert_user (user_id : Z) (created_at updated_at : datetime.t)
    (username : string) (email hashed_password : option string)
    (salary : float) : M User.t :=
  λ db,
    if bool_decide (user_id ∈ User.user_id <$> users db)
       || bool_decide (username ∈ User.username <$> users db)
       || (bool_decide (is_Some email)
           && bool_decide (email ∈ User.email <$> users db))
    then (Err IntegrityError, db)
    else
      let row := User.mk user_id username email hashed_password salary true
                   created_at updated_at in
      (Ok row, mkDB (users db ++ [row]) (expenses db)).

(** [delete] of a loaded user and [commit]: the relationship [expenses]
    cascades the deletion to the expenses of the user. *)
Definition delete_user_row (user : User.t) : M () :=
  λ db,
    (Ok (),
     mkDB (filter (λ r, User.user_id r ≠ User.user_id user) (users db))
          (filter (λ e, Expense.user_id e ≠ User.user_id user) (expenses db))).

(** ** schemas *)

(** *** Field validation as pydantic runs it

    The fields of a model are validated in the order of their declaration.
    A field's constraint ([ge], [le], [gt]) is checked first, then its
    [field_validator], which receives in [info.data] the fields validated
    *before* it; a field that fails is left out of [info.data].  The errors of
    all fields are collected and raised as one [ValidationError]. *)

Definition constrain_int (ge le : Z) (v : option Z) : result (option Z) :=
  match v with
  | None => Ok None
  | Some n => if (ge <=? n) && (n <=? le) then Ok (Some n) else Err ValidationError
  end.

(** [info.data] after a field has been handled. *)
Definition validated {A : Type} (name : string) (inj : A → pyval)
    (r : result (option A)) (data : gmap string pyval) : gmap string pyval :=
  match r with
  | Ok v => <[name := of_option inj v]> data
  | Err _ => data
  end.

(** [info.data.get(name) is None] *)
Definition data_get_is_None (data : gmap string pyval) (name : string) : bool :=
  match data !! name with
  | None | Some PNone => true
  | Some _ => false
  end.

Module ExpenseFilter.

Record t : Type := mk {
  day : option datetime.date;
  week : option Z;
  month : option Z;
  year : option Z;
  category : option ExpenseCategory
}.

Definition validate_week_requires_year (v : option Z) (data : gmap string pyval)
  : result (option Z) :=
  if bool_decide (v ≠ None) && data_get_is_None data "year"
  then Err ValueError
  else Ok v.

Definition validate_month_requires_year (v : option Z) (data : gmap string pyval)
  : result (option Z) :=
  if bool_decide (v ≠ None) && data_get_is_None data "year"
  then Err ValueError
  else Ok v.

(** [ExpenseFilter(day=, week=, month=, year=, category=)]; an argument that
    is absent and one that is [None] both give [None]. *)
Definition new (day : option datetime.date) (week month year : option Z)
    (category : option ExpenseCategory) : result t :=
  let data0 : gmap string pyval := ∅ in
  let r_day := Ok day in
  let data1 := validated "day" PDate r_day data0 in
  let r_week := constrain_int 1 53 week ≫= λ v, validate_week_requires_year v data1 in
  let data2 := validated "week" PInt r_week data1 in
  let r_month := constrain_int 1 12 month ≫= λ v, validate_month_requires_year v data2 in
  let data3 := validated "month" PInt r_month data2 in
  let r_year := constrain_int 2000 2100 year in
  let data4 := validated "year" PInt r_year data3 in
  let r_category := Ok category in
  match r_day, r_week, r_month, r_year, r_category with
  | Ok d, Ok w, Ok m, Ok y, Ok c => Ok (mk d w m y c)
  | _, _, _, _, _ => Err ValidationError
  end.

(** The constraints that the fields declare. *)
Definition fields_in_range (f : t) : Prop :=
  (∀ w, week f = Some w → 1 ≤ w ≤ 53) ∧
  (∀ m, month f = Some m → 1 ≤ m ≤ 12) ∧
  (∀ y, year f = Some y → 2000 ≤ y ≤ 2100).

End ExpenseFilter.

Module ExpenseUpdate.

(** Every field is optional.  [None] is a field that was not supplied (it is
    not in [model_fields_set]); [Some v] is a supplied one, and [v] may be the
    value [None]. *)
Record t : Type := mk {
  name : option (option string);
  amount : option (option float);
  category : option (option ExpenseCategory)
}.

Definition validate_amount (v : option float) : result (option float) :=
  match v with
  | Some x => if (x <=? 0)%float then Err ValueError else Ok (Some (pyfloat.round2 x))
  | None => Ok None
  end.

(** The constructor, called with the request body as keyword arguments: a
    validator runs on supplied fields only. *)
Definition new (name : option (option string)) (amount : option (option float))
    (category : option (option ExpenseCategory)) : result t :=
  let r_name :=
    match name with
    | Some (Some s) =>
        if (1 <=? Z.of_nat (String.length s)) && (Z.of_nat (String.length s) <=? 200)
        then Ok name else Err ValidationError
    | _ => Ok name
    end in
  let r_amount :=
    match amount with
    | Some (Some x) =>
        if (0 <? x)%float then Some <$> validate_amount (Some x) else Err ValidationError
    | Some None => Some <$> validate_amount None
    | None => Ok None
    end in
  match r_name, r_amount with
  | Ok n, Ok a => Ok (mk n a category)
  | _, _ => Err ValidationError
  end.

(** [model_dump(exclude_unset=True)], the items in field order. *)
Definition model_dump_exclude_unset (d : t) : list (string * pyval) :=
  match name d with Some v => [("name"%string, of_option PStr v)] | None => [] end
  ++ match amount d with Some v => [("amount"%string, of_option PFloat v)] | None => [] end
  ++ match category d with Some v => [("category"%string, of_option PCategory v)] | None => [] end.

End ExpenseUpdate.

(** [Field(min_length=, max_length=)] on a string. *)
Definition length_between (lo hi : Z) (s : string) : bool :=
  (lo <=? Z.of_nat (String.length s)) && (Z.of_nat (String.length s) <=? hi).

Module ExpenseCreate.

Record t : Type := mk {
  name : string;
  amount : float;
  category : ExpenseCategory;
  user_id : Z
}.

Definition validate_amount (v : float) : result float :=
  if (v <=? 0)%float then Err ValueError else Ok (pyfloat.round2 v).

(** The constructor, called with the request body: the fields of
    [ExpenseBase], then [user_id].  The validator of [amount] runs after the
    bound [gt=0], and what it returns is stored as it is. *)
Definition new (name : string) (amount : float) (category : ExpenseCategory)
    (user_id : Z) : result t :=
  let r_name :=
    if length_between 1 200 name then Ok name else Err ValidationError in
  let r_amount :=
    if (0 <? amount)%float then validate_amount amount else Err ValidationError in
  let r_user_id :=
    if 0 <? user_id then Ok user_id else Err ValidationError in
  match r_name, r_amount, r_user_id with
  | Ok n, Ok a, Ok u => Ok (mk n a category u)
  | _, _, _ => Err ValidationError
  end.

End ExpenseCreate.

Module ExpenseResponse.

Record t : Type := mk {
  name : string;
  amount : float;
  category : ExpenseCategory;
  expense_id : Z;
  user_id : Z;
  created_at : datetime.t
}.

(** The model read from the attributes of an [Expense]
    ([from_attributes]); the bounds are those of [ExpenseBase]. *)
Definition model_validate (obj : Expense.t) : result t :=
  if length_between 1 200 (Expense.name obj) && (0 <? Expense.amount obj)%float
  then Ok (mk (Expense.name obj) (Expense.amount obj) (Expense.category obj)
              (Expense.expense_id obj) (Expense.user_id obj)
              (Expense.created_at obj))
  else Err ValidationError.

End ExpenseResponse.

(** [Field(..., ge=0)] on a float: NaN fails it as well. *)
Definition ge0 (x : float) : bool := (0 <=? x)%float.

Module CategoryBreakdown.

Record t : Type := mk {
  Food : float;
  Transport : float;
  Entertainment : float;
  Utilities : float;
  Other : float
}.

Definition get (b : t) (c : ExpenseCategory) : float :=
  match c with
  | FOOD => Food b
  | TRANSPORT => Transport b
  | ENTERTAINMENT => Entertainment b
  | UTILITIES => Utilities b
  | OTHER => Other b
  end.

(** The constructor, called with the dictionary [category_totals] as keyword
    arguments; a missing key takes the default. *)
Definition new (kwargs : gmap string float) : result t :=
  let field (c : ExpenseCategory) : float :=
    default 0%float (kwargs !! ExpenseCategory_value c) in
  if forallb (λ c, ge0 (field c)) all_categories
  then Ok (mk (field FOOD) (field TRANSPORT) (field ENTERTAINMENT)
              (field UTILITIES) (field OTHER))
  else Err ValidationError.

End CategoryBreakdown.

Module BudgetSummary.

Record t : Type := mk {
  user_id : Z;
  total_salary : float;
  total_expense : float;
  remaining_amount : float;
  category_breakdown : CategoryBreakdown.t
}.

(** [total_salary] and [total_expense] are declared [ge=0];
    [remaining_amount] has no bound. *)
Definition new (user_id : Z) (total_salary total_expense remaining_amount : float)
    (category_breakdown : CategoryBreakdown.t) : result t :=
  if ge0 total_salary && ge0 total_expense
  then Ok (mk user_id total_salary total_expense remaining_amount category_breakdown)
  else Err ValidationError.

End BudgetSummary.

(** ** schemas: [UserCreate] and [UserUpdate] *)

Module UserCreate.

Record t : Type := mk {
  username : string;
  email : option string;
  password : option string;
  salary : float
}.

Definition validate_salary (v : float) : result float :=
  if (v <? 0)%float then Err ValueError else Ok v.

Section new.

(** The validation of an [EmailStr], which the library [email_validator]
    does: it refuses the string or returns the address in normal form. *)
Variable EmailStr : string → result string.

(** The constructor, called with the request body; [salary] is [None] when
    the body has no salary, and the default is not validated. *)
Definition new (username : string) (email password : option string)
    (salary : option float) : result t :=
  let r_username :=
    if length_between 3 100 username then Ok username else Err ValidationError in
  let r_email :=
    match email with
    | Some e => Some <$> EmailStr e
    | None => Ok None
    end in
  let r_password :=
    match password with
    | Some p => if length_between 8 100 p then Ok password else Err ValidationError
    | None => Ok None
    end in
  let r_salary :=
    match salary with
    | Some v => if ge0 v then validate_salary v else Err ValidationError
    | None => Ok 0%float
    end in
  match r_username, r_email, r_password, r_salary with
  | Ok u, Ok e, Ok p, Ok s => Ok (mk u e p s)
  | _, _, _, _ => Err ValidationError
  end.

End new.
End UserCreate.

Module UserUpdate.

(** As in [ExpenseUpdate]: [None] is a field that was not supplied,
    [Some v] one that was, and [v] may be the value [None]. *)
Record t : Type := mk {
  username : option (option string);
  email : option (option string);
  salary : option (option float);
  password : option (option string)
}.

Definition validate_salary (v : option float) : result (option float) :=
  match v with
  | Some x => if (x <? 0)%float then Err ValueError else Ok v
  | None => Ok v
  end.

Section new.

Variable EmailStr : string → result string.

Definition new (username email : option (option string))
    (salary : option (option float)) (password : option (option string))
  : result t :=
  let r_username :=
    match username with
    | Some (Some s) =>
        if length_between 3 100 s then Ok username else Err ValidationError
    | _ => Ok username
    end in
  let r_email :=
    match email with
    | Some (Some e) => (λ e', Some (Some e')) <$> EmailStr e
    | _ => Ok email
    end in
  let r_salary :=
    match salary with
    | Some (Some x) =>
        if ge0 x then Some <$> validate_salary (Some x) else Err ValidationError
    | Some None => Some <$> validate_salary None
    | None => Ok None
    end in
  let r_password :=
    match password with
    | Some (Some p) =>
        if length_between 8 100 p then Ok password else Err ValidationError
    | _ => Ok password
    end in
  match r_username, r_email, r_salary, r_password with
  | Ok u, Ok e, Ok s, Ok p => Ok (mk u e s p)
  | _, _, _, _ => Err ValidationError
  end.

End new.

(** [model_dump(exclude_unset=True)], the items in field order. *)
Definition model_dump_exclude_unset (d : t) : list (string * pyval) :=
  match username d with Some v => [("username"%string, of_option PStr v)] | None => [] end
  ++ match email d with Some v => [("email"%string, of_option PStr v)] | None => [] end
  ++ match salary d with Some v => [("salary"%string, of_option PFloat v)] | None => [] end
  ++ match password d with Some v => [("password"%string, of_option PStr v)] | None => [] end.

End UserUpdate.

(** ** services: [ExpenseService] *)

(** A condition of the [WHERE] clause. *)
Inductive condition : Type :=
  | CreatedBetween (lo hi : datetime.t)
  | CategoryIs (c : ExpenseCategory).

Definition holds (e : Expense.t) (c : condition) : bool :=
  match c with
  | CreatedBetween lo hi =>
      (lo <=? Expense.created_at e) && (Expense.created_at e <=? hi)
  | CategoryIs c => bool_decide (Expense.category e = c)
  end.

(** [ORDER BY created_at DESC] *)
Definition created_desc (a b : Expense.t) : Prop :=
  Expense.created_at b ≤ Expense.created_at a.

#[global] Instance created_desc_dec : RelDecision created_desc.
Proof. intros a b. unfold created_desc. apply _. Defined.

#[global] Instance created_desc_trans : Transitive created_desc.
Proof. unfold created_desc. intros a b c. lia. Qed.

#[global] Instance created_desc_total : Total created_desc.
Proof. unfold created_desc. intros a b. lia. Qed.

Definition order_by_created_at_desc (rows : list Expense.t) : list Expense.t :=
  merge_sort created_desc rows.

Module ExpenseService.

Definition verify_user_exists (db : DB) (user_id : Z) : result User.t :=
  user ← scalar_one_or_none
            (filter (λ u, User.user_id u = user_id) (users db));
  match user with
  | None => Err (HTTPException HTTP_404_NOT_FOUND)
  | Some user => Ok user
  end.

(** [expense_id] is the key that the database assigns to the new row and
    [utcnow] the reading of the clock for [created_at]. *)
Definition create_expense (expense_id : Z) (utcnow : datetime.t)
    (expense_data : ExpenseCreate.t) : M Expense.t :=
  _ ← query (λ db, verify_user_exists db (ExpenseCreate.user_id expense_data));
  insert_expense expense_id utcnow
    (ExpenseCreate.user_id expense_data)
    (ExpenseCreate.name expense_data)
    (ExpenseCreate.amount expense_data)
    (ExpenseCreate.category expense_data).

Definition get_expense_by_id (db : DB) (expense_id : Z)
  : result (option Expense.t) :=
  scalar_one_or_none
    (filter (λ e, Expense.expense_id e = expense_id) (expenses db)).

(** The range condition: the [if]/[elif]/[elif] over day, week and month. *)
Definition range_conditions (filters : ExpenseFilter.t) : result (list condition) :=
  match ExpenseFilter.day filters with
  | Some day =>
      let start_of_day := datetime.combine_min day in
      let end_of_day := datetime.combine_max day in
      Ok [CreatedBetween start_of_day end_of_day]
  | None =>
      if truthy_int (ExpenseFilter.week filters)
         && truthy_int (ExpenseFilter.year filters) then
        let week := default 0 (ExpenseFilter.week filters) in
        let year := default 0 (ExpenseFilter.year filters) in
        jan_1 ← datetime.new year 1 1;
        week_start ← datetime.add jan_1 (datetime.timedelta (week - 1) 0 0 0 0);
        week_end ← datetime.add week_start (datetime.timedelta 0 6 23 59 59);
        Ok [CreatedBetween week_start week_end]
      else if truthy_int (ExpenseFilter.month filters)
              && truthy_int (ExpenseFilter.year filters) then
        let month := default 0 (ExpenseFilter.month filters) in
        let year := default 0 (ExpenseFilter.year filters) in
        month_start ← datetime.new year month 1;
        month_end ←
          (if month =? 12
           then datetime.new (year + 1) 1 1 ≫= λ d, datetime.sub d (datetime.timedelta 0 0 0 0 1)
           else datetime.new year (month + 1) 1 ≫= λ d, datetime.sub d (datetime.timedelta 0 0 0 0 1));
        Ok [CreatedBetween month_start month_end]
      else Ok []
  end.

Definition category_conditions (filters : ExpenseFilter.t) : list condition :=
  match ExpenseFilter.category filters with
  | Some c => [CategoryIs c]
  | None => []
  end.

(** [filters] is [None] or a model instance, which is always true.  The rows
    that tie on [created_at] come in an order that the database picks; here
    it is the order of a merge sort. *)
Definition get_user_expenses (db : DB) (user_id : Z)
    (filters : option ExpenseFilter.t) : result (list Expense.t) :=
  _ ← verify_user_exists db user_id;
  conditions ←
    match filters with
    | Some filters =>
        range ← range_conditions filters;
        Ok (range ++ category_conditions filters)
    | None => Ok []
    end;
  Ok (order_by_created_at_desc
        (filter (λ e, Expense.user_id e = user_id ∧ forallb (holds e) conditions = true)
                (expenses db))).

(** [user_id] is the acting user, [None] by default. *)
Definition update_expense (expense_id : Z) (expense_data : ExpenseUpdate.t)
    (user_id : option Z) : M Expense.t :=
  db_expense ← query (λ db, get_expense_by_id db expense_id);
  match db_expense with
  | None => raise (HTTPException HTTP_404_NOT_FOUND)
  | Some db_expense =>
      if truthy_int user_id
         && negb (Expense.user_id db_expense =? default 0 user_id)
      then raise (HTTPException HTTP_403_FORBIDDEN)
      else
        let update_data := ExpenseUpdate.model_dump_exclude_unset expense_data in
        let obj :=
          fold_left (λ obj item, setattr obj item.1 item.2) update_data
                    (Expense_attrs db_expense) in
        commit_expense (Expense.expense_id db_expense) obj
  end.

Definition delete_expense (expense_id : Z) (user_id : option Z) : M bool :=
  db_expense ← query (λ db, get_expense_by_id db expense_id);
  match db_expense with
  | None => raise (HTTPException HTTP_404_NOT_FOUND)
  | Some db_expense =>
      if truthy_int user_id
         && negb (Expense.user_id db_expense =? default 0 user_id)
      then raise (HTTPException HTTP_403_FORBIDDEN)
      else
        _ ← delete_row (Expense.expense_id db_expense);
        mret true
  end.

(** *** The aggregation of [get_budget_summary] *)

(** The dictionary [category_totals] before the loop. *)
Definition initial_category_totals : gmap string float :=
  <[ExpenseCategory_value FOOD := 0%float]>
  (<[ExpenseCategory_value TRANSPORT := 0%float]>
  (<[ExpenseCategory_value ENTERTAINMENT := 0%float]>
  (<[ExpenseCategory_value UTILITIES := 0%float]>
  (<[ExpenseCategory_value OTHER := 0%float]> ∅)))).

(** One turn of the loop, [category_totals[expense.category.value] +=
    expense.amount]; reading a missing key raises [KeyError]. *)
Definition add_to_category (category_totals : gmap string float)
    (expense : Expense.t) : result (gmap string float) :=
  let key := ExpenseCategory_value (Expense.category expense) in
  match category_totals !! key with
  | Some old => Ok (<[key := (old + Expense.amount expense)%float]> category_totals)
  | None => Err KeyError
  end.

Fixpoint for_each {S A : Type} (body : S → A → result S) (xs : list A) (s : S)
  : result S :=
  match xs with
  | [] => Ok s
  | x :: xs => s' ← body s x; for_each body xs s'
  end.

(** [get_budget_summary] after its two queries: the totals, the loop over
    the expenses and the two response models. *)
Definition summarize (alg : pyfloat.sum_algorithm) (user_id : Z) (salary : float)
    (expenses : list Expense.t) : result BudgetSummary.t :=
  let total_expense := pyfloat.sum alg (Expense.amount <$> expenses) in
  let remaining_amount := (salary - total_expense)%float in
  category_totals ← for_each add_to_category expenses initial_category_totals;
  category_breakdown ← CategoryBreakdown.new category_totals;
  BudgetSummary.new user_id salary
    (pyfloat.round2 total_expense) (pyfloat.round2 remaining_amount)
    category_breakdown.

Definition get_budget_summary (alg : pyfloat.sum_algorithm) (db : DB)
    (user_id : Z) (filters : option ExpenseFilter.t) : result BudgetSummary.t :=
  user ← verify_user_exists db user_id;
  expenses ← get_user_expenses db user_id filters;
  summarize alg user_id (User.salary user) expenses.

End ExpenseService.

(** ** services: [UserService] *)

(** Truth value of an [Optional[str]]: [None] and the empty string are false. *)
Definition truthy_str (o : option string) : bool :=
  match o with
  | Some s => negb (bool_decide (s = EmptyString))
  | None => false
  end.

Module UserService.
Section authenticate.

(** [core.security.verify_password(plain_password, hashed_password)]: the
    credential check, a collaborator of this module. *)
Variable verify_password : string → string → bool.

Definition get_user_by_username (db : DB) (username : string)
  : result (option User.t) :=
  scalar_one_or_none (filter (λ u, User.username u = username) (users db)).

Definition authenticate_user (db : DB) (username password : string)
  : result (option User.t) :=
  user ← get_user_by_username db username;
  match user with
  | None => Ok None
  | Some user =>
      if negb (truthy_str (User.hashed_password user)) then Ok None
      else if negb (verify_password password
                      (default EmptyString (User.hashed_password user)))
      then Ok None
      else Ok (Some user)
  end.

End authenticate.

Definition get_user_by_id (db : DB) (user_id : Z) : result (option User.t) :=
  scalar_one_or_none (filter (λ u, User.user_id u = user_id) (users db)).

(** [User.email == email]: a row without email matches no address. *)
Definition get_user_by_email (db : DB) (email : string)
  : result (option User.t) :=
  scalar_one_or_none (filter (λ u, User.email u = Some email) (users db)).

Section accounts.

(** [core.security.get_password_hash(password)], a collaborator of this
    module: it is handed what the caller holds, a string or [None], and
    returns the credential to store, or raises. *)
Variable get_password_hash : option string → result string.

(** [user_id] is the key that the database assigns to the new row,
    [created_at] and [updated_at] the readings of the clock for the two
    columns. *)
Definition create_user (user_id : Z) (created_at updated_at : datetime.t)
    (user_data : UserCreate.t) : M User.t :=
  existing_user ←
    query (λ db, get_user_by_username db (UserCreate.username user_data));
  match existing_user with
  | Some _ => raise (HTTPException HTTP_400_BAD_REQUEST)
  | None =>
      _ ← (if truthy_str (UserCreate.email user_data) then
             existing_email ←
               query (λ db, get_user_by_email db
                              (default EmptyString (UserCreate.email user_data)));
             match existing_email with
             | Some _ => raise (HTTPException HTTP_400_BAD_REQUEST)
             | None => mret ()
             end
           else mret ());
      hashed_password ←
        (if truthy_str (UserCreate.password user_data) then
           hashed ← query (λ _, get_password_hash (UserCreate.password user_data));
           mret (Some hashed)
         else mret None);
      insert_user user_id created_at updated_at
        (UserCreate.username user_data) (UserCreate.email user_data)
        hashed_password (UserCreate.salary user_data)
  end.

(** [utcnow] is the reading of the clock for [updated_at]. *)
Definition update_user (utcnow : datetime.t) (user_id : Z)
    (user_data : UserUpdate.t) : M User.t :=
  db_user ← query (λ db, get_user_by_id db user_id);
  match db_user with
  | None => raise (HTTPException HTTP_404_NOT_FOUND)
  | Some db_user =>
      let username := mjoin (UserUpdate.username user_data) in
      let email := mjoin (UserUpdate.email user_data) in
      _ ← (if truthy_str username
              && negb (bool_decide (username = Some (User.username db_user)))
           then
             existing_user ←
               query (λ db, get_user_by_username db (default EmptyString username));
             match existing_user with
             | Some _ => raise (HTTPException HTTP_400_BAD_REQUEST)
             | None => mret ()
             end
           else mret ());
      _ ← (if truthy_str email
              && negb (bool_decide (email = User.email db_user))
           then
             existing_email ←
               query (λ db, get_user_by_email db (default EmptyString email));
             match existing_email with
             | Some _ => raise (HTTPException HTTP_400_BAD_REQUEST)
             | None => mret ()
             end
           else mret ());
      let update_data := UserUpdate.model_dump_exclude_unset user_data in
      update_data ←
        match UserUpdate.password user_data with
        | Some password =>
            hashed ← query (λ _, get_password_hash password);
            mret (filter (λ item, item.1 ≠ "password"%string) update_data
                  ++ [("hashed_password"%string, PStr hashed)])
        | None => mret update_data
        end;
      let attrs :=
        fold_left (λ attrs item, setattr attrs item.1 item.2) update_data ∅ in
      commit_user utcnow db_user attrs
  end.

Definition delete_user (user_id : Z) : M bool :=
  db_user ← query (λ db, get_user_by_id db user_id);
  match db_user with
  | None => raise (HTTPException HTTP_404_NOT_FOUND)
  | Some db_user =>
      _ ← delete_user_row db_user;
      mret true
  end.

End accounts.
End UserService.

(** ** schemas: [UserResponse] *)

Module UserResponse.

Record t : Type := mk {
  username : string;
  email : option string;
  user_id : Z;
  salary : float;
  is_active : bool;
  created_at : datetime.t;
  updated_at : datetime.t
}.

Section model_validate.

Variable EmailStr : string → result string.

(** The model read from the attributes of a [User]; the bounds are those of
    [UserBase]. *)
Definition model_validate (obj : User.t) : result t :=
  let r_username :=
    if length_between 3 100 (User.username obj)
    then Ok (User.username obj) else Err ValidationError in
  let r_email :=
    match User.email obj with
    | Some e => Some <$> EmailStr e
    | None => Ok None
    end in
  match r_username, r_email with
  | Ok u, Ok e =>
      Ok (mk u e (User.user_id obj) (User.salary obj) (User.is_active obj)
             (User.created_at obj) (User.updated_at obj))
  | _, _ => Err ValidationError
  end.

End model_validate.
End UserResponse.

(** ** api: the endpoints *)

(** What a request ends with: the response; an exception that the handler
    raised; the refusal of a parameter, before the handler runs; or the
    refusal, by the response model, of what the handler returned. *)
Inductive outcome (A : Type) : Type :=
  | Responded (a : A)
  | Raised (e : exn)
  | RequestValidationError
  | ResponseValidationError.
Arguments Responded {A} a.
Arguments Raised {A} e.
Arguments RequestValidationError {A}.
Arguments ResponseValidationError {A}.

(** The handler runs, then what it returned is validated against the
    [response_model]; what the handler committed stays. *)
Definition respond {A B : Type} (response_model : A → result B)
    (handler : M A) : DB → outcome B * DB :=
  λ db,
    match handler db with
    | (Ok a, db') =>
        (match response_model a with
         | Ok b => Responded b
         | Err _ => ResponseValidationError
         end, db')
    | (Err e, db') => (Raised e, db')
    end.

(** [Query(None, ge=, le=)]: the parameters are checked before the handler
    is called. *)
Definition with_query_bounds {B : Type} (week month year : option Z)
    (handler : DB → outcome B * DB) : DB → outcome B * DB :=
  λ db,
    match constrain_int 1 53 week, constrain_int 1 12 month,
          constrain_int 2000 2100 year with
    | Ok _, Ok _, Ok _ => handler db
    | _, _, _ => (RequestValidationError, db)
    end.

Module endpoints.

(** *** [api/v1/endpoints/expenses.py]

    [current_user_id] is what the dependency [get_current_user_id] read
    from the token of the request. *)
Module expenses.

Definition create_expense (expense_id : Z) (utcnow : datetime.t)
    (expense_data : ExpenseCreate.t) (current_user_id : Z)
  : DB → outcome ExpenseResponse.t * DB :=
  respond ExpenseResponse.model_validate
    (if negb (ExpenseCreate.user_id expense_data =? current_user_id)
     then raise (HTTPException HTTP_403_FORBIDDEN)
     else ExpenseService.create_expense expense_id utcnow expense_data).

Definition get_user_expenses (user_id : Z) (day : option datetime.date)
    (week month year : option Z) (category : option ExpenseCategory)
  : DB → outcome (list ExpenseResponse.t) * DB :=
  with_query_bounds week month year
    (respond (mapM ExpenseResponse.model_validate)
       (filters ← query (λ _, ExpenseFilter.new day week month year category);
        query (λ db, ExpenseService.get_user_expenses db user_id (Some filters)))).

Definition get_expense (expense_id : Z)
  : DB → outcome ExpenseResponse.t * DB :=
  respond ExpenseResponse.model_validate
    (expense ← query (λ db, ExpenseService.get_expense_by_id db expense_id);
     match expense with
     | None => raise (HTTPException HTTP_404_NOT_FOUND)
     | Some expense => mret expense
     end).

Definition update_expense (expense_id : Z) (expense_data : ExpenseUpdate.t)
    (current_user_id : Z) : DB → outcome ExpenseResponse.t * DB :=
  respond ExpenseResponse.model_validate
    (ExpenseService.update_expense expense_id expense_data (Some current_user_id)).

Definition delete_expense (expense_id : Z) (current_user_id : Z)
  : DB → outcome () * DB :=
  respond (λ _, Ok ())
    (ExpenseService.delete_expense expense_id (Some current_user_id)).

(** The handler returns an instance of the response model, which is taken
    as it is. *)
Definition get_budget_summary (alg : pyfloat.sum_algorithm) (user_id : Z)
    (day : option datetime.date) (week month year : option Z)
    (category : option ExpenseCategory)
  : DB → outcome BudgetSummary.t * DB :=
  with_query_bounds week month year
    (respond Ok
       (filters ← query (λ _, ExpenseFilter.new day week month year category);
        query (λ db, ExpenseService.get_budget_summary alg db user_id
                       (Some filters)))).

End expenses.

(** *** [api/v1/endpoints/users.py]: the endpoints that change an account *)
Module users.
Section users.

Variable EmailStr : string → result string.
Variable get_password_hash : option string → result string.

Definition update_user (utcnow : datetime.t) (user_id : Z)
    (user_data : UserUpdate.t) (current_user_id : Z)
  : DB → outcome UserResponse.t * DB :=
  respond (UserResponse.model_validate EmailStr)
    (if negb (user_id =? current_user_id)
     then raise (HTTPException HTTP_403_FORBIDDEN)
     else UserService.update_user get_password_hash utcnow user_id user_data).

Definition delete_user (user_id : Z) (current_user_id : Z)
  : DB → outcome () * DB :=
  respond (λ _, Ok ())
    (if negb (user_id =? current_user_id)
     then raise (HTTPException HTTP_403_FORBIDDEN)
     else UserService.delete_user user_id).

End users.
End users.

(** *** [api/v1/endpoints/auth.py] *)
Module auth.

(** [Token(access_token=, refresh_token=, token_type=)] *)
Record Token : Type := mkToken {
  access_token : string;
  refresh_token : string;
  token_type : string
}.

Section auth.

Variable verify_password : string → string → bool.

(** [core.security.create_access_token(data=)] and
    [create_refresh_token(data=)], handed the dictionary [data] as the list
    of its items. *)
Variable create_access_token : list (string * string) → string.
Variable create_refresh_token : list (string * string) → string.

(** [login], for the name and the password of the form. *)
Definition login (username password : string) : DB → outcome Token * DB :=
  respond Ok
    (user ← query (λ db, UserService.authenticate_user verify_password db
                           username password);
     match user with
     | None => raise (HTTPException HTTP_401_UNAUTHORIZED)
     | Some user =>
         if negb (User.is_active user)
         then raise (HTTPException HTTP_403_FORBIDDEN)
         else
           let access_token :=
             create_access_token
               [("sub"%string, pretty (User.user_id user));
                ("username"%string, User.username user)] in
           let refresh_token :=
             create_refresh_token
               [("sub"%string, pretty (User.user_id user));
                ("username"%string, User.username user)] in
           mret (mkToken access_token refresh_token "bearer")
     end).

(** [login_json], for the name and the password of the [UserLogin] body. *)
Definition login_json (username password : string)
  : DB → outcome Token * DB :=
  respond Ok
    (user ← query (λ db, UserService.authenticate_user verify_password db
                           username password);
     match user with
     | None => raise (HTTPException HTTP_401_UNAUTHORIZED)
     | Some user =>
         if negb (User.is_active user)
         then raise (HTTPException HTTP_403_FORBIDDEN)
         else
           let access_token :=
             create_access_token
               [("sub"%string, pretty (User.user_id user));
                ("username"%string, User.username user)] in
           let refresh_token :=
             create_refresh_token
               [("sub"%string, pretty (User.user_id user));
                ("username"%string, User.username user)] in
           mret (mkToken access_token refresh_token "bearer")
     end).

End auth.
End auth.

End endpoints.

(** ** core: [Settings] and the choice of the engine *)

Module config.

(** The fields of [Settings] that the database URL is made of. *)
Record Settings : Type := mkSettings {
  DATABASE_URL : option string;
  DB_TYPE : string;
  DB_DRIVER : string;
  DB_HOST : string;
  DB_PORT : Z;
  DB_USER : string;
  DB_PASSWORD : string;
  DB_NAME : string
}.

Definition get_database_url (self : Settings) : result string :=
  if truthy_str (DATABASE_URL self) then
    Ok (default EmptyString (DATABASE_URL self))
  else if bool_decide (DB_TYPE self = "sqlite"%string) then
    Ok ("sqlite+" +:+ DB_DRIVER self +:+ ":///./" +:+ DB_NAME self +:+ ".db")
  else if bool_decide (DB_TYPE self = "postgresql"%string) then
    Ok ("postgresql+" +:+ DB_DRIVER self +:+ "://" +:+ DB_USER self +:+ ":"
        +:+ DB_PASSWORD self +:+ "@" +:+ DB_HOST self +:+ ":"
        +:+ pretty (DB_PORT self) +:+ "/" +:+ DB_NAME self)
  else Err ValueError.

(** The statements of the module after [settings = Settings()]: the URL
    that was not set is replaced by the constructed one. *)
Definition settings_DATABASE_URL (settings : Settings) : result string :=
  if negb (truthy_str (DATABASE_URL settings))
  then get_database_url settings
  else Ok (default EmptyString (DATABASE_URL settings)).

(** [db/session.py]: [settings.DATABASE_URL.startswith("sqlite")] *)
Definition is_sqlite (url : string) : bool := String.prefix "sqlite" url.

End config.

(** * The words of the specification

    Definitions that state the claims: the ranges of the filter resolver,
    the sums of the aggregator and the outcome of an update, each in the
    words of the specification, and the sample data of the examples. *)

(** ** The filter resolver *)

(** The ranges in the words of the specification: bounds of closed intervals
    of creation timestamps. *)
Module FilterResolver.
Import datetime.

(** 23:59:59 as an offset in a day. *)
Definition LAST_SECOND : Z := ((23 * 60 + 59) * 60 + 59) * US_PER_SECOND.

(** The day, from 00:00:00.000000 to 23:59:59.999999. *)
Definition day_range (d : date) : Z * Z :=
  ((d - 1) * US_PER_DAY, (d - 1) * US_PER_DAY + US_PER_DAY - 1).

(** Week [week] starts [(week - 1) * 7] days after January 1st of [year], at
    00:00:00, and ends 6 days later at 23:59:59. *)
Definition week_range (year week : Z) : Z * Z :=
  let start := (ymd2ord year 1 1 - 1 + (week - 1) * 7) * US_PER_DAY in
  (start, start + 6 * US_PER_DAY + LAST_SECOND).

(** From the first day of the month at 00:00:00 to its last day at 23:59:59. *)
Definition month_range (year month : Z) : Z * Z :=
  ((ymd2ord year month 1 - 1) * US_PER_DAY,
   (ymd2ord year month (days_in_month year month) - 1) * US_PER_DAY + LAST_SECOND).

(** Precedence: day, then week, then month; at most one range is selected. *)
Definition selected_range (f : ExpenseFilter.t) : option (Z * Z) :=
  match ExpenseFilter.day f with
  | Some d => Some (day_range d)
  | None =>
      match ExpenseFilter.week f, ExpenseFilter.year f with
      | Some w, Some y => Some (week_range y w)
      | _, _ =>
          match ExpenseFilter.month f, ExpenseFilter.year f with
          | Some m, Some y => Some (month_range y m)
          | _, _ => None
          end
      end
  end.

Definition in_range_of (r : option (Z * Z)) (e : Expense.t) : Prop :=
  match r with
  | Some (lo, hi) => lo ≤ Expense.created_at e ≤ hi
  | None => True
  end.

Definition in_category_of (c : option ExpenseCategory) (e : Expense.t) : Prop :=
  match c with
  | Some c => Expense.category e = c
  | None => True
  end.

#[global] Instance in_range_of_dec r e : Decision (in_range_of r e).
Proof. destruct r as [[lo hi]|]; cbn; apply _. Defined.

#[global] Instance in_category_of_dec c e : Decision (in_category_of c e).
Proof. destruct c; cbn; apply _. Defined.

End FilterResolver.

(** The conditions that the precedence rule selects. *)
Definition selected_conditions (f : ExpenseFilter.t) : list condition :=
  match FilterResolver.selected_range f with
  | Some (lo, hi) => [CreatedBetween lo hi]
  | None => []
  end.

(** ** The aggregator *)

(** The amounts of a category, in list order, and their sum from left to
    right: what [category_totals] holds for the category after the loop. *)
Definition amounts_of (c : ExpenseCategory) (l : list Expense.t) : list float :=
  Expense.amount <$> filter (λ e, Expense.category e = c) l.

Definition category_sum (c : ExpenseCategory) (l : list Expense.t) : float :=
  fold_left PrimFloat.add (amounts_of c l) 0%float.

(** The bounds that the response schemas declare. *)
Definition within_bounds (alg : pyfloat.sum_algorithm) (salary : float)
    (l : list Expense.t) : Prop :=
  ge0 salary = true
  ∧ ge0 (pyfloat.round2 (pyfloat.sum alg (Expense.amount <$> l))) = true
  ∧ ∀ c, ge0 (category_sum c l) = true.

(** The summary that [summarize] builds when the bounds hold. *)
Definition summary_of (alg : pyfloat.sum_algorithm) (user_id : Z)
    (salary : float) (l : list Expense.t) : BudgetSummary.t :=
  let total := pyfloat.sum alg (Expense.amount <$> l) in
  BudgetSummary.mk user_id salary
    (pyfloat.round2 total) (pyfloat.round2 (salary - total)%float)
    (CategoryBreakdown.mk
       (category_sum FOOD l) (category_sum TRANSPORT l)
       (category_sum ENTERTAINMENT l) (category_sum UTILITIES l)
       (category_sum OTHER l)).

(** The five values of a breakdown, added in the order of the fields. *)
Definition breakdown_sum (b : CategoryBreakdown.t) : float :=
  (CategoryBreakdown.Food b + CategoryBreakdown.Transport b
   + CategoryBreakdown.Entertainment b + CategoryBreakdown.Utilities b
   + CategoryBreakdown.Other b)%float.

(** A float that is not negative, on its specification: a zero, or a
    finite number or an infinity without the sign bit. *)
Definition sf_nonneg (a : spec_float) : bool :=
  match a with
  | S754_zero _ => true
  | S754_infinity s | S754_finite s _ _ => negb s
  | S754_nan => false
  end.

(** ** Sums without rounding error *)

(** The exact sum of the values of finite floats, in units of [2^-1074]. *)
Fixpoint exact_sum (xs : list float) : option Z :=
  match xs with
  | [] => Some 0
  | x :: xs => v ← pyfloat.exact x; s ← exact_sum xs; Some (v + s)
  end.

(** [r] is the sum of [xs], computed without any rounding error. *)
Definition no_rounding (r : float) (xs : list float) : Prop :=
  is_Some (exact_sum xs) ∧ pyfloat.exact r = exact_sum xs.

(** The same float, up to the sign of a zero. *)
Definition same_value (x y : float) : Prop :=
  x = y ∨ (pyfloat.exact x = Some 0 ∧ pyfloat.exact y = Some 0).

(** ** Partial updates and credentials *)

(** The row after an update: a supplied value replaces the field, the other
    fields are those of the stored row. *)
Definition updated (e : Expense.t) (d : ExpenseUpdate.t) : Expense.t :=
  Expense.mk (Expense.expense_id e) (Expense.user_id e)
    (match ExpenseUpdate.name d with Some (Some n) => n | _ => Expense.name e end)
    (match ExpenseUpdate.amount d with
     | Some (Some a) => a | _ => Expense.amount e end)
    (match ExpenseUpdate.category d with
     | Some (Some c) => c | _ => Expense.category e end)
    (Expense.created_at e).

(** No field is supplied as [None]. *)
Definition no_null_supplied (d : ExpenseUpdate.t) : Prop :=
  ExpenseUpdate.name d ≠ Some None
  ∧ ExpenseUpdate.amount d ≠ Some None
  ∧ ExpenseUpdate.category d ≠ Some None.

(** The user has no stored credential: the column is empty, or holds the
    empty string. *)
Definition no_credential (u : User.t) : Prop :=
  User.hashed_password u = None ∨ User.hashed_password u = Some EmptyString.

(** ** A sample database *)

Module Sample.
Import datetime.

Definition at_hour (year month day hour : Z) : datetime.t :=
  (ymd2ord year month day - 1) * US_PER_DAY + hour * 3600 * US_PER_SECOND.

Definition alice : User.t :=
  User.mk 1 "alice" (Some "alice@example.com"%string) (Some "hash-a"%string)
          1000%float true (at_hour 2024 12 1 9) (at_hour 2024 12 1 9).

Definition bob : User.t :=
  User.mk 2 "bob" None None 50%float false
          (at_hour 2024 12 2 9) (at_hour 2024 12 2 9).

Definition groceries : Expense.t :=
  Expense.mk 1 1 "Groceries" 300%float FOOD (at_hour 2025 1 15 10).

Definition bus_pass : Expense.t :=
  Expense.mk 2 1 "Bus pass" 200%float TRANSPORT (at_hour 2025 2 1 0).

Definition concert : Expense.t :=
  Expense.mk 3 1 "Concert" 45.5%float ENTERTAINMENT (at_hour 2025 6 10 20).

Definition bobs_lunch : Expense.t :=
  Expense.mk 4 2 "Lunch" 12%float FOOD (at_hour 2025 1 15 12).

Definition db : DB :=
  mkDB [alice; bob] [groceries; bus_pass; concert; bobs_lunch].

End Sample.

(** Amounts whose binary64 sums are rounded. *)
Module RoundingSample.

Definition expense (expense_id : Z) (amount : float) (c : ExpenseCategory)
  : Expense.t :=
  Expense.mk expense_id 1 "item" amount c (Sample.at_hour 2025 3 expense_id 12).

(** 0.10 of food, then 0.20 and 0.70 of transport. *)
Definition two_categories : list Expense.t :=
  [expense 1 0.1%float FOOD; expense 2 0.2%float TRANSPORT;
   expense 3 0.7%float TRANSPORT].

(** 10^16 and twice 1 of food, then twice 1 of transport. *)
Definition large : list Expense.t :=
  [expense 1 1e16%float FOOD; expense 2 1%float FOOD; expense 3 1%float FOOD;
   expense 4 1%float TRANSPORT; expense 5 1%float TRANSPORT].

(** 0.10, 0.20 and 0.30 of food, and the same expenses in reverse order. *)
Definition ascending : list Expense.t :=
  [expense 1 0.1%float FOOD; expense 2 0.2%float FOOD; expense 3 0.3%float FOOD].

Definition descending : list Expense.t :=
  [expense 3 0.3%float FOOD; expense 2 0.2%float FOOD; expense 1 0.1%float FOOD].

End RoundingSample.

(** ** The constraints of the tables *)

(** The constraints of the table [users]: no two rows hold the same key, the
    same name or the same address; any number of rows hold no address. *)
Definition users_constraints (db : DB) : Prop :=
  NoDup (User.user_id <$> users db)
  ∧ NoDup (User.username <$> users db)
  ∧ NoDup (omap User.email (users db)).

(** The salaries and the amounts are within the bound [ge=0] that the
    summary declares. *)
Definition rows_within_bounds (db : DB) : Prop :=
  Forall (λ u, ge0 (User.salary u) = true) (users db)
  ∧ Forall (λ e, ge0 (Expense.amount e) = true) (expenses db).

(** The row of a user after an update that writes it: a supplied value
    replaces the field, [credential] is stored when a password is supplied,
    and [updated_at] is [utcnow] when a column takes another value. *)
Definition updated_user (utcnow : datetime.t) (u : User.t) (d : UserUpdate.t)
    (credential : string) : User.t :=
  let username :=
    match UserUpdate.username d with
    | Some (Some n) => n | _ => User.username u end in
  let email :=
    match UserUpdate.email d with
    | Some v => v | None => User.email u end in
  let hashed_password :=
    match UserUpdate.password d with
    | Some _ => Some credential | None => User.hashed_password u end in
  let salary_written :=
    match UserUpdate.salary d with
    | Some (Some x) => negb (x =? User.salary u)%float | _ => false end in
  let salary :=
    match UserUpdate.salary d with
    | Some (Some x) => if salary_written then x else User.salary u
    | _ => User.salary u end in
  let written :=
    negb (bool_decide (username = User.username u))
    || negb (bool_decide (email = User.email u))
    || negb (bool_decide (hashed_password = User.hashed_password u))
    || salary_written in
  User.mk (User.user_id u) username email hashed_password salary
    (User.is_active u) (User.created_at u)
    (if written then utcnow else User.updated_at u).

(** The constraints of the two tables: those of [users], the key of
    [expenses], and the foreign key, every expense being that of a stored
    user. *)
Definition tables_constraints (db : DB) : Prop :=
  users_constraints db
  ∧ NoDup (Expense.expense_id <$> expenses db)
  ∧ ∀ e, e ∈ expenses db → Expense.user_id e ∈ User.user_id <$> users db.

(** * Properties *)

(** ** The filter schema *)

Section filter_validation.

Lemma validated_lookup_ne {A : Type} (name key : string) (inj : A → pyval)
    (r : result (option A)) (data : gmap string pyval) :
  name ≠ key → validated name inj r data !! key = data !! key.
Proof.
  intros Hne. unfold validated.
  destruct r as [v|e]; [by rewrite lookup_insert_ne | done].
Qed.

(** When [week] or [month] is validated, [year] has not been validated yet. *)
Lemma year_not_in_data_at_week (r : result (option datetime.date)) :
  data_get_is_None (validated "day" PDate r ∅) "year" = true.
Proof.
  unfold data_get_is_None.
  by rewrite validated_lookup_ne, lookup_empty.
Qed.

Lemma year_not_in_data_at_month (r : result (option datetime.date))
    (r' : result (option Z)) :
  data_get_is_None
    (validated "week" PInt r' (validated "day" PDate r ∅)) "year" = true.
Proof.
  unfold data_get_is_None.
  by rewrite !validated_lookup_ne, lookup_empty.
Qed.

Lemma week_rejected day w month year category :
  ExpenseFilter.new day (Some w) month year category = Err ValidationError.
Proof.
  unfold ExpenseFilter.new.
  assert (constrain_int 1 53 (Some w)
            ≫= (λ v, ExpenseFilter.validate_week_requires_year v
                        (validated "day" PDate (Ok day) ∅))
          = Err ValidationError ∨
          constrain_int 1 53 (Some w)
            ≫= (λ v, ExpenseFilter.validate_week_requires_year v
                        (validated "day" PDate (Ok day) ∅))
          = Err ValueError) as [-> | ->]; [| done | done].
  unfold constrain_int. destruct (_ && _); [right | by left].
  unfold mbind, result_bind, ExpenseFilter.validate_week_requires_year.
  by rewrite year_not_in_data_at_week.
Qed.

Lemma month_rejected day week m year category :
  ExpenseFilter.new day week (Some m) year category = Err ValidationError.
Proof.
  unfold ExpenseFilter.new.
  set (r_week := constrain_int 1 53 week ≫= _).
  assert (constrain_int 1 12 (Some m)
            ≫= (λ v, ExpenseFilter.validate_month_requires_year v
                        (validated "week" PInt r_week
                           (validated "day" PDate (Ok day) ∅)))
          = Err ValidationError ∨
          constrain_int 1 12 (Some m)
            ≫= (λ v, ExpenseFilter.validate_month_requires_year v
                        (validated "week" PInt r_week
                           (validated "day" PDate (Ok day) ∅)))
          = Err ValueError) as [-> | ->].
  - unfold constrain_int. destruct (_ && _); [right | by left].
    unfold mbind, result_bind, ExpenseFilter.validate_month_requires_year.
    by rewrite year_not_in_data_at_month.
  - by destruct r_week.
  - by destruct r_week.
Qed.

End filter_validation.

(** C4. A filter that sets [week] and leaves [year] unset fails validation,
    and so does one that sets [month] and leaves [year] unset. *)
Theorem week_or_month_without_year_is_invalid
    (day : option datetime.date) (week month year : option Z)
    (category : option ExpenseCategory) :
  year = None →
  week ≠ None ∨ month ≠ None →
  ExpenseFilter.new day week month year category = Err ValidationError.
Proof.
  intros _ [Hw | Hm].
  - destruct week as [w|]; [apply week_rejected | done].
  - destruct month as [m|]; [apply month_rejected | done].
Qed.

Lemma week_or_month_without_year_is_invalid_witness :
  ExpenseFilter.new None (Some 3) None None None = Err ValidationError
  ∧ ExpenseFilter.new None None (Some 6) None (Some FOOD) = Err ValidationError.
Proof.
  split.
  - apply (week_or_month_without_year_is_invalid None (Some 3) None None None);
      [reflexivity | left; discriminate].
  - apply (week_or_month_without_year_is_invalid None None (Some 6) None (Some FOOD));
      [reflexivity | right; discriminate].
Defined.

(** C1. The filter of the claim, [month=1, year=2025] (and [month=6,
    year=2025]), is not accepted: [month] is declared before [year], so its
    validator never sees a year and rejects every filter that sets a month. *)
Theorem month_filter_with_year_is_rejected :
  ExpenseFilter.new None None (Some 1) (Some 2025) None = Err ValidationError
  ∧ ExpenseFilter.new None None (Some 6) (Some 2025) None = Err ValidationError.
Proof. split; apply month_rejected. Qed.

(** X1. Every filter that sets [week] or [month] is rejected, whether it
    sets [year] or not: both fields are declared, hence validated, before
    [year]. *)
Theorem filter_with_week_or_month_is_always_rejected
    (day : option datetime.date) (week month year : option Z)
    (category : option ExpenseCategory) :
  week ≠ None ∨ month ≠ None →
  ExpenseFilter.new day week month year category = Err ValidationError.
Proof.
  intros [Hw | Hm].
  - destruct week as [w|]; [apply week_rejected | done].
  - destruct month as [m|]; [apply month_rejected | done].
Qed.

Lemma filter_with_week_or_month_is_always_rejected_witness :
  ExpenseFilter.new None (Some 3) None (Some 2025) None = Err ValidationError.
Proof.
  apply (filter_with_week_or_month_is_always_rejected None (Some 3) None
           (Some 2025) None).
  left. discriminate.
Defined.

(** A filter without week and month is accepted when its year is one that
    the field admits. *)
Lemma filter_without_week_and_month_is_accepted
    (day : option datetime.date) (y : Z) (category : option ExpenseCategory) :
  2000 ≤ y ≤ 2100 →
  ExpenseFilter.new day None None (Some y) category
  = Ok (ExpenseFilter.mk day None None (Some y) category).
Proof.
  intros Hy. unfold ExpenseFilter.new, constrain_int.
  cbn [mbind result_bind]. unfold ExpenseFilter.validate_week_requires_year,
    ExpenseFilter.validate_month_requires_year. cbn [bool_decide andb].
  rewrite !bool_decide_eq_false_2 by (by intros H; apply H).
  cbn [andb].
  by replace ((2000 <=? y) && (y <=? 2100)) with true
    by (symmetry; apply andb_true_intro; split; lia).
Qed.

(** ** The calendar *)

Section calendar.
Import datetime.

(** Evaluates the lookups in the month tables at a literal month. *)
Ltac table_lookup :=
  repeat match goal with
    | |- context [Z.to_nat ?n] =>
        let v := eval vm_compute in (Z.to_nat n) in
        progress change (Z.to_nat n) with v
    | |- context [Z.ltb ?a ?b] =>
        let v := eval vm_compute in (Z.ltb a b) in
        progress change (Z.ltb a b) with v
    end;
  cbn.

Lemma MAX_US_eq : MAX_US = 3652059 * US_PER_DAY.
Proof. reflexivity. Qed.

Lemma US_PER_DAY_eq : US_PER_DAY = 86400000000.
Proof. reflexivity. Qed.

Lemma days_before_year_bounds (year : Z) :
  1 ≤ year ≤ 9999 → 0 ≤ days_before_year year ≤ 3651694.
Proof.
  intros Hy. unfold days_before_year. cbv zeta.
  Z.div_mod_to_equations. lia.
Qed.

Lemma days_before_year_mono (y1 y2 : Z) :
  1 ≤ y1 ≤ y2 → days_before_year y1 ≤ days_before_year y2.
Proof.
  intros Hy. unfold days_before_year. cbv zeta.
  Z.div_mod_to_equations. lia.
Qed.

Lemma days_before_year_succ (year : Z) :
  1 ≤ year →
  days_before_year (year + 1)
  = days_before_year year + (if is_leap year then 366 else 365).
Proof.
  intros Hy. unfold days_before_year, is_leap. cbv zeta.
  replace (year + 1 - 1) with year by lia.
  destruct (Z.eqb_spec (year mod 4) 0), (Z.eqb_spec (year mod 100) 0),
    (Z.eqb_spec (year mod 400) 0); cbn [negb andb orb];
    Z.div_mod_to_equations; lia.
Qed.

Lemma ymd2ord_jan_1 (year : Z) : ymd2ord year 1 1 = days_before_year year + 1.
Proof. unfold ymd2ord, days_before_month. table_lookup. lia. Qed.

Lemma days_in_month_range (year month : Z) :
  1 ≤ month ≤ 12 → 28 ≤ days_in_month year month ≤ 31.
Proof.
  intros Hm. unfold days_in_month.
  assert (month = 1 ∨ month = 2 ∨ month = 3 ∨ month = 4 ∨ month = 5 ∨ month = 6
          ∨ month = 7 ∨ month = 8 ∨ month = 9 ∨ month = 10 ∨ month = 11
          ∨ month = 12) as Hcases by lia.
  repeat (destruct Hcases as [-> | Hcases]); try subst month;
    destruct (is_leap year); table_lookup; lia.
Qed.

(** The first day of the next month follows the last day of the month. *)
Lemma ymd2ord_next_month (year month : Z) :
  1 ≤ month ≤ 11 →
  ymd2ord year (month + 1) 1
  = ymd2ord year month (days_in_month year month) + 1.
Proof.
  intros Hm. unfold ymd2ord, days_before_month, days_in_month.
  assert (month = 1 ∨ month = 2 ∨ month = 3 ∨ month = 4 ∨ month = 5 ∨ month = 6
          ∨ month = 7 ∨ month = 8 ∨ month = 9 ∨ month = 10 ∨ month = 11)
    as Hcases by lia.
  repeat (destruct Hcases as [-> | Hcases]); try subst month;
    destruct (is_leap year); table_lookup; lia.
Qed.

Lemma ymd2ord_next_year (year : Z) :
  1 ≤ year →
  ymd2ord (year + 1) 1 1 = ymd2ord year 12 (days_in_month year 12) + 1.
Proof.
  intros Hy. rewrite ymd2ord_jan_1, days_before_year_succ by done.
  unfold ymd2ord, days_before_month, days_in_month.
  destruct (is_leap year); table_lookup; lia.
Qed.

Lemma check_date_fields_first (year month : Z) :
  1 ≤ year ≤ 9999 → 1 ≤ month ≤ 12 → check_date_fields year month 1 = true.
Proof.
  intros Hy Hm. unfold check_date_fields, MINYEAR, MAXYEAR.
  pose proof (days_in_month_range year month Hm).
  repeat (apply andb_true_intro; split); lia.
Qed.

Lemma new_first_of_month (year month : Z) :
  1 ≤ year ≤ 9999 → 1 ≤ month ≤ 12 →
  datetime.new year month 1 = Ok ((ymd2ord year month 1 - 1) * US_PER_DAY).
Proof.
  intros Hy Hm. unfold datetime.new, new_full.
  rewrite check_date_fields_first by done. cbn. f_equal. lia.
Qed.

Lemma days_before_month_bounds (year month : Z) :
  1 ≤ month ≤ 12 → 0 ≤ days_before_month year month ≤ 335.
Proof.
  intros Hm. unfold days_before_month.
  assert (month = 1 ∨ month = 2 ∨ month = 3 ∨ month = 4 ∨ month = 5 ∨ month = 6
          ∨ month = 7 ∨ month = 8 ∨ month = 9 ∨ month = 10 ∨ month = 11
          ∨ month = 12) as Hcases by lia.
  repeat (destruct Hcases as [-> | Hcases]); try subst month;
    destruct (is_leap year); table_lookup; lia.
Qed.

End calendar.

Section range_conditions.
Import datetime FilterResolver.

Lemma truthy_int_Some (n : Z) : n ≠ 0 → truthy_int (Some n) = true.
Proof. intros Hn. unfold truthy_int. by destruct (Z.eqb_spec n 0). Qed.

Lemma in_range_true (us : Z) : 0 ≤ us < MAX_US → in_range us = true.
Proof. intros H. unfold in_range. apply andb_true_intro. split; lia. Qed.

Lemma range_conditions_day (f : ExpenseFilter.t) (d : date) :
  ExpenseFilter.day f = Some d →
  ExpenseService.range_conditions f
  = Ok [CreatedBetween (day_range d).1 (day_range d).2].
Proof.
  intros Hd. unfold ExpenseService.range_conditions. rewrite Hd.
  unfold combine_min, combine_max, day_range. cbn. do 3 f_equal. lia.
Qed.

Lemma range_conditions_week (f : ExpenseFilter.t) (w y : Z) :
  ExpenseFilter.day f = None →
  ExpenseFilter.week f = Some w →
  ExpenseFilter.year f = Some y →
  1 ≤ w ≤ 53 → 1 ≤ y ≤ 9998 →
  ExpenseService.range_conditions f
  = Ok [CreatedBetween (week_range y w).1 (week_range y w).2].
Proof.
  intros Hd Hw Hy Hwr Hyr. unfold ExpenseService.range_conditions.
  rewrite Hd, Hw, Hy, !truthy_int_Some by lia. cbn [andb default]. unfold id.
  rewrite new_first_of_month by lia. cbn [mbind result_bind].
  pose proof (days_before_year_mono y 9998 ltac:(lia)) as Hmono.
  pose proof (days_before_year_bounds y ltac:(lia)) as Hb.
  assert (days_before_year 9998 = 3651329) as E9998 by reflexivity.
  rewrite ymd2ord_jan_1.
  unfold datetime.add, timedelta, week_range. rewrite ymd2ord_jan_1. cbv zeta.
  rewrite in_range_true.
  2:{ rewrite MAX_US_eq, US_PER_DAY_eq. unfold US_PER_SECOND. lia. }
  cbn [mbind result_bind].
  rewrite in_range_true.
  2:{ rewrite MAX_US_eq, US_PER_DAY_eq. unfold US_PER_SECOND. lia. }
  cbn [mbind result_bind fst snd]. unfold LAST_SECOND.
  do 3 f_equal; rewrite ?US_PER_DAY_eq; unfold US_PER_SECOND; lia.
Qed.

Lemma range_conditions_month (f : ExpenseFilter.t) (m y : Z) :
  ExpenseFilter.day f = None →
  ExpenseFilter.week f = None →
  ExpenseFilter.month f = Some m →
  ExpenseFilter.year f = Some y →
  1 ≤ m ≤ 12 → 1 ≤ y ≤ 9998 →
  ExpenseService.range_conditions f
  = Ok [CreatedBetween (month_range y m).1 (month_range y m).2].
Proof.
  intros Hd Hw Hm Hy Hmr Hyr. unfold ExpenseService.range_conditions.
  rewrite Hd, Hw, Hm, Hy, !truthy_int_Some by lia.
  cbn [andb default truthy_int]. unfold id.
  pose proof (days_before_year_mono y 9998 ltac:(lia)) as Hmono.
  pose proof (days_before_year_bounds y ltac:(lia)) as Hb.
  pose proof (days_before_month_bounds y m Hmr) as Hbm.
  pose proof (days_in_month_range y m Hmr) as Hdim.
  assert (days_before_year 9998 = 3651329) as E9998 by reflexivity.
  assert (ymd2ord y m (days_in_month y m)
          = days_before_year y + days_before_month y m + days_in_month y m)
    as Hlast by reflexivity.
  assert (in_range ((ymd2ord y m (days_in_month y m) + 1 - 1) * US_PER_DAY
                    - timedelta 0 0 0 0 1) = true) as Hin.
  { apply in_range_true.
    rewrite MAX_US_eq, US_PER_DAY_eq, Hlast. unfold timedelta, US_PER_SECOND. lia. }
  unfold month_range. cbn [fst snd].
  rewrite (new_first_of_month y m) by lia. cbn [mbind result_bind].
  destruct (Z.eqb_spec m 12) as [-> | Hne].
  - rewrite new_first_of_month by lia. cbn [mbind result_bind].
    rewrite ymd2ord_next_year by lia.
    unfold datetime.sub. rewrite Hin. cbn [mbind result_bind].
    unfold LAST_SECOND, timedelta.
    do 3 f_equal. rewrite US_PER_DAY_eq. unfold US_PER_SECOND. lia.
  - rewrite new_first_of_month by lia. cbn [mbind result_bind].
    rewrite ymd2ord_next_month by lia.
    unfold datetime.sub. rewrite Hin. cbn [mbind result_bind].
    unfold LAST_SECOND, timedelta.
    do 3 f_equal. rewrite US_PER_DAY_eq. unfold US_PER_SECOND. lia.
Qed.

Lemma range_conditions_none (f : ExpenseFilter.t) :
  ExpenseFilter.day f = None →
  ExpenseFilter.week f = None ∨ ExpenseFilter.year f = None →
  ExpenseFilter.month f = None ∨ ExpenseFilter.year f = None →
  ExpenseService.range_conditions f = Ok [].
Proof.
  intros Hd Hw Hm. unfold ExpenseService.range_conditions. rewrite Hd.
  destruct Hw as [Hw | Hw], Hm as [Hm | Hm]; rewrite ?Hw, ?Hm;
    cbn [truthy_int andb]; rewrite ?andb_false_r; reflexivity.
Qed.

End range_conditions.

(** ** The query of [get_user_expenses] *)

Section get_user_expenses.
Import datetime FilterResolver.

Lemma holds_range (e : Expense.t) (lo hi : Z) :
  holds e (CreatedBetween lo hi) = true ↔ lo ≤ Expense.created_at e ≤ hi.
Proof. cbn. rewrite andb_true_iff. lia. Qed.

Lemma holds_category (e : Expense.t) (c : ExpenseCategory) :
  holds e (CategoryIs c) = true ↔ Expense.category e = c.
Proof. cbn. by rewrite bool_decide_eq_true. Qed.

Lemma category_conditions_hold (e : Expense.t) (f : ExpenseFilter.t) :
  forallb (holds e) (ExpenseService.category_conditions f) = true
  ↔ in_category_of (ExpenseFilter.category f) e.
Proof.
  unfold ExpenseService.category_conditions, in_category_of.
  destruct (ExpenseFilter.category f) as [c|]; cbn [forallb]; [| done].
  by rewrite andb_true_r, holds_category.
Qed.

Lemma selected_conditions_hold (e : Expense.t) (f : ExpenseFilter.t) :
  forallb (holds e) (selected_conditions f) = true
  ↔ in_range_of (selected_range f) e.
Proof.
  unfold selected_conditions, in_range_of.
  destruct (selected_range f) as [[lo hi]|]; cbn [forallb]; [| done].
  by rewrite andb_true_r, holds_range.
Qed.

Lemma range_conditions_selected (f : ExpenseFilter.t) :
  ExpenseFilter.fields_in_range f →
  ExpenseService.range_conditions f = Ok (selected_conditions f).
Proof.
  intros (Hw & Hm & Hy). unfold selected_conditions, selected_range.
  destruct (ExpenseFilter.day f) as [d|] eqn:Ed.
  { by rewrite (range_conditions_day f d). }
  destruct (ExpenseFilter.week f) as [w|] eqn:Ew,
    (ExpenseFilter.year f) as [y|] eqn:Ey.
  - specialize (Hw w eq_refl). specialize (Hy y eq_refl).
    rewrite (range_conditions_week f w y) by (done || lia).
    by destruct (week_range y w).
  - rewrite range_conditions_none by auto.
    by destruct (ExpenseFilter.month f).
  - destruct (ExpenseFilter.month f) as [m|] eqn:Em.
    + specialize (Hm m eq_refl). specialize (Hy y eq_refl).
      rewrite (range_conditions_month f m y) by (done || lia).
      by destruct (month_range y m).
    + by rewrite range_conditions_none by auto.
  - rewrite range_conditions_none by auto.
    by destruct (ExpenseFilter.month f).
Qed.

End get_user_expenses.

(** C2. Of the range selectors of a filter, one is applied, picked by the
    precedence day, week, month; the category condition is applied besides
    it, whichever range is picked.  (The selectors range over the values that
    their fields declare.) *)
Theorem one_range_filter_by_precedence
    (db : DB) (user_id : Z) (user : User.t) (f : ExpenseFilter.t) :
  ExpenseFilter.fields_in_range f →
  ExpenseService.verify_user_exists db user_id = Ok user →
  ExpenseService.range_conditions f
  = Ok (match FilterResolver.selected_range f with
        | Some (lo, hi) => [CreatedBetween lo hi]
        | None => []
        end)
  ∧ ExpenseService.get_user_expenses db user_id (Some f)
    = Ok (order_by_created_at_desc
            (filter (λ e, Expense.user_id e = user_id
                          ∧ FilterResolver.in_range_of
                              (FilterResolver.selected_range f) e
                          ∧ FilterResolver.in_category_of
                              (ExpenseFilter.category f) e)
                    (expenses db))).
Proof.
  intros Hf Hu. split; [by apply range_conditions_selected |].
  unfold ExpenseService.get_user_expenses.
  rewrite Hu, range_conditions_selected by done.
  cbn [mbind result_bind]. do 2 f_equal.
  apply list_filter_iff. intros e.
  rewrite forallb_app, andb_true_iff.
  by rewrite selected_conditions_hold, category_conditions_hold.
Qed.

Lemma one_range_filter_by_precedence_witness :
  let f := ExpenseFilter.mk (Some (datetime.ymd2ord 2025 1 15)) (Some 5)
                            (Some 6) (Some 2025) (Some FOOD) in
  ExpenseService.range_conditions f
  = Ok [CreatedBetween (FilterResolver.day_range (datetime.ymd2ord 2025 1 15)).1
                       (FilterResolver.day_range (datetime.ymd2ord 2025 1 15)).2]
  ∧ ExpenseService.get_user_expenses Sample.db 1 (Some f)
    = Ok (order_by_created_at_desc
            (filter (λ e, Expense.user_id e = 1
                          ∧ FilterResolver.in_range_of
                              (FilterResolver.selected_range f) e
                          ∧ FilterResolver.in_category_of
                              (ExpenseFilter.category f) e)
                    (expenses Sample.db))).
Proof.
  cbv zeta.
  apply (one_range_filter_by_precedence Sample.db 1 Sample.alice).
  - split; [| split]; intros ? [= <-]; lia.
  - reflexivity.
Defined.

(** C3. The week filter of year [y] and week [n] keeps exactly the expenses
    created in the closed interval that starts [(n - 1) * 7] days after
    January 1st of [y] at 00:00:00 and ends 6 days later at 23:59:59.  Week 1
    starts on January 1st, and every week on the weekday of January 1st.
    (Years 1 to 9998: the years in which [datetime] can hold a 53rd week,
    the years 2000 to 2100 of the filter among them.) *)
Theorem week_filter_counts_from_january_1st
    (db : DB) (user_id : Z) (user : User.t) (y n : Z) (month : option Z) :
  1 ≤ n ≤ 53 →
  1 ≤ y ≤ 9998 →
  ExpenseService.verify_user_exists db user_id = Ok user →
  ∃ jan_1 : datetime.t,
    datetime.new y 1 1 = Ok jan_1 ∧
    let week_start := jan_1 + (n - 1) * 7 * datetime.US_PER_DAY in
    let week_end :=
      week_start + 6 * datetime.US_PER_DAY + FilterResolver.LAST_SECOND in
    let selected :=
      filter (λ e, Expense.user_id e = user_id
                   ∧ week_start ≤ Expense.created_at e ≤ week_end)
             (expenses db) in
    ExpenseService.get_user_expenses db user_id
      (Some (ExpenseFilter.mk None (Some n) month (Some y) None))
    = Ok (order_by_created_at_desc selected)
    ∧ (∀ e, e ∈ order_by_created_at_desc selected
            ↔ e ∈ expenses db ∧ Expense.user_id e = user_id
              ∧ week_start ≤ Expense.created_at e ≤ week_end)
    ∧ (n = 1 → week_start = jan_1)
    ∧ datetime.weekday week_start = datetime.weekday jan_1.
Proof.
  intros Hn Hy Hu.
  exists ((datetime.ymd2ord y 1 1 - 1) * datetime.US_PER_DAY).
  split; [apply new_first_of_month; lia |]. cbv zeta.
  split; [| split; [| split]].
  - unfold ExpenseService.get_user_expenses. rewrite Hu.
    rewrite (range_conditions_week _ n y) by (done || lia).
    cbn [mbind result_bind]. do 2 f_equal.
    apply list_filter_iff. intros e.
    cbn [ExpenseService.category_conditions ExpenseFilter.category app forallb].
    rewrite andb_true_r, holds_range.
    unfold FilterResolver.week_range. cbn [fst snd]. split.
    + intros [? ?]; split; [done | lia].
    + intros [? ?]; split; [done | lia].
  - intros e. unfold order_by_created_at_desc.
    rewrite merge_sort_Permutation, list_elem_of_filter. tauto.
  - intros ->. lia.
  - unfold datetime.weekday.
    replace (((datetime.ymd2ord y 1 1 - 1) * datetime.US_PER_DAY
              + (n - 1) * 7 * datetime.US_PER_DAY) `div` datetime.US_PER_DAY)
      with ((datetime.ymd2ord y 1 1 - 1) + (n - 1) * 7).
    2:{ rewrite <- Z.mul_add_distr_r, Z.div_mul; [done | by rewrite US_PER_DAY_eq]. }
    rewrite Z.div_mul by (by rewrite US_PER_DAY_eq).
    replace (datetime.ymd2ord y 1 1 - 1 + (n - 1) * 7 + 1 + 6)
      with (datetime.ymd2ord y 1 1 - 1 + 1 + 6 + (n - 1) * 7) by lia.
    by rewrite Z.mod_add.
Qed.

Lemma week_filter_counts_from_january_1st_witness :
  ∃ jan_1 : datetime.t,
    datetime.new 2025 1 1 = Ok jan_1 ∧
    let week_start := jan_1 + (3 - 1) * 7 * datetime.US_PER_DAY in
    let week_end :=
      week_start + 6 * datetime.US_PER_DAY + FilterResolver.LAST_SECOND in
    let selected :=
      filter (λ e, Expense.user_id e = 1
                   ∧ week_start ≤ Expense.created_at e ≤ week_end)
             (expenses Sample.db) in
    ExpenseService.get_user_expenses Sample.db 1
      (Some (ExpenseFilter.mk None (Some 3) (Some 6) (Some 2025) None))
    = Ok (order_by_created_at_desc selected)
    ∧ (∀ e, e ∈ order_by_created_at_desc selected
            ↔ e ∈ expenses Sample.db ∧ Expense.user_id e = 1
              ∧ week_start ≤ Expense.created_at e ≤ week_end)
    ∧ (3 = 1 → week_start = jan_1)
    ∧ datetime.weekday week_start = datetime.weekday jan_1.
Proof.
  apply (week_filter_counts_from_january_1st Sample.db 1 Sample.alice 2025 3
           (Some 6)).
  - lia.
  - lia.
  - reflexivity.
Defined.

(** ** Signs of binary64 results

    Sums of non-negative floats and their roundings are non-negative, by the
    specification of the primitive operations. *)

Section float_signs.

Lemma ge0_spec (x : float) : ge0 x = sf_nonneg (Prim2SF x).
Proof.
  unfold ge0. rewrite leb_spec.
  change (Prim2SF 0) with (S754_zero false).
  by destruct (Prim2SF x) as [[]|[]| |[] m e].
Qed.

Lemma shr_1_nonneg (mrs : shr_record) : 0 ≤ shr_m mrs → 0 ≤ shr_m (shr_1 mrs).
Proof. destruct mrs as [[|[p|p|]|p] r s]; cbn; lia. Qed.

Lemma iter_shr_1_nonneg (p : positive) :
  ∀ mrs, 0 ≤ shr_m mrs → 0 ≤ shr_m (SpecFloat.iter_pos shr_1 p mrs).
Proof.
  induction p as [p IH|p IH|]; intros mrs H; cbn.
  - by apply IH, IH, shr_1_nonneg.
  - by apply IH, IH.
  - by apply shr_1_nonneg.
Qed.

Lemma shr_fexp_nonneg (m e : Z) (l : location) :
  0 ≤ m → 0 ≤ shr_m (shr_fexp prec emax m e l).1.
Proof.
  intros H. unfold shr_fexp, shr.
  assert (0 ≤ shr_m (shr_record_of_loc m l)) as H'.
  { by destruct l as [|[]]. }
  destruct (fexp prec emax (Zdigits2 m + e) - e); cbn [fst]; try done.
  by apply iter_shr_1_nonneg.
Qed.

Lemma round_nearest_even_nonneg (m : Z) (l : location) :
  0 ≤ m → 0 ≤ round_nearest_even m l.
Proof. intros H. destruct l as [|[]]; cbn; try destruct (Z.even m); lia. Qed.

Lemma binary_round_aux_nonneg (m e : Z) (l : location) :
  0 ≤ m → sf_nonneg (binary_round_aux prec emax false m e l) = true.
Proof.
  intros H. unfold binary_round_aux.
  pose proof (shr_fexp_nonneg m e l H) as H1.
  destruct (shr_fexp prec emax m e l) as [mrs' e'].
  pose proof (shr_fexp_nonneg _ e' loc_Exact
                (round_nearest_even_nonneg _ (loc_of_shr_record mrs') H1)) as H2.
  destruct (shr_fexp prec emax _ e' loc_Exact) as [mrs'' e''].
  cbn [fst] in H2. destruct (shr_m mrs''); [done | | lia].
  by destruct (_ <=? _).
Qed.

Lemma binary_round_nonneg (m : positive) (e : Z) :
  sf_nonneg (binary_round prec emax false m e) = true.
Proof.
  unfold binary_round. destruct (shl_align _ _ _) as [mz ez].
  by apply binary_round_aux_nonneg.
Qed.

Lemma SFadd_nonneg (a b : spec_float) :
  sf_nonneg a = true → sf_nonneg b = true →
  sf_nonneg (SFadd prec emax a b) = true.
Proof.
  destruct a as [sa|sa| |sa ma ea], b as [sb|sb| |sb mb eb];
    try destruct sa; try destruct sb; try done.
  intros _ _. unfold SFadd. cbv zeta. cbn [cond_Zopp].
  apply binary_round_nonneg.
Qed.

Lemma add_nonneg (x y : float) :
  ge0 x = true → ge0 y = true → ge0 (x + y)%float = true.
Proof. rewrite !ge0_spec, add_spec. apply SFadd_nonneg. Qed.

Lemma SF2Prim_nonneg (a : spec_float) :
  sf_nonneg a = true → ge0 (SF2Prim a) = true.
Proof.
  destruct a as [[]|[]| |[] m e]; try done.
  intros _. rewrite ge0_spec. unfold SF2Prim, Z.ldexp.
  rewrite ldshiftexp_spec, of_uint63_spec.
  set (n := Uint63Axioms.to_Z _).
  assert (0 ≤ n) as Hn.
  { subst n. apply Uint63.to_Z_bounded. }
  set (k := _ - FloatOps.shift). clearbody k n.
  assert (sf_nonneg (binary_normalize prec emax n 0 false) = true) as H.
  { destruct n; [done | apply binary_round_nonneg | lia]. }
  destruct (binary_normalize prec emax n 0 false) as [[]|[]| |[] m' e'];
    try done.
  cbn [SFldexp]. apply binary_round_nonneg.
Qed.

Lemma SFdiv_nonneg (p q : positive) (e1 e2 : Z) :
  sf_nonneg (SFdiv prec emax (S754_finite false p e1) (S754_finite false q e2))
  = true.
Proof.
  unfold SFdiv, SFdiv_core_binary. cbv zeta.
  set (m' := match _ - _ - _ with Z0 => _ | Zpos _ => _ | Zneg _ => _ end).
  assert (0 ≤ m') as Hm'.
  { subst m'. destruct (_ - _ - _); [lia | | lia].
    apply Z.shiftl_nonneg. lia. }
  clearbody m'.
  pose proof (Z.div_pos m' (Z.pos q) Hm' ltac:(lia)) as Hq.
  unfold Z.div in Hq.
  destruct (Z.div_eucl m' (Z.pos q)) as [d r]. cbn [fst] in Hq.
  by apply binary_round_aux_nonneg.
Qed.

Lemma round2_nonneg (x : float) :
  ge0 x = true → ge0 (pyfloat.round2 x) = true.
Proof.
  intros Hx. pose proof Hx as Hx'. rewrite ge0_spec in Hx'.
  unfold pyfloat.round2.
  destruct (Prim2SF x) as [s|s| |s m e]; try done.
  destruct s; [done |].
  destruct (if 0 <=? e then _ else _); [reflexivity | | reflexivity].
  apply SF2Prim_nonneg, SFdiv_nonneg.
Qed.

Lemma fold_add_nonneg (xs : list float) :
  ∀ acc, ge0 acc = true → Forall (λ x, ge0 x = true) xs →
         ge0 (fold_left PrimFloat.add xs acc) = true.
Proof.
  induction xs as [| x xs IH]; intros acc Hacc Hxs; [done |].
  inversion_clear Hxs. cbn [fold_left]. apply IH; [| done].
  by apply add_nonneg.
Qed.

End float_signs.

(** ** The aggregator *)

Section aggregator.

Lemma ExpenseCategory_value_inj (c1 c2 : ExpenseCategory) :
  ExpenseCategory_value c1 = ExpenseCategory_value c2 → c1 = c2.
Proof. destruct c1, c2; cbn; intros H; try reflexivity; discriminate H. Qed.

Lemma initial_category_totals_lookup (c : ExpenseCategory) :
  ExpenseService.initial_category_totals !! ExpenseCategory_value c
  = Some 0%float.
Proof. destruct c; reflexivity. Qed.

Lemma amounts_of_cons (c : ExpenseCategory) (e : Expense.t) (l : list Expense.t) :
  amounts_of c (e :: l)
  = if decide (Expense.category e = c)
    then Expense.amount e :: amounts_of c l
    else amounts_of c l.
Proof.
  unfold amounts_of. rewrite filter_cons.
  by destruct (decide (Expense.category e = c)).
Qed.

Lemma add_to_category_held (totals : gmap string float) (e : Expense.t)
    (old : float) :
  totals !! ExpenseCategory_value (Expense.category e) = Some old →
  ExpenseService.add_to_category totals e
  = Ok (<[ExpenseCategory_value (Expense.category e) :=
            (old + Expense.amount e)%float]> totals).
Proof. intros H. unfold ExpenseService.add_to_category. by rewrite H. Qed.

(** The loop never misses a key, and leaves in each category the sum of its
    amounts added, in list order, to what the category held. *)
Lemma category_loop (l : list Expense.t) :
  ∀ (totals : gmap string float) (held : ExpenseCategory → float),
    (∀ c, totals !! ExpenseCategory_value c = Some (held c)) →
    ∃ totals',
      ExpenseService.for_each ExpenseService.add_to_category l totals
      = Ok totals'
      ∧ ∀ c, totals' !! ExpenseCategory_value c
             = Some (fold_left PrimFloat.add (amounts_of c l) (held c)).
Proof.
  induction l as [| e l IH]; intros totals held Hheld.
  - exists totals. split; [reflexivity | apply Hheld].
  - cbn [ExpenseService.for_each].
    rewrite (add_to_category_held totals e _ (Hheld _)).
    cbn [mbind result_bind].
    set (k := Expense.category e).
    destruct (IH (<[ExpenseCategory_value k :=
                      (held k + Expense.amount e)%float]> totals)
                 (λ c, if decide (k = c)
                       then (held k + Expense.amount e)%float else held c))
      as (totals' & Hrun & Hsum).
    { intros c. destruct (decide (k = c)) as [<- | Hne].
      - apply lookup_insert_eq.
      - rewrite lookup_insert_ne; [apply Hheld |].
        intros Heq. by apply ExpenseCategory_value_inj in Heq. }
    exists totals'. split; [exact Hrun |].
    intros c. rewrite Hsum, amounts_of_cons. fold k.
    by destruct (decide (k = c)) as [<- | Hne].
Qed.

Lemma category_totals_after_loop (l : list Expense.t) :
  ∃ totals,
    ExpenseService.for_each ExpenseService.add_to_category l
      ExpenseService.initial_category_totals = Ok totals
    ∧ ∀ c, totals !! ExpenseCategory_value c = Some (category_sum c l).
Proof.
  destruct (category_loop l ExpenseService.initial_category_totals
              (λ _, 0%float)) as (totals & Hrun & Hsum).
  - apply initial_category_totals_lookup.
  - by exists totals.
Qed.

Lemma summarize_within_bounds (alg : pyfloat.sum_algorithm) (user_id : Z)
    (salary : float) (l : list Expense.t) :
  within_bounds alg salary l →
  ExpenseService.summarize alg user_id salary l
  = Ok (summary_of alg user_id salary l).
Proof.
  intros (Hs & Ht & Hc). unfold ExpenseService.summarize.
  destruct (category_totals_after_loop l) as (totals & -> & Hsum).
  cbn [mbind result_bind]. unfold CategoryBreakdown.new.
  cbn [default all_categories forallb]. rewrite !Hsum. cbn [from_option].
  unfold id. rewrite !Hc. cbn [andb mbind result_bind].
  unfold BudgetSummary.new. rewrite Hs, Ht. reflexivity.
Qed.

End aggregator.

Section budget_summary.

Lemma amounts_of_nonneg (c : ExpenseCategory) (l : list Expense.t) :
  Forall (λ e, ge0 (Expense.amount e) = true) l →
  Forall (λ x, ge0 x = true) (amounts_of c l).
Proof.
  intros Hl. unfold amounts_of. apply Forall_fmap.
  rewrite Forall_forall in Hl |- *.
  intros e He. apply list_elem_of_filter in He as [_ He]. by apply Hl.
Qed.

(** With the sum taken from left to right, the bounds of the response hold
    as soon as the salary and the amounts are not negative. *)
Lemma within_bounds_naive (salary : float) (l : list Expense.t) :
  ge0 salary = true →
  Forall (λ e, ge0 (Expense.amount e) = true) l →
  within_bounds pyfloat.Naive salary l.
Proof.
  intros Hs Hl. split; [done | split].
  - apply round2_nonneg. cbn [pyfloat.sum]. unfold pyfloat.sum_naive.
    apply fold_add_nonneg; [reflexivity | by apply Forall_fmap].
  - intros c. apply fold_add_nonneg; [reflexivity | by apply amounts_of_nonneg].
Qed.

(** With the compensated sum, the bound on the rounded total is asked for. *)
Lemma within_bounds_neumaier (salary : float) (l : list Expense.t) :
  ge0 salary = true →
  Forall (λ e, ge0 (Expense.amount e) = true) l →
  ge0 (pyfloat.round2 (pyfloat.sum pyfloat.Neumaier (Expense.amount <$> l)))
  = true →
  within_bounds pyfloat.Neumaier salary l.
Proof.
  intros Hs Hl Ht. split; [done | split; [done |]].
  intros c. apply fold_add_nonneg; [reflexivity | by apply amounts_of_nonneg].
Qed.

Lemma get_budget_summary_within_bounds (alg : pyfloat.sum_algorithm) (db : DB)
    (user_id : Z) (filters : option ExpenseFilter.t) (user : User.t)
    (l : list Expense.t) :
  ExpenseService.verify_user_exists db user_id = Ok user →
  ExpenseService.get_user_expenses db user_id filters = Ok l →
  within_bounds alg (User.salary user) l →
  ExpenseService.get_budget_summary alg db user_id filters
  = Ok (summary_of alg user_id (User.salary user) l).
Proof.
  intros Hu Hl Hb. unfold ExpenseService.get_budget_summary.
  rewrite Hu. cbn [mbind result_bind]. rewrite Hl. cbn [mbind result_bind].
  by apply summarize_within_bounds.
Qed.

End budget_summary.

(** C5. [get_budget_summary] returns [total_expense = round(sum of the
    amounts, 2)] and [remaining_amount = round(salary - sum of the amounts,
    2)] whenever the response is within the bounds of its schema;
    [remaining_amount] has no bound and can be negative.  For a salary of 1000
    and the expenses 300 (Food) and 200 (Transport) the summary is 500.0,
    500.0 and the breakdown 300.0, 200.0, 0.0, 0.0, 0.0. *)
Theorem budget_summary_totals :
  (∀ (alg : pyfloat.sum_algorithm) (db : DB) (user_id : Z)
     (filters : option ExpenseFilter.t) (user : User.t) (l : list Expense.t),
     ExpenseService.verify_user_exists db user_id = Ok user →
     ExpenseService.get_user_expenses db user_id filters = Ok l →
     within_bounds alg (User.salary user) l →
     ∃ summary,
       ExpenseService.get_budget_summary alg db user_id filters = Ok summary
       ∧ BudgetSummary.user_id summary = user_id
       ∧ BudgetSummary.total_salary summary = User.salary user
       ∧ BudgetSummary.total_expense summary
         = pyfloat.round2 (pyfloat.sum alg (Expense.amount <$> l))
       ∧ BudgetSummary.remaining_amount summary
         = pyfloat.round2
             (User.salary user - pyfloat.sum alg (Expense.amount <$> l))%float)
  ∧ (∀ (alg : pyfloat.sum_algorithm) (db : DB) (user_id : Z)
       (filters : option ExpenseFilter.t) (user : User.t) (e1 e2 : Expense.t),
       ExpenseService.verify_user_exists db user_id = Ok user →
       ExpenseService.get_user_expenses db user_id filters = Ok [e1; e2] →
       User.salary user = 1000%float →
       Expense.amount e1 = 300%float → Expense.category e1 = FOOD →
       Expense.amount e2 = 200%float → Expense.category e2 = TRANSPORT →
       ExpenseService.get_budget_summary alg db user_id filters
       = Ok (BudgetSummary.mk user_id 1000%float 500%float 500%float
               (CategoryBreakdown.mk 300%float 200%float 0%float 0%float 0%float)))
  ∧ (∀ (alg : pyfloat.sum_algorithm) (db : DB) (user_id : Z)
       (filters : option ExpenseFilter.t) (user : User.t) (e : Expense.t),
       ExpenseService.verify_user_exists db user_id = Ok user →
       ExpenseService.get_user_expenses db user_id filters = Ok [e] →
       User.salary user = 100%float →
       Expense.amount e = 300%float → Expense.category e = FOOD →
       ExpenseService.get_budget_summary alg db user_id filters
       = Ok (BudgetSummary.mk user_id 100%float 300%float (-200)%float
               (CategoryBreakdown.mk 300%float 0%float 0%float 0%float 0%float))).
Proof.
  split; [| split].
  - intros alg db user_id filters user l Hu Hl Hb.
    exists (summary_of alg user_id (User.salary user) l).
    split; [by apply get_budget_summary_within_bounds | done].
  - intros alg db user_id filters user [i1 u1 n1 a1 c1 t1] [i2 u2 n2 a2 c2 t2]
      Hu Hl Hs Ha1 Hc1 Ha2 Hc2.
    cbn in Ha1, Hc1, Ha2, Hc2. subst.
    unfold ExpenseService.get_budget_summary.
    rewrite Hu. cbn [mbind result_bind]. rewrite Hl. cbn [mbind result_bind].
    rewrite Hs. by destruct alg; vm_compute.
  - intros alg db user_id filters user [i1 u1 n1 a1 c1 t1] Hu Hl Hs Ha1 Hc1.
    cbn in Ha1, Hc1. subst.
    unfold ExpenseService.get_budget_summary.
    rewrite Hu. cbn [mbind result_bind]. rewrite Hl. cbn [mbind result_bind].
    rewrite Hs. by destruct alg; vm_compute.
Qed.

Lemma budget_summary_totals_witness :
  ∃ summary,
    ExpenseService.get_budget_summary pyfloat.Neumaier Sample.db 1 None
    = Ok summary
    ∧ BudgetSummary.user_id summary = 1
    ∧ BudgetSummary.total_salary summary = 1000%float
    ∧ BudgetSummary.total_expense summary = 545.5%float
    ∧ BudgetSummary.remaining_amount summary = 454.5%float.
Proof.
  apply (proj1 budget_summary_totals pyfloat.Neumaier Sample.db 1 None
           Sample.alice [Sample.concert; Sample.bus_pass; Sample.groceries]).
  - reflexivity.
  - reflexivity.
  - apply within_bounds_neumaier; [reflexivity | | reflexivity].
    repeat constructor.
Defined.

(** ** Sums without rounding error *)

Section exact_sums.

Lemma exact_sum_app (xs ys : list float) :
  exact_sum (xs ++ ys)
  = a ← exact_sum xs; b ← exact_sum ys; Some (a + b).
Proof.
  induction xs as [| x xs IH]; cbn [app exact_sum].
  - destruct (exact_sum ys) as [b|]; cbn; [f_equal; lia | done].
  - rewrite IH.
    destruct (pyfloat.exact x) as [v|]; cbn; [| done].
    destruct (exact_sum xs) as [a|]; cbn; [| done].
    destruct (exact_sum ys) as [b|]; cbn; [f_equal; lia | done].
Qed.

Lemma exact_sum_Permutation (xs ys : list float) :
  xs ≡ₚ ys → exact_sum xs = exact_sum ys.
Proof.
  induction 1 as [| x xs ys _ IH | x y xs | xs ys zs _ IH1 _ IH2];
    cbn [exact_sum].
  - done.
  - by rewrite IH.
  - destruct (pyfloat.exact x) as [v|], (pyfloat.exact y) as [w|],
      (exact_sum xs) as [s|]; cbn; try done.
    f_equal. lia.
  - by rewrite IH1.
Qed.

(** The amounts of the five categories are the amounts of the list. *)
Lemma amounts_partition (l : list Expense.t) :
  concat ((λ c, amounts_of c l) <$> all_categories) ≡ₚ Expense.amount <$> l.
Proof.
  induction l as [| e l IH]; [done |].
  cbn [all_categories fmap list_fmap concat] in IH |- *.
  rewrite !amounts_of_cons, <- IH.
  destruct (Expense.category e);
    repeat case_decide; try congruence; solve_Permutation.
Qed.

Lemma amounts_of_Permutation (c : ExpenseCategory) (l l' : list Expense.t) :
  l ≡ₚ l' → amounts_of c l ≡ₚ amounts_of c l'.
Proof. intros H. unfold amounts_of. by rewrite H. Qed.

(** Sums without rounding error add up: the categories to the total. *)
Lemma exact_categories_add_up (l : list Expense.t) (total : float)
    (value : ExpenseCategory → float) :
  no_rounding total (Expense.amount <$> l) →
  (∀ c, no_rounding (value c) (amounts_of c l)) →
  exact_sum (value <$> all_categories) = pyfloat.exact total.
Proof.
  intros [_ Ht] Hc. rewrite Ht, <- (exact_sum_Permutation _ _ (amounts_partition l)).
  cbn [all_categories fmap list_fmap concat exact_sum].
  rewrite !exact_sum_app. cbn [exact_sum].
  destruct (Hc FOOD) as [[v1 E1] ->], (Hc TRANSPORT) as [[v2 E2] ->],
    (Hc ENTERTAINMENT) as [[v3 E3] ->], (Hc UTILITIES) as [[v4 E4] ->],
    (Hc OTHER) as [[v5 E5] ->].
  rewrite E1, E2, E3, E4, E5. cbn. f_equal; lia.
Qed.

Lemma category_sum_empty (c : ExpenseCategory) (l : list Expense.t) :
  (∀ e, e ∈ l → Expense.category e ≠ c) → category_sum c l = 0%float.
Proof.
  intros Hnone. unfold category_sum, amounts_of.
  replace (filter (λ e, Expense.category e = c) l) with (@nil Expense.t);
    [done |].
  symmetry. induction l as [| e l IH]; [done |].
  rewrite filter_cons_False.
  - apply IH. intros e' He'. apply Hnone. by right.
  - apply Hnone. by left.
Qed.

End exact_sums.

(** ** Floats of the same value

    A finite float is determined by its value, zero apart: the mantissa of a
    binary64 number is canonical. *)

Section float_values.

Lemma digits2_pos_log2 (m : positive) :
  Z.pos (digits2_pos m) = Z.log2 (Z.pos m) + 1.
Proof.
  assert (∀ p, digits2_pos p = Pos.size p) as Hsize.
  { induction p as [p IH|p IH|]; cbn; by rewrite ?IH. }
  destruct m as [p|p|]; cbn; rewrite ?Hsize; lia.
Qed.

Lemma canonical_unique (m m' : positive) (e e' : Z) :
  canonical_mantissa prec emax m e = true →
  canonical_mantissa prec emax m' e' = true →
  Z.pos m * 2 ^ (e + 1074) = Z.pos m' * 2 ^ (e' + 1074) →
  m = m' ∧ e = e'.
Proof.
  unfold canonical_mantissa, fexp, FloatOps.emin, SpecFloat.emin, prec, emax.
  rewrite !Z.eqb_eq, !digits2_pos_log2. intros Hc Hc' Hv.
  assert (-1074 ≤ e) by lia. assert (-1074 ≤ e') by lia.
  assert (Z.log2 (Z.pos m * 2 ^ (e + 1074)) = e + 1074 + Z.log2 (Z.pos m))
    as Hl by (apply Z.log2_mul_pow2; lia).
  assert (Z.log2 (Z.pos m' * 2 ^ (e' + 1074)) = e' + 1074 + Z.log2 (Z.pos m'))
    as Hl' by (apply Z.log2_mul_pow2; lia).
  rewrite Hv in Hl. assert (e = e') as <- by lia.
  split; [| done].
  apply Z.mul_cancel_r in Hv; [by injection Hv |].
  apply Z.pow_nonzero; lia.
Qed.

Lemma exact_nonzero_inj (x y : float) (v : Z) :
  pyfloat.exact x = Some v → pyfloat.exact y = Some v → v ≠ 0 → x = y.
Proof.
  unfold pyfloat.exact. intros Hx Hy Hv. apply Prim2SF_inj.
  pose proof (Prim2SF_valid x) as Vx. pose proof (Prim2SF_valid y) as Vy.
  destruct (Prim2SF x) as [s| | |s m e]; try done; [by injection Hx as <- |].
  destruct (Prim2SF y) as [s'| | |s' m' e']; try done; [by injection Hy as <- |].
  cbn in Vx, Vy. apply andb_true_iff in Vx as [Vx _], Vy as [Vy _].
  injection Hx as Hx. injection Hy as Hy.
  assert (0 < Z.pos m * 2 ^ (e + 1074)).
  { apply Z.mul_pos_pos; [lia |]. apply Z.pow_pos_nonneg; [lia |].
    revert Vx. unfold canonical_mantissa, fexp, FloatOps.emin, SpecFloat.emin, prec, emax.
    rewrite Z.eqb_eq. lia. }
  assert (0 < Z.pos m' * 2 ^ (e' + 1074)).
  { apply Z.mul_pos_pos; [lia |]. apply Z.pow_pos_nonneg; [lia |].
    revert Vy. unfold canonical_mantissa, fexp, FloatOps.emin, SpecFloat.emin, prec, emax.
    rewrite Z.eqb_eq. lia. }
  assert (s = s') as <- by (destruct s, s'; lia || done).
  destruct (canonical_unique m m' e e' Vx Vy) as [<- <-]; [| done].
  destruct s; lia.
Qed.

Lemma same_value_of_exact (x y : float) :
  is_Some (pyfloat.exact x) → pyfloat.exact x = pyfloat.exact y → same_value x y.
Proof.
  intros [v Hx] Hxy. destruct (decide (v = 0)) as [-> | Hv].
  - right. by rewrite <- Hxy.
  - left. apply (exact_nonzero_inj x y v); [done | by rewrite <- Hxy | done].
Qed.

Lemma exact_zero (x : float) :
  pyfloat.exact x = Some 0 → ∃ s, Prim2SF x = S754_zero s.
Proof.
  unfold pyfloat.exact. pose proof (Prim2SF_valid x) as Vx.
  destruct (Prim2SF x) as [s| | |s m e]; try done; [by exists s |].
  intros [= Hv]. exfalso.
  cbn in Vx. apply andb_true_iff in Vx as [Vx _].
  assert (0 < Z.pos m * 2 ^ (e + 1074)).
  { apply Z.mul_pos_pos; [lia |]. apply Z.pow_pos_nonneg; [lia |].
    revert Vx. unfold canonical_mantissa, fexp, FloatOps.emin, SpecFloat.emin, prec, emax.
    rewrite Z.eqb_eq. lia. }
  destruct s; lia.
Qed.

Lemma round2_same_value (x y : float) :
  same_value x y → same_value (pyfloat.round2 x) (pyfloat.round2 y).
Proof.
  intros [-> | [Hx Hy]]; [by left |]. right.
  destruct (exact_zero x Hx) as [s Ex], (exact_zero y Hy) as [s' Ey].
  unfold pyfloat.round2. by rewrite Ex, Ey.
Qed.

Lemma sub_same_value (a x y : float) :
  same_value x y → same_value (a - x)%float (a - y)%float.
Proof.
  intros [-> | [Hx Hy]]; [by left |].
  destruct (exact_zero x Hx) as [s Ex], (exact_zero y Hy) as [s' Ey].
  pose proof (sub_spec a x) as Sx. pose proof (sub_spec a y) as Sy.
  rewrite Ex in Sx. rewrite Ey in Sy.
  destruct (Prim2SF a) as [sa|sa| |sa ma ea] eqn:Ea.
  - right. unfold pyfloat.exact. rewrite Sx, Sy.
    by destruct sa, s, s'.
  - left. apply Prim2SF_inj. by rewrite Sx, Sy.
  - left. apply Prim2SF_inj. by rewrite Sx, Sy.
  - left. apply Prim2SF_inj. by rewrite Sx, Sy.
Qed.

Lemma no_rounding_same_value (r r' : float) (xs xs' : list float) :
  xs ≡ₚ xs' → no_rounding r xs → no_rounding r' xs' → same_value r r'.
Proof.
  intros Hperm [Hsome Hr] [_ Hr']. apply same_value_of_exact.
  - by rewrite Hr.
  - by rewrite Hr, Hr', (exact_sum_Permutation xs xs').
Qed.

End float_values.

(** C6, as the claim states it, fails, with either summation of the total.
    For 0.10 of food and 0.20 and 0.70 of transport the category values are
    0.1 and 0.8999999999999999, whose sum (in binary64 and as real numbers)
    is not the unrounded total 1.0.  For 10^16, 1 and 1 of food and 1 and 1 of
    transport the category values are 10^16 and 2, and their sum differs from
    [total_expense] even when it is rounded to two decimals. *)
Lemma category_sums_can_miss_the_total :
  Forall
    (λ alg,
       (∃ summary,
          ExpenseService.summarize alg 1 1000%float RoundingSample.two_categories
          = Ok summary
          ∧ let b := BudgetSummary.category_breakdown summary in
            let total :=
              pyfloat.sum alg (Expense.amount <$> RoundingSample.two_categories) in
            breakdown_sum b ≠ total
            ∧ exact_sum (CategoryBreakdown.get b <$> all_categories)
              ≠ pyfloat.exact total)
       ∧ (∃ summary,
            ExpenseService.summarize alg 1 1e17%float RoundingSample.large
            = Ok summary
            ∧ pyfloat.round2
                (breakdown_sum (BudgetSummary.category_breakdown summary))
              ≠ BudgetSummary.total_expense summary))
    [pyfloat.Naive; pyfloat.Neumaier].
Proof.
  repeat constructor.
  - eexists. split; [vm_compute; reflexivity |]. cbv zeta. split.
    + intros H. apply (f_equal Prim2SF) in H. vm_compute in H. discriminate H.
    + intros H. vm_compute in H. discriminate H.
  - eexists. split; [vm_compute; reflexivity |].
    intros H. apply (f_equal Prim2SF) in H. vm_compute in H. discriminate H.
  - eexists. split; [vm_compute; reflexivity |]. cbv zeta. split.
    + intros H. apply (f_equal Prim2SF) in H. vm_compute in H. discriminate H.
    + intros H. vm_compute in H. discriminate H.
  - eexists. split; [vm_compute; reflexivity |].
    intros H. apply (f_equal Prim2SF) in H. vm_compute in H. discriminate H.
Qed.

(** C6, amended.  The category values are left unrounded and only the grand
    total is rounded: each category value is the binary64 sum, from left to
    right, of the amounts of the category (0.0 when it has none), and
    [total_expense] is the rounded sum of all amounts.  The amounts of the
    five categories are together the amounts of the list, and the five
    category values add up exactly to the unrounded total whenever none of
    these sums has a rounding error. *)
Theorem category_sums_add_up_without_rounding
    (alg : pyfloat.sum_algorithm) (db : DB) (user_id : Z)
    (filters : option ExpenseFilter.t) (user : User.t) (l : list Expense.t) :
  ExpenseService.verify_user_exists db user_id = Ok user →
  ExpenseService.get_user_expenses db user_id filters = Ok l →
  within_bounds alg (User.salary user) l →
  ∃ summary,
    ExpenseService.get_budget_summary alg db user_id filters = Ok summary
    ∧ let b := BudgetSummary.category_breakdown summary in
      let total := pyfloat.sum alg (Expense.amount <$> l) in
      (∀ c, CategoryBreakdown.get b c
            = fold_left PrimFloat.add (amounts_of c l) 0%float)
      ∧ BudgetSummary.total_expense summary = pyfloat.round2 total
      ∧ (∀ c, (∀ e, e ∈ l → Expense.category e ≠ c)
              → CategoryBreakdown.get b c = 0%float)
      ∧ concat ((λ c, amounts_of c l) <$> all_categories)
        ≡ₚ Expense.amount <$> l
      ∧ (no_rounding total (Expense.amount <$> l) →
         (∀ c, no_rounding (CategoryBreakdown.get b c) (amounts_of c l)) →
         exact_sum (CategoryBreakdown.get b <$> all_categories)
         = pyfloat.exact total
         ∧ (no_rounding (breakdown_sum b)
              (CategoryBreakdown.get b <$> all_categories) →
            same_value (breakdown_sum b) total
            ∧ same_value (pyfloat.round2 (breakdown_sum b))
                (BudgetSummary.total_expense summary))).
Proof.
  intros Hu Hl Hb.
  exists (summary_of alg user_id (User.salary user) l).
  split; [by apply get_budget_summary_within_bounds |]. cbv zeta.
  assert (∀ c, CategoryBreakdown.get
                 (BudgetSummary.category_breakdown
                    (summary_of alg user_id (User.salary user) l)) c
               = category_sum c l) as Hget by (by intros []).
  split; [| split; [| split; [| split]]].
  - intros c. by rewrite Hget.
  - reflexivity.
  - intros c Hnone. rewrite Hget. by apply category_sum_empty.
  - apply amounts_partition.
  - intros Ht Hc.
    pose proof (exact_categories_add_up l _ _ Ht Hc) as Hadd.
    split; [exact Hadd |]. intros [Hsome Hfive].
    assert (same_value
              (breakdown_sum
                 (BudgetSummary.category_breakdown
                    (summary_of alg user_id (User.salary user) l)))
              (pyfloat.sum alg (Expense.amount <$> l))) as Hsame.
    { apply same_value_of_exact; [by rewrite Hfive |]. by rewrite Hfive. }
    split; [exact Hsame |]. by apply round2_same_value.
Qed.

Lemma category_sums_add_up_without_rounding_witness :
  ∃ summary,
    ExpenseService.get_budget_summary pyfloat.Naive Sample.db 1 None = Ok summary
    ∧ BudgetSummary.total_expense summary = 545.5%float
    ∧ CategoryBreakdown.get (BudgetSummary.category_breakdown summary) UTILITIES
      = 0%float
    ∧ exact_sum (CategoryBreakdown.get (BudgetSummary.category_breakdown summary)
                   <$> all_categories)
      = pyfloat.exact 545.5%float
    ∧ same_value
        (pyfloat.round2
           (breakdown_sum (BudgetSummary.category_breakdown summary)))
        (BudgetSummary.total_expense summary).
Proof.
  destruct (category_sums_add_up_without_rounding pyfloat.Naive Sample.db 1 None
              Sample.alice [Sample.concert; Sample.bus_pass; Sample.groceries])
    as (summary & Hrun & Hsum & Htotal & Hempty & _ & Hexact).
  - reflexivity.
  - reflexivity.
  - apply within_bounds_naive; [reflexivity | repeat constructor].
  - assert (∀ c, no_rounding
                   (CategoryBreakdown.get
                      (BudgetSummary.category_breakdown summary) c)
                   (amounts_of c
                      [Sample.concert; Sample.bus_pass; Sample.groceries]))
      as Hcats.
    { intros c. rewrite Hsum. by destruct c; (split; [by eexists |]). }
    destruct Hexact as [Hadd Hsame]; [by split; [eexists |] | exact Hcats |].
    exists summary. split; [exact Hrun |]. split; [exact Htotal |]. split.
    + apply Hempty. intros e He.
      repeat (apply elem_of_cons in He as [-> | He]; [discriminate |]).
      by apply elem_of_nil in He.
    + split; [exact Hadd |]. apply Hsame.
      unfold breakdown_sum.
      change (CategoryBreakdown.Food ?b) with (CategoryBreakdown.get b FOOD).
      change (CategoryBreakdown.Transport ?b)
        with (CategoryBreakdown.get b TRANSPORT).
      change (CategoryBreakdown.Entertainment ?b)
        with (CategoryBreakdown.get b ENTERTAINMENT).
      change (CategoryBreakdown.Utilities ?b)
        with (CategoryBreakdown.get b UTILITIES).
      change (CategoryBreakdown.Other ?b) with (CategoryBreakdown.get b OTHER).
      cbn [all_categories fmap list_fmap]. rewrite !Hsum.
      split; [by eexists | reflexivity].
Defined.

(** ** Order of the list and of the sums *)

Lemma get_user_expenses_sorted (db : DB) (user_id : Z)
    (filters : option ExpenseFilter.t) (l : list Expense.t) :
  ExpenseService.get_user_expenses db user_id filters = Ok l →
  StronglySorted created_desc l.
Proof.
  unfold ExpenseService.get_user_expenses.
  destruct (ExpenseService.verify_user_exists db user_id); [| done].
  cbn [mbind result_bind].
  destruct (match filters with Some _ => _ | None => _ end); [| done].
  cbn [mbind result_bind]. intros [= <-].
  apply StronglySorted_merge_sort; apply _.
Qed.

(** C7, as the claim states it, fails: summing 0.10, 0.20 and 0.30 of food
    gives the category value 0.6000000000000001, the same expenses in reverse
    order give 0.6. *)
Lemma aggregation_depends_on_the_order :
  RoundingSample.ascending ≡ₚ RoundingSample.descending
  ∧ Forall
      (λ alg,
         ∃ s1 s2,
           ExpenseService.summarize alg 1 1000%float RoundingSample.ascending
           = Ok s1
           ∧ ExpenseService.summarize alg 1 1000%float RoundingSample.descending
             = Ok s2
           ∧ BudgetSummary.category_breakdown s1
             ≠ BudgetSummary.category_breakdown s2)
      [pyfloat.Naive; pyfloat.Neumaier].
Proof.
  split.
  - unfold RoundingSample.ascending, RoundingSample.descending.
    solve_Permutation.
  - repeat constructor.
    + do 2 eexists. split; [vm_compute; reflexivity |].
      split; [vm_compute; reflexivity |].
      intros H. apply (f_equal (λ b, Prim2SF (CategoryBreakdown.Food b))) in H.
      vm_compute in H. discriminate H.
    + do 2 eexists. split; [vm_compute; reflexivity |].
      split; [vm_compute; reflexivity |].
      intros H. apply (f_equal (λ b, Prim2SF (CategoryBreakdown.Food b))) in H.
      vm_compute in H. discriminate H.
Qed.

(** C7, amended.  The list is sorted by [created_at], descending, before it
    is aggregated.  The aggregation adds the same amounts whatever the order
    of the list, in total and in every category, so that two orders give the
    same [total_expense], [remaining_amount] and category values (the sign
    of a zero apart) whenever their sums have no rounding error; the
    additions themselves are done in list order, in binary64. *)
Theorem sorted_then_summed_in_list_order :
  (∀ (db : DB) (user_id : Z) (filters : option ExpenseFilter.t)
     (l : list Expense.t),
     ExpenseService.get_user_expenses db user_id filters = Ok l →
     StronglySorted created_desc l
     ∧ ∀ (alg : pyfloat.sum_algorithm) (user : User.t),
         ExpenseService.verify_user_exists db user_id = Ok user →
         ExpenseService.get_budget_summary alg db user_id filters
         = ExpenseService.summarize alg user_id (User.salary user) l)
  ∧ (∀ (alg : pyfloat.sum_algorithm) (user_id : Z) (salary : float)
       (l l' : list Expense.t),
       l ≡ₚ l' →
       within_bounds alg salary l →
       within_bounds alg salary l' →
       ∃ s s',
         ExpenseService.summarize alg user_id salary l = Ok s
         ∧ ExpenseService.summarize alg user_id salary l' = Ok s'
         ∧ Expense.amount <$> l ≡ₚ Expense.amount <$> l'
         ∧ (∀ c, amounts_of c l ≡ₚ amounts_of c l')
         ∧ (no_rounding (pyfloat.sum alg (Expense.amount <$> l))
              (Expense.amount <$> l) →
            no_rounding (pyfloat.sum alg (Expense.amount <$> l'))
              (Expense.amount <$> l') →
            same_value (BudgetSummary.total_expense s)
              (BudgetSummary.total_expense s')
            ∧ same_value (BudgetSummary.remaining_amount s)
                (BudgetSummary.remaining_amount s'))
         ∧ (∀ c,
              let v := CategoryBreakdown.get (BudgetSummary.category_breakdown s) c in
              let v' := CategoryBreakdown.get (BudgetSummary.category_breakdown s') c in
              no_rounding v (amounts_of c l) →
              no_rounding v' (amounts_of c l') →
              same_value v v')).
Proof.
  split.
  - intros db user_id filters l Hl.
    split; [by apply (get_user_expenses_sorted db user_id filters) |].
    intros alg user Hu. unfold ExpenseService.get_budget_summary.
    by rewrite Hu, Hl.
  - intros alg user_id salary l l' Hperm Hb Hb'.
    exists (summary_of alg user_id salary l), (summary_of alg user_id salary l').
    split; [by apply summarize_within_bounds |].
    split; [by apply summarize_within_bounds |].
    split; [by rewrite Hperm |].
    split; [intros c; by apply amounts_of_Permutation |].
    split.
    + intros Hexact Hexact'.
      assert (same_value (pyfloat.sum alg (Expense.amount <$> l))
                (pyfloat.sum alg (Expense.amount <$> l'))) as Hsame.
      { apply (no_rounding_same_value _ _ (Expense.amount <$> l)
                 (Expense.amount <$> l')); [by rewrite Hperm | done | done]. }
      split; cbn.
      * by apply round2_same_value.
      * by apply round2_same_value, sub_same_value.
    + intros c. cbv zeta. intros Hexact Hexact'.
      apply (no_rounding_same_value _ _ (amounts_of c l) (amounts_of c l'));
        [by apply amounts_of_Permutation | done | done].
Qed.

Lemma sorted_then_summed_in_list_order_witness :
  StronglySorted created_desc
    [Sample.concert; Sample.bus_pass; Sample.groceries]
  ∧ ∃ s s',
      ExpenseService.summarize pyfloat.Neumaier 1 1000%float
        [Sample.concert; Sample.bus_pass; Sample.groceries] = Ok s
      ∧ ExpenseService.summarize pyfloat.Neumaier 1 1000%float
          [Sample.groceries; Sample.concert; Sample.bus_pass] = Ok s'
      ∧ same_value (BudgetSummary.total_expense s)
          (BudgetSummary.total_expense s')
      ∧ same_value (BudgetSummary.remaining_amount s)
          (BudgetSummary.remaining_amount s').
Proof.
  split.
  - apply (proj1 sorted_then_summed_in_list_order Sample.db 1 None).
    reflexivity.
  - destruct (proj2 sorted_then_summed_in_list_order pyfloat.Neumaier 1
                1000%float
                [Sample.concert; Sample.bus_pass; Sample.groceries]
                [Sample.groceries; Sample.concert; Sample.bus_pass])
      as (s & s' & Hs & Hs' & _ & _ & Hsame & _).
    + solve_Permutation.
    + apply within_bounds_neumaier; [reflexivity | | reflexivity].
      repeat constructor.
    + apply within_bounds_neumaier; [reflexivity | | reflexivity].
      repeat constructor.
    + exists s, s'. split; [exact Hs |]. split; [exact Hs' |].
      apply Hsame; (split; [by eexists | reflexivity]).
Defined.

(** ** Lookups by a unique column *)

Section unique_columns.
Context {A K : Type} `{EqDecision K} (column : A → K).

Lemma filter_column_none (rows : list A) (k : K) :
  (∀ row, row ∈ rows → column row ≠ k) →
  filter (λ row, column row = k) rows = [].
Proof.
  induction rows as [| r rows IH]; intros Hnone; [done |].
  rewrite filter_cons_False.
  - apply IH. intros row Hrow. apply Hnone. by right.
  - apply Hnone. by left.
Qed.

Lemma filter_column_unique (rows : list A) (row : A) :
  NoDup (column <$> rows) → row ∈ rows →
  filter (λ r, column r = column row) rows = [row].
Proof.
  induction rows as [| r rows IH]; intros Hnodup Hin.
  - by apply elem_of_nil in Hin.
  - cbn [fmap list_fmap] in Hnodup. apply NoDup_cons in Hnodup as [Hr Hnodup].
    apply elem_of_cons in Hin as [-> | Hin].
    + rewrite filter_cons_True by done. f_equal.
      apply filter_column_none. intros r' Hr' Heq. apply Hr.
      rewrite <- Heq. apply list_elem_of_fmap. by exists r'.
    + rewrite filter_cons_False; [by apply IH |].
      intros Heq. apply Hr. rewrite Heq. apply list_elem_of_fmap. by exists row.
Qed.

End unique_columns.

Section expense_lookup.

Lemma get_expense_by_id_missing (db : DB) (expense_id : Z) :
  (∀ e, e ∈ expenses db → Expense.expense_id e ≠ expense_id) →
  ExpenseService.get_expense_by_id db expense_id = Ok None.
Proof.
  intros Hnone. unfold ExpenseService.get_expense_by_id.
  by rewrite (filter_column_none Expense.expense_id).
Qed.

Lemma get_expense_by_id_found (db : DB) (e : Expense.t) :
  NoDup (Expense.expense_id <$> expenses db) → e ∈ expenses db →
  ExpenseService.get_expense_by_id db (Expense.expense_id e) = Ok (Some e).
Proof.
  intros Hnodup Hin. unfold ExpenseService.get_expense_by_id.
  by rewrite (filter_column_unique Expense.expense_id).
Qed.

Lemma foreign_user_is_checked (owner acting : Z) :
  acting ≠ 0 → acting ≠ owner →
  truthy_int (Some acting) && negb (owner =? default 0 (Some acting)) = true.
Proof.
  intros H0 Hne. rewrite truthy_int_Some by done. cbn.
  by destruct (Z.eqb_spec owner acting) as [-> |].
Qed.

Lemma owner_is_not_refused (owner : Z) :
  truthy_int (Some owner) && negb (owner =? default 0 (Some owner)) = false.
Proof. cbn. by rewrite Z.eqb_refl, andb_false_r. Qed.

End expense_lookup.

(** C8. The code diverges from the claim, and from its own comment (check
    authorization if user_id provided): the test is [if user_id and ...], so
    the acting-user id 0, though supplied and other than the owner 1 of the
    expense, counts as none; the expense is updated, and deleted, instead of
    the call failing with 403. *)
Lemma acting_user_zero_is_not_refused :
  Expense.user_id Sample.groceries ≠ 0
  ∧ (∃ row db',
       ExpenseService.update_expense 1
         (ExpenseUpdate.mk (Some (Some "Sweets"%string)) None None) (Some 0)
         Sample.db = (Ok row, db')
       ∧ Expense.name row = "Sweets"%string
       ∧ row ∈ expenses db' ∧ Sample.groceries ∉ expenses db')
  ∧ (∃ db',
       ExpenseService.delete_expense 1 (Some 0) Sample.db = (Ok true, db')
       ∧ Sample.groceries ∉ expenses db').
Proof.
  split; [done |]. split.
  - do 2 eexists. split; [vm_compute; reflexivity |].
    split; [reflexivity |]. split; [by left |].
    intros H. repeat (apply elem_of_cons in H as [H | H]; [discriminate H |]).
    by apply elem_of_nil in H.
  - eexists. split; [vm_compute; reflexivity |].
    intros H. repeat (apply elem_of_cons in H as [H | H]; [discriminate H |]).
    by apply elem_of_nil in H.
Qed.

(** X28. [update_expense] and [delete_expense] fail with 404 when no
    expense has the given id.  When the expense exists and an acting-user id
    other than 0 is supplied that differs from the owner of the expense,
    they fail with 403.  In both cases the database is left as it was. *)
Theorem missing_or_foreign_expense_is_refused
    (db : DB) (expense_id : Z) (expense_data : ExpenseUpdate.t)
    (user_id : option Z) :
  ((∀ e, e ∈ expenses db → Expense.expense_id e ≠ expense_id) →
     ExpenseService.update_expense expense_id expense_data user_id db
     = (Err (HTTPException HTTP_404_NOT_FOUND), db)
     ∧ ExpenseService.delete_expense expense_id user_id db
       = (Err (HTTPException HTTP_404_NOT_FOUND), db))
  ∧ (∀ (e : Expense.t) (acting : Z),
       NoDup (Expense.expense_id <$> expenses db) →
       e ∈ expenses db →
       Expense.expense_id e = expense_id →
       user_id = Some acting →
       acting ≠ 0 →
       acting ≠ Expense.user_id e →
       ExpenseService.update_expense expense_id expense_data user_id db
       = (Err (HTTPException HTTP_403_FORBIDDEN), db)
       ∧ ExpenseService.delete_expense expense_id user_id db
         = (Err (HTTPException HTTP_403_FORBIDDEN), db)).
Proof.
  split.
  - intros Hnone.
    unfold ExpenseService.update_expense, ExpenseService.delete_expense,
      mbind, M_bind, query.
    by rewrite get_expense_by_id_missing.
  - intros e acting Hnodup Hin <- -> H0 Hne.
    unfold ExpenseService.update_expense, ExpenseService.delete_expense,
      mbind, M_bind, query.
    rewrite get_expense_by_id_found by done.
    by rewrite foreign_user_is_checked.
Qed.

Lemma missing_or_foreign_expense_is_refused_witness :
  (ExpenseService.update_expense 9
     (ExpenseUpdate.mk (Some (Some "Sweets"%string)) None None) (Some 2)
     Sample.db = (Err (HTTPException HTTP_404_NOT_FOUND), Sample.db)
   ∧ ExpenseService.delete_expense 9 (Some 2) Sample.db
     = (Err (HTTPException HTTP_404_NOT_FOUND), Sample.db))
  ∧ (ExpenseService.update_expense 1
       (ExpenseUpdate.mk (Some (Some "Sweets"%string)) None None) (Some 2)
       Sample.db = (Err (HTTPException HTTP_403_FORBIDDEN), Sample.db)
     ∧ ExpenseService.delete_expense 1 (Some 2) Sample.db
       = (Err (HTTPException HTTP_403_FORBIDDEN), Sample.db)).
Proof.
  split.
  - apply (proj1 (missing_or_foreign_expense_is_refused Sample.db 9
                    (ExpenseUpdate.mk (Some (Some "Sweets"%string)) None None)
                    (Some 2))).
    intros e He.
    repeat (apply elem_of_cons in He as [-> | He]; [discriminate |]).
    by apply elem_of_nil in He.
  - apply (proj2 (missing_or_foreign_expense_is_refused Sample.db 1
                    (ExpenseUpdate.mk (Some (Some "Sweets"%string)) None None)
                    (Some 2)) Sample.groceries 2).
    + apply (bool_decide_unpack _). vm_compute. exact I.
    + by left.
    + reflexivity.
    + reflexivity.
    + discriminate.
    + discriminate.
Defined.

(** ** Partial updates *)

Section update_expense.

Lemma attrs_after_update (e : Expense.t) (d : ExpenseUpdate.t) :
  no_null_supplied d →
  Expense_of_attrs
    (fold_left (λ obj item, setattr obj item.1 item.2)
       (ExpenseUpdate.model_dump_exclude_unset d) (Expense_attrs e))
  = Ok (updated e d).
Proof.
  intros (Hn & Ha & Hc). destruct e as [i u n a c t], d as [dn da dc].
  cbn in Hn, Ha, Hc.
  destruct dn as [[n'|]|], da as [[a'|]|], dc as [[c'|]|]; try done;
    reflexivity.
Qed.

(** Validation of the request body keeps the set of supplied fields, and
    rounds a supplied amount to two decimals. *)
Lemma ExpenseUpdate_new_supplied
    (name : option (option string)) (amount : option (option float))
    (category : option (option ExpenseCategory)) (d : ExpenseUpdate.t) :
  ExpenseUpdate.new name amount category = Ok d →
  ExpenseUpdate.name d = name
  ∧ (ExpenseUpdate.amount d = None ↔ amount = None)
  ∧ (∀ x, amount = Some (Some x)
          → ExpenseUpdate.amount d = Some (Some (pyfloat.round2 x)))
  ∧ ExpenseUpdate.category d = category.
Proof.
  unfold ExpenseUpdate.new, ExpenseUpdate.validate_amount.
  destruct name as [[n|]|], amount as [[x|]|];
    repeat match goal with
      | |- context [if ?b then _ else _] => destruct b
      end; cbn; intros [= <-]; cbn;
    (split; [done |]); (split; [done |]); (split; [| done]);
    by intros ? [= <-].
Qed.

End update_expense.

(** C9, as the claim states it, fails: the owner supplies [name] with the
    value [None]; the update does not succeed, the [NOT NULL] column refuses
    the row. *)
Lemma update_with_null_name_fails :
  ExpenseService.update_expense 1 (ExpenseUpdate.mk (Some None) None None)
    (Some (Expense.user_id Sample.groceries)) Sample.db
  = (Err IntegrityError, Sample.db).
Proof. vm_compute. reflexivity. Qed.

(** C9, amended.  Called by the owner of the expense with an update in which
    no field is supplied as [None], [update_expense] succeeds: the
    supplied fields take the supplied values, and every other field, among
    them [expense_id], [user_id] and [created_at], keeps its value; the other
    rows and the users are as they were. *)
Theorem update_changes_only_supplied_fields
    (db : DB) (e : Expense.t) (expense_data : ExpenseUpdate.t) :
  NoDup (Expense.expense_id <$> expenses db) →
  e ∈ expenses db →
  no_null_supplied expense_data →
  ∃ row db',
    ExpenseService.update_expense (Expense.expense_id e) expense_data
      (Some (Expense.user_id e)) db = (Ok row, db')
    ∧ Expense.expense_id row = Expense.expense_id e
    ∧ Expense.user_id row = Expense.user_id e
    ∧ Expense.created_at row = Expense.created_at e
    ∧ Expense.name row
      = match ExpenseUpdate.name expense_data with
        | Some (Some n) => n
        | _ => Expense.name e
        end
    ∧ Expense.amount row
      = match ExpenseUpdate.amount expense_data with
        | Some (Some a) => a
        | _ => Expense.amount e
        end
    ∧ Expense.category row
      = match ExpenseUpdate.category expense_data with
        | Some (Some c) => c
        | _ => Expense.category e
        end
    ∧ users db' = users db
    ∧ expenses db'
      = (λ r, if decide (Expense.expense_id r = Expense.expense_id e)
              then row else r) <$> expenses db.
Proof.
  intros Hnodup Hin Hnull.
  exists (updated e expense_data),
    (mkDB (users db)
       ((λ r, if decide (Expense.expense_id r = Expense.expense_id e)
              then updated e expense_data else r) <$> expenses db)).
  split; [| done].
  unfold ExpenseService.update_expense, mbind, M_bind, query.
  rewrite get_expense_by_id_found by done.
  rewrite owner_is_not_refused. unfold commit_expense.
  by rewrite attrs_after_update.
Qed.

Lemma update_changes_only_supplied_fields_witness :
  ∃ row db',
    ExpenseService.update_expense 1
      (ExpenseUpdate.mk None (Some (Some 310.25%float)) None) (Some 1)
      Sample.db = (Ok row, db')
    ∧ Expense.expense_id row = 1
    ∧ Expense.user_id row = 1
    ∧ Expense.created_at row = Expense.created_at Sample.groceries
    ∧ Expense.name row = "Groceries"%string
    ∧ Expense.amount row = 310.25%float
    ∧ Expense.category row = FOOD
    ∧ users db' = users Sample.db
    ∧ expenses db'
      = (λ r, if decide (Expense.expense_id r = 1) then row else r)
          <$> expenses Sample.db.
Proof.
  apply (update_changes_only_supplied_fields Sample.db Sample.groceries
           (ExpenseUpdate.mk None (Some (Some 310.25%float)) None)).
  - apply (bool_decide_unpack _). vm_compute. exact I.
  - by left.
  - repeat split; discriminate.
Defined.

(** ** Authentication *)

Section authenticate_user.
Variable verify_password : string → string → bool.

Lemma truthy_str_false (o : option string) :
  truthy_str o = false ↔ o = None ∨ o = Some EmptyString.
Proof.
  unfold truthy_str. destruct o as [s|]; [| by split; [left |]].
  rewrite negb_false_iff, bool_decide_eq_true. split.
  - intros ->. by right.
  - intros [Hs | Hs]; [discriminate Hs | by injection Hs].
Qed.

Lemma get_user_by_username_missing (db : DB) (username : string) :
  (∀ u, u ∈ users db → User.username u ≠ username) →
  UserService.get_user_by_username db username = Ok None.
Proof.
  intros Hnone. unfold UserService.get_user_by_username.
  by rewrite (filter_column_none User.username).
Qed.

Lemma get_user_by_username_found (db : DB) (u : User.t) :
  NoDup (User.username <$> users db) → u ∈ users db →
  UserService.get_user_by_username db (User.username u) = Ok (Some u).
Proof.
  intros Hnodup Hin. unfold UserService.get_user_by_username.
  by rewrite (filter_column_unique User.username).
Qed.

(** What [authenticate_user] returns for a user that the name matches. *)
Lemma authenticate_matched (db : DB) (u : User.t) (password : string) :
  NoDup (User.username <$> users db) → u ∈ users db →
  UserService.authenticate_user verify_password db (User.username u) password
  = Ok (if truthy_str (User.hashed_password u)
           && verify_password password
                (default EmptyString (User.hashed_password u))
        then Some u else None).
Proof.
  intros Hnodup Hin. unfold UserService.authenticate_user.
  rewrite get_user_by_username_found by done. cbn [mbind result_bind].
  destruct (truthy_str (User.hashed_password u)); cbn [negb andb]; [| done].
  by destruct (verify_password _ _).
Qed.

End authenticate_user.

(** C10. [authenticate_user] returns no user exactly when the name matches
    no user, or the matched user has no stored credential, or the
    verification of the password against the stored credential fails: the
    three causes give the same [None].  Otherwise it returns the matched user,
    whether the account is active or not. *)
Theorem authenticate_user_fails_silently
    (verify_password : string → string → bool) (db : DB)
    (username password : string) :
  NoDup (User.username <$> users db) →
  (UserService.authenticate_user verify_password db username password = Ok None
   ↔ (∀ u, u ∈ users db → User.username u ≠ username)
     ∨ ∃ u, u ∈ users db ∧ User.username u = username
            ∧ (no_credential u
               ∨ ∃ hashed, User.hashed_password u = Some hashed
                           ∧ verify_password password hashed = false))
  ∧ (∀ u hashed,
       u ∈ users db → User.username u = username →
       User.hashed_password u = Some hashed → hashed ≠ EmptyString →
       verify_password password hashed = true →
       UserService.authenticate_user verify_password db username password
       = Ok (Some u))
  ∧ (∃ r, UserService.authenticate_user verify_password db username password
          = Ok r
          ∧ ∀ u, r = Some u → u ∈ users db ∧ User.username u = username).
Proof.
  intros Hnodup.
  assert ((∀ u, u ∈ users db → User.username u ≠ username)
          ∨ ∃ u, u ∈ users db ∧ User.username u = username) as [Hnone | Hsome].
  { destruct (decide (Exists (λ u, User.username u = username) (users db)))
      as [Hex | Hnex].
    - right. apply Exists_exists in Hex as (u & Hin & Hu). by exists u.
    - left. intros u Hin Hu. apply Hnex, Exists_exists. by exists u. }
  - assert (UserService.authenticate_user verify_password db username password
            = Ok None) as Hrun.
    { unfold UserService.authenticate_user.
      by rewrite get_user_by_username_missing. }
    split; [| split].
    + split; [by left | done].
    + intros u hashed Hin Hu. by destruct (Hnone u Hin).
    + exists None. split; [done | discriminate].
  - destruct Hsome as (u & Hin & <-).
    pose proof (authenticate_matched verify_password db u password Hnodup Hin)
      as Hrun.
    assert (∀ u', u' ∈ users db → User.username u' = User.username u → u' = u)
      as Hsame.
    { intros u' Hin' Heq.
      pose proof (filter_column_unique User.username (users db) u Hnodup Hin)
        as Hf.
      assert (u' ∈ filter (λ r, User.username r = User.username u) (users db))
        as Hin'' by (by apply list_elem_of_filter).
      rewrite Hf in Hin''. by apply list_elem_of_singleton in Hin''. }
    split; [| split].
    + rewrite Hrun. split.
      * intros Hres. right. exists u. split; [done |]. split; [done |].
        destruct (truthy_str (User.hashed_password u)) eqn:Et.
        -- right. destruct (User.hashed_password u) as [hashed|]; [| done].
           exists hashed. split; [done |]. cbn in Hres.
           destruct (verify_password password hashed);
             [discriminate Hres | reflexivity].
        -- left. by apply truthy_str_false.
      * intros [Hnone | (u' & Hin' & Hu' & Hcause)].
        { by destruct (Hnone u Hin). }
        apply Hsame in Hu' as ->; [| done].
        destruct Hcause as [Hcred | (hashed & Hh & Hv)].
        -- apply truthy_str_false in Hcred. by rewrite Hcred.
        -- rewrite Hh. cbn. by rewrite Hv, andb_false_r.
    + intros u' hashed Hin' Hu' Hh Hne Hv.
      apply Hsame in Hu' as ->; [| done].
      rewrite Hrun, Hh. cbn. rewrite Hv.
      by rewrite bool_decide_eq_false_2.
    + rewrite Hrun. eexists. split; [reflexivity |].
      intros u' Hres. destruct (_ && _); [| discriminate].
      by injection Hres as <-.
Qed.

Lemma authenticate_user_fails_silently_witness :
  UserService.authenticate_user String.eqb Sample.db "alice" "hash-a"
  = Ok (Some Sample.alice)
  ∧ UserService.authenticate_user String.eqb Sample.db "alice" "guess" = Ok None
  ∧ UserService.authenticate_user String.eqb Sample.db "bob" "guess" = Ok None
  ∧ UserService.authenticate_user String.eqb Sample.db "carol" "guess" = Ok None.
Proof.
  assert (NoDup (User.username <$> users Sample.db)) as Hnodup.
  { apply (bool_decide_unpack _). vm_compute. exact I. }
  split; [| split; [| split]].
  - apply (proj1 (proj2 (authenticate_user_fails_silently String.eqb Sample.db
                           "alice" "hash-a" Hnodup)) Sample.alice "hash-a"%string).
    + by left.
    + reflexivity.
    + reflexivity.
    + discriminate.
    + reflexivity.
  - apply (proj1 (authenticate_user_fails_silently String.eqb Sample.db
                    "alice" "guess" Hnodup)).
    right. exists Sample.alice. split; [by left |]. split; [reflexivity |].
    right. by exists "hash-a"%string.
  - apply (proj1 (authenticate_user_fails_silently String.eqb Sample.db
                    "bob" "guess" Hnodup)).
    right. exists Sample.bob. split; [by right; left |]. split; [reflexivity |].
    left. by left.
  - apply (proj1 (authenticate_user_fails_silently String.eqb Sample.db
                    "carol" "guess" Hnodup)).
    left. intros u Hu.
    repeat (apply elem_of_cons in Hu as [-> | Hu]; [discriminate |]).
    by apply elem_of_nil in Hu.
Defined.

(** ** Further properties *)

(** X2. With the sum taken from left to right, [get_budget_summary] returns
    a summary for every existing user whose salary and listed amounts are not
    negative: the bounds of the response schema cannot fail. *)
Theorem budget_summary_is_returned_for_valid_rows
    (db : DB) (user_id : Z) (filters : option ExpenseFilter.t) (user : User.t)
    (l : list Expense.t) :
  ExpenseService.verify_user_exists db user_id = Ok user →
  ExpenseService.get_user_expenses db user_id filters = Ok l →
  ge0 (User.salary user) = true →
  Forall (λ e, ge0 (Expense.amount e) = true) l →
  ExpenseService.get_budget_summary pyfloat.Naive db user_id filters
  = Ok (summary_of pyfloat.Naive user_id (User.salary user) l).
Proof.
  intros Hu Hl Hs Ha. apply get_budget_summary_within_bounds; [done | done |].
  by apply within_bounds_naive.
Qed.

Lemma budget_summary_is_returned_for_valid_rows_witness :
  ExpenseService.get_budget_summary pyfloat.Naive Sample.db 2 None
  = Ok (BudgetSummary.mk 2 50%float 12%float 38%float
          (CategoryBreakdown.mk 12%float 0%float 0%float 0%float 0%float)).
Proof.
  apply (budget_summary_is_returned_for_valid_rows Sample.db 2 None Sample.bob
           [Sample.bobs_lunch]).
  - reflexivity.
  - reflexivity.
  - reflexivity.
  - repeat constructor.
Defined.

(** X3. The day filter keeps the expenses created on the day, from
    00:00:00.000000 to 23:59:59.999999, whatever the other selectors are; the
    month filter, when neither day nor week is set, keeps those created from
    the first day of the month at 00:00:00 to its last day at 23:59:59,
    December included. *)
Theorem day_and_month_filters_cover_their_range
    (f : ExpenseFilter.t) :
  (∀ d, ExpenseFilter.day f = Some d →
        ExpenseService.range_conditions f
        = Ok [CreatedBetween ((d - 1) * datetime.US_PER_DAY)
                (d * datetime.US_PER_DAY - 1)])
  ∧ (∀ m y,
       ExpenseFilter.day f = None → ExpenseFilter.week f = None →
       ExpenseFilter.month f = Some m → ExpenseFilter.year f = Some y →
       1 ≤ m ≤ 12 → 1 ≤ y ≤ 9998 →
       ∃ first last,
         datetime.new y m 1 = Ok first
         ∧ datetime.new_full y m (datetime.days_in_month y m) 23 59 59 0
           = Ok last
         ∧ ExpenseService.range_conditions f
           = Ok [CreatedBetween first last]).
Proof.
  split.
  - intros d Hd. rewrite (range_conditions_day f d Hd).
    unfold FilterResolver.day_range. cbn [fst snd].
    rewrite US_PER_DAY_eq. do 3 f_equal; lia.
  - intros m y Hd Hw Hm Hy Hmr Hyr.
    exists (FilterResolver.month_range y m).1, (FilterResolver.month_range y m).2.
    split; [apply new_first_of_month; lia |].
    split; [| by apply range_conditions_month].
    pose proof (days_in_month_range y m Hmr).
    unfold datetime.new_full, datetime.check_date_fields,
      datetime.MINYEAR, datetime.MAXYEAR, datetime.US_PER_SECOND.
    rewrite !(proj2 (Z.leb_le _ _)), !(proj2 (Z.ltb_lt _ _)) by lia.
    cbn [andb]. unfold FilterResolver.month_range, FilterResolver.LAST_SECOND,
      datetime.US_PER_SECOND.
    cbn [fst snd]. f_equal. lia.
Qed.

Lemma day_and_month_filters_cover_their_range_witness :
  ∃ first last,
    datetime.new 2024 12 1 = Ok first
    ∧ datetime.new_full 2024 12 (datetime.days_in_month 2024 12) 23 59 59 0
      = Ok last
    ∧ ExpenseService.range_conditions
        (ExpenseFilter.mk None None (Some 12) (Some 2024) (Some OTHER))
      = Ok [CreatedBetween first last].
Proof.
  apply (proj2 (day_and_month_filters_cover_their_range
                  (ExpenseFilter.mk None None (Some 12) (Some 2024) (Some OTHER)))
           12 2024); (reflexivity || lia).
Defined.

(** ** Writes and the lookups that follow them *)

Section writes.

Lemma verify_user_exists_missing (db : DB) (user_id : Z) :
  (∀ u, u ∈ users db → User.user_id u ≠ user_id) →
  ExpenseService.verify_user_exists db user_id
  = Err (HTTPException HTTP_404_NOT_FOUND).
Proof.
  intros Hnone. unfold ExpenseService.verify_user_exists.
  by rewrite (filter_column_none User.user_id).
Qed.

Lemma verify_user_exists_found (db : DB) (u : User.t) :
  NoDup (User.user_id <$> users db) → u ∈ users db →
  ExpenseService.verify_user_exists db (User.user_id u) = Ok u.
Proof.
  intros Hnodup Hin. unfold ExpenseService.verify_user_exists.
  by rewrite (filter_column_unique User.user_id).
Qed.

Lemma verify_user_exists_users (db db' : DB) (user_id : Z) :
  users db' = users db →
  ExpenseService.verify_user_exists db' user_id
  = ExpenseService.verify_user_exists db user_id.
Proof. intros H. unfold ExpenseService.verify_user_exists. by rewrite H. Qed.

Lemma get_expense_by_id_app (us : list User.t) (l : list Expense.t)
    (row : Expense.t) (k : Z) :
  ExpenseService.get_expense_by_id (mkDB us (l ++ [row])) k
  = if decide (Expense.expense_id row = k)
    then scalar_one_or_none (filter (λ e, Expense.expense_id e = k) l ++ [row])
    else ExpenseService.get_expense_by_id (mkDB us l) k.
Proof.
  unfold ExpenseService.get_expense_by_id. cbn [expenses].
  rewrite filter_app, filter_cons, filter_nil.
  destruct (decide (Expense.expense_id row = k)); [done |].
  by rewrite app_nil_r.
Qed.

End writes.

(** X4. [create_expense] fails with 404, and writes nothing, when no user
    has the id of the request.  For an existing user it stores one row that
    holds the fields of the request, the key and the creation time it was
    given: the row is found again under its key, every other key finds what
    it found before, and the users are as they were. *)
Theorem create_expense_stores_one_row
    (db : DB) (expense_id : Z) (utcnow : datetime.t)
    (expense_data : ExpenseCreate.t) :
  ((∀ u, u ∈ users db → User.user_id u ≠ ExpenseCreate.user_id expense_data) →
   ExpenseService.create_expense expense_id utcnow expense_data db
   = (Err (HTTPException HTTP_404_NOT_FOUND), db))
  ∧ (∀ user,
       ExpenseService.verify_user_exists db (ExpenseCreate.user_id expense_data)
       = Ok user →
       expense_id ∉ Expense.expense_id <$> expenses db →
       ∃ db',
         let row :=
           Expense.mk expense_id (ExpenseCreate.user_id expense_data)
             (ExpenseCreate.name expense_data)
             (ExpenseCreate.amount expense_data)
             (ExpenseCreate.category expense_data) utcnow in
         ExpenseService.create_expense expense_id utcnow expense_data db
         = (Ok row, db')
         ∧ users db' = users db
         ∧ expenses db' = expenses db ++ [row]
         ∧ ExpenseService.get_expense_by_id db' expense_id = Ok (Some row)
         ∧ ∀ k, k ≠ expense_id →
                ExpenseService.get_expense_by_id db' k
                = ExpenseService.get_expense_by_id db k).
Proof.
  split.
  - intros Hnone.
    unfold ExpenseService.create_expense, mbind, M_bind, query.
    by rewrite verify_user_exists_missing.
  - intros user Hu Hfresh. eexists. cbv zeta.
    unfold ExpenseService.create_expense, mbind, M_bind, query.
    rewrite Hu. unfold insert_expense.
    rewrite bool_decide_eq_false_2 by done.
    split; [reflexivity |]. split; [reflexivity |]. split; [reflexivity |].
    split.
    + rewrite get_expense_by_id_app. cbn [Expense.expense_id].
      rewrite decide_True by done.
      rewrite (filter_column_none Expense.expense_id); [done |].
      intros e He Heq. apply Hfresh. rewrite <- Heq.
      apply list_elem_of_fmap. by exists e.
    + intros k Hk. rewrite get_expense_by_id_app. cbn [Expense.expense_id].
      rewrite decide_False by done. by destruct db.
Qed.

Lemma create_expense_stores_one_row_witness :
  ExpenseService.create_expense 5 (Sample.at_hour 2025 7 1 8)
    (ExpenseCreate.mk "Taxi" 18.5%float TRANSPORT 9) Sample.db
  = (Err (HTTPException HTTP_404_NOT_FOUND), Sample.db)
  ∧ ∃ db',
      let row := Expense.mk 5 2 "Taxi" 18.5%float TRANSPORT
                   (Sample.at_hour 2025 7 1 8) in
      ExpenseService.create_expense 5 (Sample.at_hour 2025 7 1 8)
        (ExpenseCreate.mk "Taxi" 18.5%float TRANSPORT 2) Sample.db
      = (Ok row, db')
      ∧ users db' = users Sample.db
      ∧ expenses db' = expenses Sample.db ++ [row]
      ∧ ExpenseService.get_expense_by_id db' 5 = Ok (Some row)
      ∧ ∀ k, k ≠ 5 →
             ExpenseService.get_expense_by_id db' k
             = ExpenseService.get_expense_by_id Sample.db k.
Proof.
  split.
  - apply (proj1 (create_expense_stores_one_row Sample.db 5
                    (Sample.at_hour 2025 7 1 8)
                    (ExpenseCreate.mk "Taxi" 18.5%float TRANSPORT 9))).
    intros u Hu.
    repeat (apply elem_of_cons in Hu as [-> | Hu]; [discriminate |]).
    by apply elem_of_nil in Hu.
  - apply (proj2 (create_expense_stores_one_row Sample.db 5
                    (Sample.at_hour 2025 7 1 8)
                    (ExpenseCreate.mk "Taxi" 18.5%float TRANSPORT 2)) Sample.bob).
    + reflexivity.
    + apply (bool_decide_unpack _). vm_compute. exact I.
Defined.

Section expense_writes.

Lemma filter_column_singleton {A K : Type} `{EqDecision K} (column : A → K)
    (rows : list A) (row r : A) :
  filter (λ r, column r = column row) rows = [row] →
  r ∈ rows → column r = column row → r = row.
Proof.
  intros Hf Hin Heq.
  assert (r ∈ filter (λ r, column r = column row) rows) as Hr
    by (by apply list_elem_of_filter).
  rewrite Hf in Hr. by apply list_elem_of_singleton in Hr.
Qed.

(** What [get_expense_by_id] returns is a stored row that has the key. *)
Lemma get_expense_by_id_Some (db : DB) (k : Z) (e : Expense.t) :
  ExpenseService.get_expense_by_id db k = Ok (Some e) →
  filter (λ r, Expense.expense_id r = k) (expenses db) = [e]
  ∧ e ∈ expenses db ∧ Expense.expense_id e = k.
Proof.
  unfold ExpenseService.get_expense_by_id, scalar_one_or_none.
  destruct (filter _ _) as [| r [| r' rows]] eqn:Ef; intros [= <-].
  split; [done |].
  assert (r ∈ filter (λ e, Expense.expense_id e = k) (expenses db)) as Hr
    by (rewrite Ef; by left).
  apply list_elem_of_filter in Hr as [? ?]. done.
Qed.

Lemma delete_then_lookup (l : list Expense.t) (k k' : Z) :
  filter (λ e, Expense.expense_id e = k')
    (filter (λ r, Expense.expense_id r ≠ k) l)
  = if decide (k' = k) then []
    else filter (λ e, Expense.expense_id e = k') l.
Proof.
  rewrite list_filter_filter.
  destruct (decide (k' = k)) as [-> | Hne].
  - induction l as [| r l IH]; [done |].
    rewrite filter_cons_False; [done | by intros [? ?]].
  - apply list_filter_iff. intros e. split; [by intros [? ?] | ].
    intros He. split; [done | congruence].
Qed.

End expense_writes.

Section expense_writes2.

(** The update of a row through [setattr] reaches the columns of the
    request only: the keys and the creation time stay. *)
Lemma Expense_of_attrs_updated (e row : Expense.t) (d : ExpenseUpdate.t) :
  Expense_of_attrs
    (fold_left (λ obj item, setattr obj item.1 item.2)
       (ExpenseUpdate.model_dump_exclude_unset d) (Expense_attrs e))
  = Ok row →
  row = updated e d.
Proof.
  destruct e as [i u n a c t], d as [dn da dc].
  destruct dn as [[n'|]|], da as [[a'|]|], dc as [[c'|]|];
    intros H; first [discriminate H | by injection H as <-].
Qed.

Lemma replaced_row_ids (k : Z) (row : Expense.t) (l : list Expense.t) :
  Expense.expense_id row = k →
  Expense.expense_id
    <$> ((λ r, if decide (Expense.expense_id r = k) then row else r) <$> l)
  = Expense.expense_id <$> l.
Proof.
  intros Hk. rewrite <- list_fmap_compose. apply list_fmap_ext.
  intros _ r _. cbn.
  destruct (decide (Expense.expense_id r = k)); congruence.
Qed.

(** What [update_expense] can end with. *)
Lemma update_expense_inv (db db' : DB) (expense_id : Z)
    (d : ExpenseUpdate.t) (user_id : option Z) (r : result Expense.t) :
  ExpenseService.update_expense expense_id d user_id db = (r, db') →
  (db' = db ∧ ∃ err, r = Err err)
  ∨ ∃ e,
      ExpenseService.get_expense_by_id db expense_id = Ok (Some e)
      ∧ truthy_int user_id
        && negb (Expense.user_id e =? default 0 user_id) = false
      ∧ r = Ok (updated e d)
      ∧ db' = mkDB (users db)
                ((λ r, if decide (Expense.expense_id r = expense_id)
                       then updated e d else r) <$> expenses db).
Proof.
  unfold ExpenseService.update_expense, mbind, M_bind, query.
  destruct (ExpenseService.get_expense_by_id db expense_id)
    as [[e|]|err] eqn:Eget; cbn.
  - pose proof (get_expense_by_id_Some _ _ _ Eget) as (_ & _ & Hid).
    destruct (truthy_int user_id && _) eqn:Eacting.
    + intros [= <- <-]. left. eauto.
    + unfold commit_expense.
      destruct (Expense_of_attrs _) as [row|err] eqn:Erow.
      * apply Expense_of_attrs_updated in Erow as ->. rewrite Hid.
        intros [= <- <-]. right. by exists e.
      * intros [= <- <-]. left. eauto.
  - intros [= <- <-]. left. eauto.
  - intros [= <- <-]. left. eauto.
Qed.

(** What [delete_expense] can end with. *)
Lemma delete_expense_inv (db db' : DB) (expense_id : Z)
    (user_id : option Z) (r : result bool) :
  ExpenseService.delete_expense expense_id user_id db = (r, db') →
  (db' = db ∧ ∃ err, r = Err err)
  ∨ ∃ e,
      ExpenseService.get_expense_by_id db expense_id = Ok (Some e)
      ∧ truthy_int user_id
        && negb (Expense.user_id e =? default 0 user_id) = false
      ∧ r = Ok true
      ∧ db' = mkDB (users db)
                (filter (λ r, Expense.expense_id r ≠ expense_id) (expenses db)).
Proof.
  unfold ExpenseService.delete_expense, mbind, M_bind, query.
  destruct (ExpenseService.get_expense_by_id db expense_id)
    as [[e|]|err] eqn:Eget; cbn.
  - pose proof (get_expense_by_id_Some _ _ _ Eget) as (_ & _ & Hid).
    destruct (truthy_int user_id && _) eqn:Eacting.
    + intros [= <- <-]. left. eauto.
    + unfold delete_row. rewrite Hid. intros [= <- <-]. right. by exists e.
  - intros [= <- <-]. left. eauto.
  - intros [= <- <-]. left. eauto.
Qed.

Lemma acting_owner (e : Expense.t) (user_id : option Z) :
  user_id = None ∨ user_id = Some (Expense.user_id e) →
  truthy_int user_id && negb (Expense.user_id e =? default 0 user_id) = false.
Proof. intros [-> | ->]; [done | apply owner_is_not_refused]. Qed.

End expense_writes2.

(** X5. Called for a stored expense by its owner, or without an acting
    user, [delete_expense] returns [True] and removes the row: its key finds
    nothing afterwards, every other key finds what it found before, the
    users are as they were, and a second call fails with 404. *)
Theorem delete_expense_removes_one_row
    (db : DB) (e : Expense.t) (user_id : option Z) :
  NoDup (Expense.expense_id <$> expenses db) →
  e ∈ expenses db →
  user_id = None ∨ user_id = Some (Expense.user_id e) →
  ∃ db',
    ExpenseService.delete_expense (Expense.expense_id e) user_id db
    = (Ok true, db')
    ∧ users db' = users db
    ∧ expenses db'
      = filter (λ r, Expense.expense_id r ≠ Expense.expense_id e) (expenses db)
    ∧ ExpenseService.get_expense_by_id db' (Expense.expense_id e) = Ok None
    ∧ (∀ k, k ≠ Expense.expense_id e →
            ExpenseService.get_expense_by_id db' k
            = ExpenseService.get_expense_by_id db k)
    ∧ ExpenseService.delete_expense (Expense.expense_id e) user_id db'
      = (Err (HTTPException HTTP_404_NOT_FOUND), db').
Proof.
  intros Hnodup Hin Hacting. eexists.
  assert (∀ us k,
            ExpenseService.get_expense_by_id
              (mkDB us (filter (λ r, Expense.expense_id r ≠ Expense.expense_id e)
                          (expenses db))) k
            = if decide (k = Expense.expense_id e) then Ok None
              else ExpenseService.get_expense_by_id db k) as Hget.
  { intros us k. unfold ExpenseService.get_expense_by_id. cbn [expenses].
    rewrite delete_then_lookup. by destruct (decide _). }
  split.
  - unfold ExpenseService.delete_expense, mbind, M_bind, query.
    rewrite get_expense_by_id_found by done.
    rewrite acting_owner by done. reflexivity.
  - split; [reflexivity |]. split; [reflexivity |].
    split; [by rewrite Hget, decide_True |].
    split; [intros k Hk; by rewrite Hget, decide_False |].
    unfold ExpenseService.delete_expense, mbind, M_bind, query.
    by rewrite Hget, decide_True.
Qed.

Lemma delete_expense_removes_one_row_witness :
  ∃ db',
    ExpenseService.delete_expense 2 (Some 1) Sample.db = (Ok true, db')
    ∧ users db' = users Sample.db
    ∧ expenses db'
      = filter (λ r, Expense.expense_id r ≠ 2) (expenses Sample.db)
    ∧ ExpenseService.get_expense_by_id db' 2 = Ok None
    ∧ (∀ k, k ≠ 2 →
            ExpenseService.get_expense_by_id db' k
            = ExpenseService.get_expense_by_id Sample.db k)
    ∧ ExpenseService.delete_expense 2 (Some 1) db'
      = (Err (HTTPException HTTP_404_NOT_FOUND), db').
Proof.
  apply (delete_expense_removes_one_row Sample.db Sample.bus_pass (Some 1)).
  - apply (bool_decide_unpack _). vm_compute. exact I.
  - right. by left.
  - by right.
Defined.

(** X6. An update by the owner in which no field is supplied as [None] is
    found again under the key of the expense, leaves what the other keys
    find, keeps the keys unique, and changes nothing when it is applied a
    second time. *)
Theorem update_expense_is_found_again
    (db : DB) (e : Expense.t) (expense_data : ExpenseUpdate.t) :
  NoDup (Expense.expense_id <$> expenses db) →
  e ∈ expenses db →
  no_null_supplied expense_data →
  ∃ row db',
    ExpenseService.update_expense (Expense.expense_id e) expense_data
      (Some (Expense.user_id e)) db = (Ok row, db')
    ∧ ExpenseService.get_expense_by_id db' (Expense.expense_id e)
      = Ok (Some row)
    ∧ (∀ k, k ≠ Expense.expense_id e →
            ExpenseService.get_expense_by_id db' k
            = ExpenseService.get_expense_by_id db k)
    ∧ NoDup (Expense.expense_id <$> expenses db')
    ∧ ExpenseService.update_expense (Expense.expense_id e) expense_data
        (Some (Expense.user_id e)) db' = (Ok row, db').
Proof.
  intros Hnodup Hin Hnull.
  set (row := updated e expense_data).
  set (f := λ r : Expense.t,
              if decide (Expense.expense_id r = Expense.expense_id e)
              then row else r).
  set (db' := mkDB (users db) (f <$> expenses db)).
  assert (∀ db0 e0, NoDup (Expense.expense_id <$> expenses db0) →
            e0 ∈ expenses db0 →
            ExpenseService.update_expense (Expense.expense_id e0) expense_data
              (Some (Expense.user_id e0)) db0
            = (Ok (updated e0 expense_data),
               mkDB (users db0)
                 ((λ r, if decide (Expense.expense_id r = Expense.expense_id e0)
                        then updated e0 expense_data else r) <$> expenses db0)))
    as Hrun.
  { intros db0 e0 Hnd0 Hin0.
    unfold ExpenseService.update_expense, mbind, M_bind, query.
    rewrite get_expense_by_id_found by done.
    rewrite owner_is_not_refused. unfold commit_expense.
    by rewrite attrs_after_update. }
  assert (Expense.expense_id row = Expense.expense_id e) as Hid by reflexivity.
  assert (NoDup (Expense.expense_id <$> expenses db')) as Hnodup'.
  { unfold db', f. cbn [expenses]. by rewrite replaced_row_ids. }
  assert (row ∈ expenses db') as Hin'.
  { unfold db'. cbn [expenses]. apply list_elem_of_fmap. exists e.
    split; [| done]. unfold f. by rewrite decide_True. }
  exists row, db'. split; [by apply Hrun |].
  split; [rewrite <- Hid; by apply get_expense_by_id_found |].
  split.
  { intros k Hk. unfold ExpenseService.get_expense_by_id, db'. cbn [expenses].
    f_equal. clear Hin Hnodup Hnodup' Hin' Hrun.
    induction (expenses db) as [| r l IH]; [done |].
    cbn [fmap list_fmap].
    assert ((Expense.expense_id r = Expense.expense_id e ∧ f r = row)
            ∨ (Expense.expense_id r ≠ Expense.expense_id e ∧ f r = r))
      as [[Hr ->] | [Hr ->]] by (unfold f; destruct (decide _); auto).
    - rewrite !filter_cons_False by congruence. apply IH.
    - rewrite !filter_cons.
      destruct (decide (Expense.expense_id r = k)); [f_equal |]; apply IH. }
  split; [done |].
  change (ExpenseService.update_expense (Expense.expense_id row) expense_data
            (Some (Expense.user_id row)) db' = (Ok row, db')).
  rewrite Hrun by done.
  assert (updated row expense_data = row) as Hrow.
  { unfold row. destruct e as [i u n a c t], expense_data as [dn da dc].
    by destruct dn as [[?|]|], da as [[?|]|], dc as [[?|]|]. }
  rewrite Hrow. f_equal. unfold db'. cbn [users expenses]. f_equal.
  rewrite <- list_fmap_compose. apply list_fmap_ext. intros _ r _.
  unfold compose.
  assert ((Expense.expense_id r = Expense.expense_id e ∧ f r = row)
          ∨ (Expense.expense_id r ≠ Expense.expense_id e ∧ f r = r))
    as [[Hr ->] | [Hr ->]] by (unfold f; destruct (decide _); auto).
  - by rewrite decide_True.
  - by rewrite decide_False.
Qed.

Lemma update_expense_is_found_again_witness :
  ∃ row db',
    ExpenseService.update_expense 3
      (ExpenseUpdate.mk (Some (Some "Opera"%string)) None (Some (Some OTHER)))
      (Some 1) Sample.db = (Ok row, db')
    ∧ ExpenseService.get_expense_by_id db' 3 = Ok (Some row)
    ∧ (∀ k, k ≠ 3 →
            ExpenseService.get_expense_by_id db' k
            = ExpenseService.get_expense_by_id Sample.db k)
    ∧ NoDup (Expense.expense_id <$> expenses db')
    ∧ ExpenseService.update_expense 3
        (ExpenseUpdate.mk (Some (Some "Opera"%string)) None (Some (Some OTHER)))
        (Some 1) db' = (Ok row, db').
Proof.
  apply (update_expense_is_found_again Sample.db Sample.concert
           (ExpenseUpdate.mk (Some (Some "Opera"%string)) None
              (Some (Some OTHER)))).
  - apply (bool_decide_unpack _). vm_compute. exact I.
  - right. right. by left.
  - repeat split; discriminate.
Defined.

Section listing.

(** The rows of a user that a list of conditions selects, as the query of
    [get_user_expenses] returns them. *)
Lemma get_user_expenses_inv (db : DB) (user_id : Z)
    (filters : option ExpenseFilter.t) (l : list Expense.t) :
  ExpenseService.get_user_expenses db user_id filters = Ok l →
  ∃ user conditions,
    ExpenseService.verify_user_exists db user_id = Ok user
    ∧ l = order_by_created_at_desc
            (filter (λ e, Expense.user_id e = user_id
                          ∧ forallb (holds e) conditions = true)
                    (expenses db)).
Proof.
  unfold ExpenseService.get_user_expenses.
  destruct (ExpenseService.verify_user_exists db user_id) as [user|]; [| done].
  cbn [mbind result_bind].
  destruct (match filters with Some _ => _ | None => _ end) as [conditions|];
    [| done].
  cbn [mbind result_bind]. intros [= <-]. by exists user, conditions.
Qed.

Lemma get_user_expenses_None (db : DB) (user_id : Z) (user : User.t) :
  ExpenseService.verify_user_exists db user_id = Ok user →
  ExpenseService.get_user_expenses db user_id None
  = Ok (order_by_created_at_desc
          (filter (λ e, Expense.user_id e = user_id) (expenses db))).
Proof.
  intros Hu. unfold ExpenseService.get_user_expenses. rewrite Hu.
  cbn [mbind result_bind forallb]. do 2 f_equal.
  apply list_filter_iff. intros e. split; [by intros [? _] | by intros ?].
Qed.

(** The listing of a database depends on the users and on the rows of the
    user only. *)
Lemma get_user_expenses_ext (db db' : DB) (user_id : Z)
    (filters : option ExpenseFilter.t) :
  users db' = users db →
  filter (λ e, Expense.user_id e = user_id) (expenses db')
  = filter (λ e, Expense.user_id e = user_id) (expenses db) →
  ExpenseService.get_user_expenses db' user_id filters
  = ExpenseService.get_user_expenses db user_id filters.
Proof.
  intros Hus Hes. unfold ExpenseService.get_user_expenses.
  rewrite (verify_user_exists_users db db') by done.
  destruct (ExpenseService.verify_user_exists db user_id); [| done].
  cbn [mbind result_bind].
  destruct (match filters with Some _ => _ | None => _ end) as [conditions|];
    [| done].
  cbn [mbind result_bind]. do 2 f_equal.
  rewrite <- (list_filter_filter_l
                (λ e, Expense.user_id e = user_id
                      ∧ forallb (holds e) conditions = true)
                (λ e, Expense.user_id e = user_id) (expenses db'))
    by (by intros ? [? ?]).
  rewrite <- (list_filter_filter_l
                (λ e, Expense.user_id e = user_id
                      ∧ forallb (holds e) conditions = true)
                (λ e, Expense.user_id e = user_id) (expenses db))
    by (by intros ? [? ?]).
  by rewrite Hes.
Qed.

End listing.

(** X7. Whatever the filter, [get_user_expenses] returns stored expenses of
    the user it is asked for, and no more of them than the listing without
    filter, which holds each stored expense of the user once. *)
Theorem filters_only_narrow_the_listing
    (db : DB) (user_id : Z) (filters : option ExpenseFilter.t)
    (l : list Expense.t) :
  ExpenseService.get_user_expenses db user_id filters = Ok l →
  (∀ e, e ∈ l → e ∈ expenses db ∧ Expense.user_id e = user_id)
  ∧ ∃ all,
      ExpenseService.get_user_expenses db user_id None = Ok all
      ∧ all ≡ₚ filter (λ e, Expense.user_id e = user_id) (expenses db)
      ∧ l ⊆+ all.
Proof.
  intros Hl.
  apply get_user_expenses_inv in Hl as (user & conditions & Hu & ->).
  split.
  - intros e He. unfold order_by_created_at_desc in He.
    rewrite merge_sort_Permutation in He.
    apply list_elem_of_filter in He as [[? _] ?]. done.
  - eexists. split; [by apply (get_user_expenses_None db user_id user) |].
    unfold order_by_created_at_desc. rewrite !merge_sort_Permutation.
    split; [done |].
    rewrite <- (list_filter_filter_l
                  (λ e, Expense.user_id e = user_id
                        ∧ forallb (holds e) conditions = true)
                  (λ e, Expense.user_id e = user_id) (expenses db))
      by (by intros ? [? ?]).
    apply sublist_submseteq, sublist_filter.
Qed.

Lemma filters_only_narrow_the_listing_witness :
  (∀ e, e ∈ [Sample.groceries] → e ∈ expenses Sample.db ∧ Expense.user_id e = 1)
  ∧ ∃ all,
      ExpenseService.get_user_expenses Sample.db 1 None = Ok all
      ∧ all ≡ₚ filter (λ e, Expense.user_id e = 1) (expenses Sample.db)
      ∧ [Sample.groceries] ⊆+ all.
Proof.
  apply (filters_only_narrow_the_listing Sample.db 1
           (Some (ExpenseFilter.mk None None None None (Some FOOD)))).
  vm_compute. reflexivity.
Defined.

(** X8. After [create_expense], the listing of the user holds the new
    expense besides the expenses it held before, and the listing of every
    other user, under every filter, is what it was. *)
Theorem created_expense_is_listed
    (db : DB) (expense_id : Z) (utcnow : datetime.t)
    (expense_data : ExpenseCreate.t) (user : User.t)
    (before : list Expense.t) :
  ExpenseService.verify_user_exists db (ExpenseCreate.user_id expense_data)
  = Ok user →
  expense_id ∉ Expense.expense_id <$> expenses db →
  ExpenseService.get_user_expenses db (ExpenseCreate.user_id expense_data) None
  = Ok before →
  ∃ row db',
    ExpenseService.create_expense expense_id utcnow expense_data db
    = (Ok row, db')
    ∧ (∃ after,
         ExpenseService.get_user_expenses db'
           (ExpenseCreate.user_id expense_data) None = Ok after
         ∧ after ≡ₚ row :: before)
    ∧ ∀ user_id filters,
        user_id ≠ ExpenseCreate.user_id expense_data →
        ExpenseService.get_user_expenses db' user_id filters
        = ExpenseService.get_user_expenses db user_id filters.
Proof.
  intros Hu Hfresh Hbefore. do 2 eexists.
  split.
  { unfold ExpenseService.create_expense, mbind, M_bind, query.
    rewrite Hu. unfold insert_expense.
    rewrite bool_decide_eq_false_2 by done. reflexivity. }
  split.
  - eexists. split.
    + apply (get_user_expenses_None _ _ user).
      by rewrite (verify_user_exists_users db).
    + rewrite (get_user_expenses_None db _ user Hu) in Hbefore.
      injection Hbefore as <-. unfold order_by_created_at_desc.
      rewrite !merge_sort_Permutation. cbn [expenses].
      rewrite filter_app, filter_cons_True by done.
      rewrite filter_nil. by rewrite <- Permutation_cons_append.
  - intros user_id filters Hne. apply get_user_expenses_ext; [done |].
    cbn [expenses]. rewrite filter_app, filter_cons_False by (cbn; congruence).
    by rewrite filter_nil, app_nil_r.
Qed.

Lemma created_expense_is_listed_witness :
  ∃ row db',
    ExpenseService.create_expense 5 (Sample.at_hour 2025 7 1 8)
      (ExpenseCreate.mk "Taxi" 18.5%float TRANSPORT 2) Sample.db
    = (Ok row, db')
    ∧ (∃ after,
         ExpenseService.get_user_expenses db' 2 None = Ok after
         ∧ after ≡ₚ row :: [Sample.bobs_lunch])
    ∧ ∀ user_id filters,
        user_id ≠ 2 →
        ExpenseService.get_user_expenses db' user_id filters
        = ExpenseService.get_user_expenses Sample.db user_id filters.
Proof.
  apply (created_expense_is_listed Sample.db 5 (Sample.at_hour 2025 7 1 8)
           (ExpenseCreate.mk "Taxi" 18.5%float TRANSPORT 2) Sample.bob
           [Sample.bobs_lunch]).
  - reflexivity.
  - apply (bool_decide_unpack _). vm_compute. exact I.
  - vm_compute. reflexivity.
Defined.

(** X9. The year of a filter selects nothing by itself: without week and
    month, [get_user_expenses] returns what it returns without the year; and
    a week or a month without year is passed over just the same. *)
Theorem year_alone_selects_nothing
    (db : DB) (user_id : Z) (day : option datetime.date)
    (week month year : option Z) (category : option ExpenseCategory) :
  ExpenseService.get_user_expenses db user_id
    (Some (ExpenseFilter.mk day None None year category))
  = ExpenseService.get_user_expenses db user_id
      (Some (ExpenseFilter.mk day None None None category))
  ∧ ExpenseService.get_user_expenses db user_id
      (Some (ExpenseFilter.mk None week month None category))
    = ExpenseService.get_user_expenses db user_id
        (Some (ExpenseFilter.mk None None None None category)).
Proof.
  unfold ExpenseService.get_user_expenses.
  destruct (ExpenseService.verify_user_exists db user_id); [| done].
  cbn [mbind result_bind]. split.
  - by destruct day.
  - by rewrite !range_conditions_none by (cbn; auto).
Qed.

(** ** The ranges of months and weeks on the calendar *)

Section month_ranges.
Import datetime FilterResolver.

Ltac month_cases month :=
  let Hcases := fresh "Hcases" in
  assert (month = 1 ∨ month = 2 ∨ month = 3 ∨ month = 4 ∨ month = 5
          ∨ month = 6 ∨ month = 7 ∨ month = 8 ∨ month = 9 ∨ month = 10
          ∨ month = 11 ∨ month = 12) as Hcases by lia;
  repeat (destruct Hcases as [-> | Hcases]); try subst month.

Lemma month_ends_in_its_year (year month : Z) :
  1 ≤ month ≤ 12 →
  days_before_month year month + days_in_month year month
  ≤ (if is_leap year then 366 else 365).
Proof.
  intros Hm. unfold days_before_month, days_in_month.
  month_cases month; destruct (is_leap year); vm_compute; congruence.
Qed.

Lemma month_ends_before_later_month (year m1 m2 : Z) :
  1 ≤ m1 → m1 < m2 → m2 ≤ 12 →
  days_before_month year m1 + days_in_month year m1
  ≤ days_before_month year m2.
Proof.
  intros H1 H12 H2. unfold days_before_month, days_in_month.
  assert (1 ≤ m1 ≤ 12) as Hm1 by lia. assert (1 ≤ m2 ≤ 12) as Hm2 by lia.
  month_cases m1; month_cases m2; try lia;
    destruct (is_leap year); vm_compute; congruence.
Qed.

(** The ordinal of the last day of a month grows with the month. *)
Lemma last_day_mono (y1 m1 y2 m2 : Z) :
  1 ≤ y1 → 1 ≤ m1 ≤ 12 → 1 ≤ m2 ≤ 12 →
  y1 < y2 ∨ (y1 = y2 ∧ m1 ≤ m2) →
  ymd2ord y1 m1 (days_in_month y1 m1) ≤ ymd2ord y2 m2 (days_in_month y2 m2).
Proof.
  intros Hy1 Hm1 Hm2 Hle. unfold ymd2ord.
  pose proof (days_in_month_range y2 m2 Hm2) as Hd2.
  pose proof (days_before_month_bounds y2 m2 Hm2) as Hb2.
  destruct Hle as [Hlt | [<- Hle]].
  - pose proof (month_ends_in_its_year y1 m1 Hm1) as Hend.
    pose proof (days_before_year_succ y1 Hy1) as Hsucc.
    pose proof (days_before_year_mono (y1 + 1) y2 ltac:(lia)) as Hmono.
    destruct (is_leap y1); lia.
  - destruct (decide (m1 = m2)) as [-> | Hne]; [lia |].
    pose proof (month_ends_before_later_month y1 m1 m2 ltac:(lia) ltac:(lia)
                  ltac:(lia)).
    lia.
Qed.

(** The first day of a later month comes after the last day of the month. *)
Lemma first_day_after (y1 m1 y2 m2 : Z) :
  1 ≤ y1 → 1 ≤ m1 ≤ 12 → 1 ≤ m2 ≤ 12 →
  y1 < y2 ∨ (y1 = y2 ∧ m1 < m2) →
  ymd2ord y1 m1 (days_in_month y1 m1) < ymd2ord y2 m2 1.
Proof.
  intros Hy1 Hm1 Hm2 Hlt. unfold ymd2ord.
  pose proof (days_before_month_bounds y2 m2 Hm2) as Hb2.
  destruct Hlt as [Hlt | [<- Hlt]].
  - pose proof (month_ends_in_its_year y1 m1 Hm1) as Hend.
    pose proof (days_before_year_succ y1 Hy1) as Hsucc.
    pose proof (days_before_year_mono (y1 + 1) y2 ltac:(lia)) as Hmono.
    destruct (is_leap y1); lia.
  - pose proof (month_ends_before_later_month y1 m1 m2 ltac:(lia) ltac:(lia)
                  ltac:(lia)).
    lia.
Qed.

(** An expense that a filter returns meets the range condition of the
    filter. *)
Lemma listed_expense_in_range (db : DB) (user_id : Z) (f : ExpenseFilter.t)
    (l : list Expense.t) (e : Expense.t) (lo hi : Z) :
  ExpenseService.range_conditions f = Ok [CreatedBetween lo hi] →
  ExpenseService.get_user_expenses db user_id (Some f) = Ok l →
  e ∈ l → lo ≤ Expense.created_at e ≤ hi.
Proof.
  intros Hrange. unfold ExpenseService.get_user_expenses.
  destruct (ExpenseService.verify_user_exists db user_id); [| done].
  rewrite Hrange. cbn [mbind result_bind]. intros [= <-] He.
  unfold order_by_created_at_desc in He. rewrite merge_sort_Permutation in He.
  apply list_elem_of_filter in He as [[_ He] _].
  cbn [app forallb] in He. apply andb_true_iff in He as [He _].
  by apply holds_range.
Qed.

(** A stored expense of the user that meets the conditions of the filter is
    returned. *)
Lemma expense_in_range_listed (db : DB) (user_id : Z) (user : User.t)
    (f : ExpenseFilter.t) (e : Expense.t) (lo hi : Z) :
  ExpenseService.verify_user_exists db user_id = Ok user →
  ExpenseService.range_conditions f = Ok [CreatedBetween lo hi] →
  e ∈ expenses db → Expense.user_id e = user_id →
  lo ≤ Expense.created_at e ≤ hi →
  in_category_of (ExpenseFilter.category f) e →
  ∃ l, ExpenseService.get_user_expenses db user_id (Some f) = Ok l ∧ e ∈ l.
Proof.
  intros Hu Hrange Hin Huid Ht Hc. eexists.
  unfold ExpenseService.get_user_expenses. rewrite Hu, Hrange.
  cbn [mbind result_bind]. split; [reflexivity |].
  unfold order_by_created_at_desc. rewrite merge_sort_Permutation.
  apply list_elem_of_filter. split; [| done]. split; [done |].
  cbn [app forallb]. apply andb_true_iff. split.
  - by apply holds_range.
  - by apply category_conditions_hold.
Qed.

End month_ranges.

(** X10. The range of a month ends at 23:59:59.000000 of its last day: an
    expense created later in that second is returned under no month filter,
    neither that of its month nor that of any other. *)
Theorem last_second_of_a_month_is_in_no_month
    (db : DB) (user_id : Z) (e : Expense.t) (y m : Z) (last : datetime.t) :
  1 ≤ y ≤ 9998 → 1 ≤ m ≤ 12 →
  datetime.new_full y m (datetime.days_in_month y m) 23 59 59 0 = Ok last →
  last < Expense.created_at e < last + datetime.US_PER_SECOND →
  ∀ (y' m' : Z) (category : option ExpenseCategory) (l : list Expense.t),
    1 ≤ y' ≤ 9998 → 1 ≤ m' ≤ 12 →
    ExpenseService.get_user_expenses db user_id
      (Some (ExpenseFilter.mk None None (Some m') (Some y') category)) = Ok l →
    e ∉ l.
Proof.
  intros Hy Hm Hlast Ht y' m' category l Hy' Hm' Hl He.
  pose proof (range_conditions_month
                (ExpenseFilter.mk None None (Some m') (Some y') category) m' y'
                eq_refl eq_refl eq_refl eq_refl Hm' Hy') as Hrange.
  pose proof (listed_expense_in_range _ _ _ _ _ _ _ Hrange Hl He) as Hin.
  unfold FilterResolver.month_range, FilterResolver.LAST_SECOND in Hin.
  cbn [fst snd] in Hin.
  unfold datetime.new_full in Hlast.
  destruct (_ && _) in Hlast; [| discriminate Hlast].
  injection Hlast as <-.
  rewrite US_PER_DAY_eq in *. unfold datetime.US_PER_SECOND in *.
  destruct (decide (y' < y ∨ (y' = y ∧ m' ≤ m))) as [Hle | Hgt].
  - pose proof (last_day_mono y' m' y m ltac:(lia) Hm' Hm Hle). lia.
  - pose proof (first_day_after y m y' m' ltac:(lia) Hm Hm' ltac:(lia)). lia.
Qed.

Lemma last_second_of_a_month_is_in_no_month_witness :
  let e := Expense.mk 7 1 "Fireworks" 80%float ENTERTAINMENT
             (Sample.at_hour 2025 2 1 0 - 500000) in
  (e ∉ [Sample.groceries]) ∧ (e ∉ [Sample.bus_pass]).
Proof.
  intros e.
  pose proof (last_second_of_a_month_is_in_no_month
                (mkDB (users Sample.db) (e :: expenses Sample.db)) 1 e 2025 1
                (Sample.at_hour 2025 2 1 0 - 1000000)
                ltac:(lia) ltac:(lia) ltac:(vm_compute; reflexivity)
                ltac:(vm_compute; split; reflexivity)) as Hnone.
  split.
  - apply (Hnone 2025 1 None); [lia | lia |]. vm_compute. reflexivity.
  - apply (Hnone 2025 2 None); [lia | lia |]. vm_compute. reflexivity.
Defined.

(** X11. Week 53 of a year, counted from January 1st, reaches into the next
    year: an expense created on January 1st of the next year is returned
    under week 53 of the year and under week 1 of the next. *)
Theorem week_53_reaches_into_the_next_year
    (db : DB) (user_id : Z) (user : User.t) (e : Expense.t) (y : Z)
    (jan_1 : datetime.t) :
  1 ≤ y ≤ 9997 →
  ExpenseService.verify_user_exists db user_id = Ok user →
  e ∈ expenses db → Expense.user_id e = user_id →
  datetime.new (y + 1) 1 1 = Ok jan_1 →
  jan_1 ≤ Expense.created_at e < jan_1 + datetime.US_PER_DAY →
  ∃ l53 l1,
    ExpenseService.get_user_expenses db user_id
      (Some (ExpenseFilter.mk None (Some 53) None (Some y) None)) = Ok l53
    ∧ e ∈ l53
    ∧ ExpenseService.get_user_expenses db user_id
        (Some (ExpenseFilter.mk None (Some 1) None (Some (y + 1)) None))
      = Ok l1
    ∧ e ∈ l1.
Proof.
  intros Hy Hu Hin Huid Hjan Ht.
  rewrite new_first_of_month in Hjan by lia. injection Hjan as <-.
  rewrite ymd2ord_jan_1, days_before_year_succ in Ht by lia.
  pose proof (range_conditions_week
                (ExpenseFilter.mk None (Some 53) None (Some y) None) 53 y
                eq_refl eq_refl eq_refl ltac:(lia) ltac:(lia)) as H53.
  pose proof (range_conditions_week
                (ExpenseFilter.mk None (Some 1) None (Some (y + 1)) None) 1
                (y + 1) eq_refl eq_refl eq_refl ltac:(lia) ltac:(lia)) as H1.
  destruct (expense_in_range_listed db user_id user _ e _ _ Hu H53 Hin Huid)
    as (l53 & Hl53 & He53); [| done |].
  { unfold FilterResolver.week_range, FilterResolver.LAST_SECOND.
    cbn [fst snd]. rewrite ymd2ord_jan_1.
    rewrite US_PER_DAY_eq in *. unfold datetime.US_PER_SECOND.
    destruct (datetime.is_leap y); lia. }
  destruct (expense_in_range_listed db user_id user _ e _ _ Hu H1 Hin Huid)
    as (l1 & Hl1 & He1); [| done |].
  { unfold FilterResolver.week_range, FilterResolver.LAST_SECOND.
    cbn [fst snd]. rewrite ymd2ord_jan_1, days_before_year_succ by lia.
    rewrite US_PER_DAY_eq in *. unfold datetime.US_PER_SECOND.
    destruct (datetime.is_leap y); lia. }
  by exists l53, l1.
Qed.

Lemma week_53_reaches_into_the_next_year_witness :
  let e := Expense.mk 7 1 "Brunch" 30%float FOOD (Sample.at_hour 2026 1 1 11) in
  ∃ l53 l1,
    ExpenseService.get_user_expenses
      (mkDB (users Sample.db) (e :: expenses Sample.db)) 1
      (Some (ExpenseFilter.mk None (Some 53) None (Some 2025) None)) = Ok l53
    ∧ e ∈ l53
    ∧ ExpenseService.get_user_expenses
        (mkDB (users Sample.db) (e :: expenses Sample.db)) 1
        (Some (ExpenseFilter.mk None (Some 1) None (Some (2025 + 1)) None))
      = Ok l1
    ∧ e ∈ l1.
Proof.
  intros e.
  apply (week_53_reaches_into_the_next_year
           (mkDB (users Sample.db) (e :: expenses Sample.db)) 1 Sample.alice e
           2025 (Sample.at_hour 2026 1 1 0)).
  - lia.
  - reflexivity.
  - by left.
  - reflexivity.
  - vm_compute. reflexivity.
  - vm_compute. split; [discriminate | reflexivity].
Defined.

(** ** The summary at its edges *)

Section summary_edges.

Lemma sub_zero (x : float) : (x - 0)%float = x.
Proof.
  apply Prim2SF_inj. rewrite sub_spec.
  change (Prim2SF 0) with (S754_zero false).
  by destruct (Prim2SF x) as [[]|[]| |[] m e].
Qed.

Lemma sum_nil (alg : pyfloat.sum_algorithm) : pyfloat.sum alg [] = 0%float.
Proof. by destruct alg. Qed.

(** What [get_budget_summary] returns is the summary of the listing. *)
Lemma get_budget_summary_inv (alg : pyfloat.sum_algorithm) (db : DB)
    (user_id : Z) (filters : option ExpenseFilter.t) (s : BudgetSummary.t) :
  ExpenseService.get_budget_summary alg db user_id filters = Ok s →
  ∃ user l,
    ExpenseService.verify_user_exists db user_id = Ok user
    ∧ ExpenseService.get_user_expenses db user_id filters = Ok l
    ∧ s = summary_of alg user_id (User.salary user) l.
Proof.
  unfold ExpenseService.get_budget_summary.
  destruct (ExpenseService.verify_user_exists db user_id) as [user|]; [| done].
  cbn [mbind result_bind].
  destruct (ExpenseService.get_user_expenses db user_id filters) as [l|];
    [| done].
  cbn [mbind result_bind]. intros Hs. exists user, l.
  split; [done |]. split; [done |].
  unfold ExpenseService.summarize in Hs.
  destruct (category_totals_after_loop l) as (totals & Hrun & Hsum).
  rewrite Hrun in Hs. cbn [mbind result_bind] in Hs.
  unfold CategoryBreakdown.new in Hs.
  cbn [default all_categories forallb] in Hs. rewrite !Hsum in Hs.
  cbn [from_option] in Hs. unfold id in Hs.
  destruct (_ && _) in Hs; [| done]. cbn [mbind result_bind] in Hs.
  unfold BudgetSummary.new in Hs.
  destruct (_ && _) in Hs; [| done]. by injection Hs as <-.
Qed.

End summary_edges.

(** X12. When the listing is empty, [get_budget_summary] returns the total
    0.0, the salary rounded to two decimals as the remaining amount, and 0.0
    for every category; it fails on the bound of [total_salary] when the
    salary is negative or not a number. *)
Theorem summary_of_no_expense
    (alg : pyfloat.sum_algorithm) (db : DB) (user_id : Z)
    (filters : option ExpenseFilter.t) (user : User.t) :
  ExpenseService.verify_user_exists db user_id = Ok user →
  ExpenseService.get_user_expenses db user_id filters = Ok [] →
  ExpenseService.get_budget_summary alg db user_id filters
  = if ge0 (User.salary user)
    then Ok (BudgetSummary.mk user_id (User.salary user) 0%float
               (pyfloat.round2 (User.salary user))
               (CategoryBreakdown.mk 0%float 0%float 0%float 0%float 0%float))
    else Err ValidationError.
Proof.
  intros Hu Hl. unfold ExpenseService.get_budget_summary.
  rewrite Hu. cbn [mbind result_bind]. rewrite Hl. cbn [mbind result_bind].
  unfold ExpenseService.summarize. cbn [fmap list_fmap].
  rewrite sum_nil, sub_zero. cbn [ExpenseService.for_each mbind result_bind].
  change (CategoryBreakdown.new ExpenseService.initial_category_totals)
    with (Ok (CategoryBreakdown.mk 0%float 0%float 0%float 0%float 0%float)).
  cbn [mbind result_bind]. unfold BudgetSummary.new.
  change (pyfloat.round2 0) with 0%float.
  change (ge0 0) with true. by rewrite andb_true_r.
Qed.

Lemma summary_of_no_expense_witness :
  ExpenseService.get_budget_summary pyfloat.Neumaier Sample.db 2
    (Some (ExpenseFilter.mk None None None None (Some UTILITIES)))
  = if ge0 (User.salary Sample.bob)
    then Ok (BudgetSummary.mk 2 (User.salary Sample.bob) 0%float
               (pyfloat.round2 (User.salary Sample.bob))
               (CategoryBreakdown.mk 0%float 0%float 0%float 0%float 0%float))
    else Err ValidationError.
Proof.
  apply (summary_of_no_expense pyfloat.Neumaier Sample.db 2
           (Some (ExpenseFilter.mk None None None None (Some UTILITIES)))
           Sample.bob).
  - reflexivity.
  - vm_compute. reflexivity.
Defined.

(** X13. Under a category filter, the summary that [get_budget_summary]
    returns holds 0.0 for every other category. *)
Theorem category_filter_zeroes_the_other_categories
    (alg : pyfloat.sum_algorithm) (db : DB) (user_id : Z)
    (f : ExpenseFilter.t) (c : ExpenseCategory) (s : BudgetSummary.t) :
  ExpenseFilter.category f = Some c →
  ExpenseService.get_budget_summary alg db user_id (Some f) = Ok s →
  ∀ c', c' ≠ c →
        CategoryBreakdown.get (BudgetSummary.category_breakdown s) c'
        = 0%float.
Proof.
  intros Hc Hs c' Hne.
  apply get_budget_summary_inv in Hs as (user & l & Hu & Hl & ->).
  assert (∀ e, e ∈ l → Expense.category e = c) as Hcat.
  { revert Hl. unfold ExpenseService.get_user_expenses. rewrite Hu.
    cbn [mbind result_bind].
    destruct (ExpenseService.range_conditions f) as [range|]; [| done].
    cbn [mbind result_bind]. intros [= <-] e He.
    unfold order_by_created_at_desc in He. rewrite merge_sort_Permutation in He.
    apply list_elem_of_filter in He as [[_ He] _].
    rewrite forallb_app in He. apply andb_true_iff in He as [_ He].
    apply category_conditions_hold in He. by rewrite Hc in He. }
  assert (category_sum c' l = 0%float) as Hzero.
  { apply category_sum_empty. intros e He. rewrite (Hcat e He). congruence. }
  unfold summary_of. cbn [BudgetSummary.category_breakdown].
  by destruct c'.
Qed.

Lemma category_filter_zeroes_the_other_categories_witness :
  let s := BudgetSummary.mk 1 1000%float 200%float 800%float
             (CategoryBreakdown.mk 0%float 200%float 0%float 0%float 0%float) in
  ExpenseService.get_budget_summary pyfloat.Naive Sample.db 1
    (Some (ExpenseFilter.mk None None None None (Some TRANSPORT))) = Ok s
  ∧ CategoryBreakdown.get (BudgetSummary.category_breakdown s) FOOD = 0%float
  ∧ CategoryBreakdown.get (BudgetSummary.category_breakdown s) OTHER = 0%float.
Proof.
  intros s.
  assert (ExpenseService.get_budget_summary pyfloat.Naive Sample.db 1
            (Some (ExpenseFilter.mk None None None None (Some TRANSPORT)))
          = Ok s) as Hs by (vm_compute; reflexivity).
  pose proof (category_filter_zeroes_the_other_categories pyfloat.Naive
                Sample.db 1
                (ExpenseFilter.mk None None None None (Some TRANSPORT))
                TRANSPORT s eq_refl Hs) as Hzero.
  split; [exact Hs |]. split; apply Hzero; discriminate.
Defined.

(** ** The endpoints of the expenses *)

Section expenses_endpoints.

Lemma respond_inv {A B : Type} (response_model : A → result B)
    (handler : M A) (db db' : DB) (o : outcome B) :
  respond response_model handler db = (o, db') →
  ∃ r, handler db = (r, db').
Proof.
  unfold respond. destruct (handler db) as [[a|e] db''];
    intros [= _ <-]; eauto.
Qed.

Lemma respond_raised {A B : Type} (response_model : A → result B)
    (handler : M A) (db db' : DB) (e : exn) :
  handler db = (Err e, db') →
  respond response_model handler db = (Raised e, db').
Proof. intros H. unfold respond. by rewrite H. Qed.

Lemma filter_filter_in {A : Type} (P Q : A → Prop)
    `{∀ x, Decision (P x)} `{∀ x, Decision (Q x)} (l : list A) :
  (∀ x, x ∈ l → P x → Q x) →
  filter P (filter Q l) = filter P l.
Proof.
  induction l as [| x l IH]; intros HPQ; [done |].
  rewrite (filter_cons Q). destruct (decide (Q x)) as [HQ | HQ].
  - rewrite !filter_cons. destruct (decide (P x));
      [f_equal |]; apply IH; intros y Hy; apply HPQ; by right.
  - rewrite filter_cons_False.
    + apply IH. intros y Hy. apply HPQ. by right.
    + intros HP. apply HQ, HPQ; [by left | done].
Qed.

Lemma filter_fmap_in {A : Type} (P : A → Prop) `{∀ x, Decision (P x)}
    (f : A → A) (l : list A) :
  (∀ x, x ∈ l → f x = x ∨ (¬ P x ∧ ¬ P (f x))) →
  filter P (f <$> l) = filter P l.
Proof.
  induction l as [| x l IH]; intros Hf; [done |].
  cbn [fmap list_fmap].
  destruct (Hf x ltac:(by left)) as [-> | [Hx Hfx]].
  - rewrite !filter_cons. destruct (decide (P x));
      [f_equal |]; apply IH; intros y Hy; apply Hf; by right.
  - rewrite !filter_cons_False by done.
    apply IH. intros y Hy. apply Hf. by right.
Qed.

(** The check of the acting user, for an acting user other than 0. *)
Lemma acting_user_is_owner (owner acting : Z) :
  acting ≠ 0 →
  truthy_int (Some acting) && negb (owner =? default 0 (Some acting)) = false →
  owner = acting.
Proof.
  intros H0. rewrite truthy_int_Some by done. cbn.
  by destruct (Z.eqb_spec owner acting).
Qed.

(** [update_expense] and [delete_expense], called for an acting user other
    than 0, leave the users and the expenses of the other users as they
    are. *)
Lemma update_expense_of_acting_user (db db' : DB) (expense_id acting : Z)
    (d : ExpenseUpdate.t) (r : result Expense.t) :
  acting ≠ 0 →
  ExpenseService.update_expense expense_id d (Some acting) db = (r, db') →
  users db' = users db
  ∧ filter (λ e, Expense.user_id e ≠ acting) (expenses db')
    = filter (λ e, Expense.user_id e ≠ acting) (expenses db).
Proof.
  intros H0 Hrun.
  apply update_expense_inv in Hrun
    as [[-> _] | (e & Hget & Hcheck & _ & ->)]; [done |].
  apply acting_user_is_owner in Hcheck; [| done].
  apply get_expense_by_id_Some in Hget as (Hf & _ & <-).
  split; [done |]. cbn [expenses]. apply filter_fmap_in.
  intros r' Hr'.
  destruct (decide (Expense.expense_id r' = Expense.expense_id e)) as [Hid|];
    [right | by left].
  apply (filter_column_singleton Expense.expense_id (expenses db) e r') in Hid
    as ->; [| done | done].
  rewrite <- Hcheck. split; intros H; by apply H.
Qed.

Lemma delete_expense_of_acting_user (db db' : DB) (expense_id acting : Z)
    (r : result bool) :
  acting ≠ 0 →
  ExpenseService.delete_expense expense_id (Some acting) db = (r, db') →
  users db' = users db
  ∧ filter (λ e, Expense.user_id e ≠ acting) (expenses db')
    = filter (λ e, Expense.user_id e ≠ acting) (expenses db).
Proof.
  intros H0 Hrun.
  apply delete_expense_inv in Hrun
    as [[-> _] | (e & Hget & Hcheck & _ & ->)]; [done |].
  apply acting_user_is_owner in Hcheck; [| done].
  apply get_expense_by_id_Some in Hget as (Hf & _ & <-).
  split; [done |]. cbn [expenses]. apply filter_filter_in.
  intros r' Hr' Hother Hid. apply Hother.
  by apply (filter_column_singleton Expense.expense_id (expenses db) e r')
    in Hid as ->.
Qed.

Lemma create_expense_of_acting_user (db db' : DB) (expense_id : Z)
    (utcnow : datetime.t) (d : ExpenseCreate.t) (r : result Expense.t) :
  ExpenseService.create_expense expense_id utcnow d db = (r, db') →
  users db' = users db
  ∧ filter (λ e, Expense.user_id e ≠ ExpenseCreate.user_id d) (expenses db')
    = filter (λ e, Expense.user_id e ≠ ExpenseCreate.user_id d) (expenses db).
Proof.
  unfold ExpenseService.create_expense, mbind, M_bind, query.
  destruct (ExpenseService.verify_user_exists db _); [| by intros [= _ <-]].
  unfold insert_expense. destruct (bool_decide _); intros [= _ <-]; [done |].
  split; [done |]. cbn [expenses].
  rewrite filter_app, filter_cons_False by (cbn; intros H; by apply H).
  by rewrite filter_nil, app_nil_r.
Qed.

End expenses_endpoints.

(** X14. Whatever the request and however it ends, the endpoints that
    create, update and delete an expense leave the users and the expenses of
    the other users as they are, for an acting user other than 0. *)
Theorem expense_endpoints_keep_the_rows_of_others
    (db db' : DB) (current_user_id : Z) :
  current_user_id ≠ 0 →
  ((∃ expense_id utcnow expense_data o,
      endpoints.expenses.create_expense expense_id utcnow expense_data
        current_user_id db = (o, db'))
   ∨ (∃ expense_id expense_data o,
        endpoints.expenses.update_expense expense_id expense_data
          current_user_id db = (o, db'))
   ∨ (∃ expense_id o,
        endpoints.expenses.delete_expense expense_id current_user_id db
        = (o, db'))) →
  users db' = users db
  ∧ filter (λ e, Expense.user_id e ≠ current_user_id) (expenses db')
    = filter (λ e, Expense.user_id e ≠ current_user_id) (expenses db).
Proof.
  intros H0 [(expense_id & utcnow & d & o & Hrun)
            | [(expense_id & d & o & Hrun) | (expense_id & o & Hrun)]].
  - apply respond_inv in Hrun as [r Hrun].
    destruct (Z.eqb_spec (ExpenseCreate.user_id d) current_user_id)
      as [<- | Hne]; cbn [negb] in Hrun.
    + by apply create_expense_of_acting_user in Hrun.
    + by injection Hrun as _ <-.
  - apply respond_inv in Hrun as [r Hrun].
    by apply update_expense_of_acting_user in Hrun.
  - apply respond_inv in Hrun as [r Hrun].
    by apply delete_expense_of_acting_user in Hrun.
Qed.

Lemma expense_endpoints_keep_the_rows_of_others_witness :
  users (mkDB [Sample.alice; Sample.bob]
           [Sample.bus_pass; Sample.concert; Sample.bobs_lunch])
  = users Sample.db
  ∧ filter (λ e, Expense.user_id e ≠ 1)
      (expenses (mkDB [Sample.alice; Sample.bob]
                   [Sample.bus_pass; Sample.concert; Sample.bobs_lunch]))
    = filter (λ e, Expense.user_id e ≠ 1) (expenses Sample.db).
Proof.
  apply (expense_endpoints_keep_the_rows_of_others Sample.db _ 1);
    [discriminate |].
  right. right. exists 1, (Responded ()). vm_compute. reflexivity.
Defined.

Section responses.

(** A list with an element that the response model refuses is refused. *)
Lemma mapM_model_validate_refused (l : list Expense.t) (e : Expense.t) :
  e ∈ l →
  ExpenseResponse.model_validate e = Err ValidationError →
  mapM ExpenseResponse.model_validate l = Err ValidationError.
Proof.
  intros Hin He. induction l as [| x l IH]; [by apply elem_of_nil in Hin |].
  cbn [mapM].
  destruct (ExpenseResponse.model_validate x) as [y|err] eqn:Ex.
  - apply elem_of_cons in Hin as [-> | Hin]; [congruence |].
    cbn [mbind result_bind]. by rewrite IH.
  - unfold ExpenseResponse.model_validate in Ex.
    destruct (_ && _) in Ex; [discriminate Ex | by injection Ex as <-].
Qed.

(** What the constructor of [ExpenseCreate] accepts. *)
Lemma ExpenseCreate_new_Ok (name : string) (amount : float)
    (category : ExpenseCategory) (user_id : Z) (d : ExpenseCreate.t) :
  ExpenseCreate.new name amount category user_id = Ok d →
  d = ExpenseCreate.mk name (pyfloat.round2 amount) category user_id
  ∧ length_between 1 200 name = true
  ∧ (0 <? amount)%float = true
  ∧ 0 < user_id.
Proof.
  unfold ExpenseCreate.new, ExpenseCreate.validate_amount.
  destruct (length_between 1 200 name); [| done].
  destruct (0 <? amount)%float; [| done].
  destruct (amount <=? 0)%float; [done |].
  destruct (Z.ltb_spec 0 user_id); [| done].
  by intros [= <-].
Qed.

End responses.

(** X15. A request that creates an expense with an amount above 0 that
    rounds to 0.00 passes [ExpenseCreate]; the row is stored with the amount
    0.0 and the request ends with an error, the response model refusing the
    amount.  From then on the listing of the user and the lookup of the
    expense end with the same error. *)
Theorem amount_that_rounds_to_zero_is_stored_and_refused
    (db : DB) (expense_id : Z) (utcnow : datetime.t) (name : string)
    (amount : float) (category : ExpenseCategory) (current_user_id : Z)
    (expense_data : ExpenseCreate.t) (user : User.t) :
  ExpenseCreate.new name amount category current_user_id = Ok expense_data →
  pyfloat.round2 amount = 0%float →
  ExpenseService.verify_user_exists db current_user_id = Ok user →
  expense_id ∉ Expense.expense_id <$> expenses db →
  ∃ db',
    endpoints.expenses.create_expense expense_id utcnow expense_data
      current_user_id db = (ResponseValidationError, db')
    ∧ expenses db'
      = expenses db
        ++ [Expense.mk expense_id current_user_id name 0%float category utcnow]
    ∧ endpoints.expenses.get_user_expenses current_user_id None None None None
        None db' = (ResponseValidationError, db')
    ∧ endpoints.expenses.get_expense expense_id db'
      = (ResponseValidationError, db').
Proof.
  intros Hnew Hzero Hu Hfresh.
  apply ExpenseCreate_new_Ok in Hnew as (-> & Hname & _ & _).
  rewrite Hzero.
  set (row := Expense.mk expense_id current_user_id name 0%float category
                utcnow).
  set (db' := mkDB (users db) (expenses db ++ [row])).
  assert (ExpenseResponse.model_validate row = Err ValidationError) as Hrow.
  { unfold ExpenseResponse.model_validate. cbn [Expense.amount row].
    change (0 <? 0)%float with false. by rewrite andb_false_r. }
  exists db'. split; [| split; [done |]; split].
  - unfold endpoints.expenses.create_expense, respond.
    cbn [ExpenseCreate.user_id]. rewrite Z.eqb_refl. cbn [negb].
    unfold ExpenseService.create_expense, mbind, M_bind, query.
    cbn [ExpenseCreate.user_id ExpenseCreate.name ExpenseCreate.amount
         ExpenseCreate.category].
    rewrite Hu. unfold insert_expense.
    rewrite bool_decide_eq_false_2 by done. fold row. by rewrite Hrow.
  - unfold endpoints.expenses.get_user_expenses, with_query_bounds, respond.
    cbn [constrain_int].
    unfold mbind at 1. unfold M_bind, query.
    change (ExpenseFilter.new None None None None None)
      with (Ok (ExpenseFilter.mk None None None None None)).
    assert (ExpenseService.verify_user_exists db' current_user_id = Ok user)
      as Hu' by (by rewrite (verify_user_exists_users db)).
    unfold ExpenseService.get_user_expenses. rewrite Hu'.
    cbn [mbind result_bind ExpenseService.range_conditions
         ExpenseService.category_conditions ExpenseFilter.day
         ExpenseFilter.week ExpenseFilter.month ExpenseFilter.year
         ExpenseFilter.category truthy_int andb app].
    rewrite (mapM_model_validate_refused _ row); [done | | done].
    unfold order_by_created_at_desc. rewrite merge_sort_Permutation.
    apply list_elem_of_filter. split; [done |].
    unfold db'. cbn [expenses]. apply elem_of_app. right. by left.
  - unfold endpoints.expenses.get_expense, respond, mbind, M_bind, query.
    unfold db'. rewrite get_expense_by_id_app. cbn [Expense.expense_id row].
    rewrite decide_True by done.
    rewrite (filter_column_none Expense.expense_id).
    + cbn [app scalar_one_or_none mret M_ret]. by rewrite Hrow.
    + intros e He Heq. apply Hfresh. rewrite <- Heq.
      apply list_elem_of_fmap. by exists e.
Qed.

Lemma amount_that_rounds_to_zero_is_stored_and_refused_witness :
  ∃ db',
    endpoints.expenses.create_expense 5 (Sample.at_hour 2025 7 1 8)
      (ExpenseCreate.mk "Gum" 0%float FOOD 1) 1 Sample.db
    = (ResponseValidationError, db')
    ∧ expenses db'
      = expenses Sample.db
        ++ [Expense.mk 5 1 "Gum" 0%float FOOD (Sample.at_hour 2025 7 1 8)]
    ∧ endpoints.expenses.get_user_expenses 1 None None None None None db'
      = (ResponseValidationError, db')
    ∧ endpoints.expenses.get_expense 5 db' = (ResponseValidationError, db').
Proof.
  apply (amount_that_rounds_to_zero_is_stored_and_refused Sample.db 5
           (Sample.at_hour 2025 7 1 8) "Gum" 0.004%float FOOD 1
           (ExpenseCreate.mk "Gum" 0%float FOOD 1) Sample.alice).
  - vm_compute. reflexivity.
  - vm_compute. reflexivity.
  - reflexivity.
  - apply (bool_decide_unpack _). vm_compute. exact I.
Defined.

(** X16. The endpoints that list the expenses and that summarise them end
    without a response whenever the request names a week or a month, with or
    without a year; and a year in the request leaves what they return as it
    is without the year. *)
Theorem listing_endpoints_select_by_day_and_category_only
    (alg : pyfloat.sum_algorithm) (db : DB) (user_id : Z)
    (day : option datetime.date) (week month year : option Z)
    (category : option ExpenseCategory) :
  (week ≠ None ∨ month ≠ None →
   (endpoints.expenses.get_user_expenses user_id day week month year category
      db = (RequestValidationError, db)
    ∨ endpoints.expenses.get_user_expenses user_id day week month year
        category db = (Raised ValidationError, db))
   ∧ (endpoints.expenses.get_budget_summary alg user_id day week month year
        category db = (RequestValidationError, db)
      ∨ endpoints.expenses.get_budget_summary alg user_id day week month year
          category db = (Raised ValidationError, db)))
  ∧ (∀ y, 2000 ≤ y ≤ 2100 →
          endpoints.expenses.get_user_expenses user_id day None None (Some y)
            category db
          = endpoints.expenses.get_user_expenses user_id day None None None
              category db
          ∧ endpoints.expenses.get_budget_summary alg user_id day None None
              (Some y) category db
            = endpoints.expenses.get_budget_summary alg user_id day None None
                None category db).
Proof.
  split.
  - intros Hwm.
    assert (ExpenseFilter.new day week month year category
            = Err ValidationError) as Hnew.
    { destruct Hwm as [Hw | Hm].
      - destruct week as [w|]; [apply week_rejected | done].
      - destruct month as [m|]; [apply month_rejected | done]. }
    unfold endpoints.expenses.get_user_expenses,
      endpoints.expenses.get_budget_summary, with_query_bounds.
    destruct (constrain_int 1 53 week); [| by split; left].
    destruct (constrain_int 1 12 month); [| by split; left].
    destruct (constrain_int 2000 2100 year); [| by split; left].
    unfold respond, mbind, M_bind, query. rewrite Hnew. by split; right.
  - intros y Hy.
    unfold endpoints.expenses.get_user_expenses,
      endpoints.expenses.get_budget_summary, with_query_bounds.
    assert (constrain_int 2000 2100 (Some y) = Ok (Some y)) as ->.
    { unfold constrain_int.
      by replace ((2000 <=? y) && (y <=? 2100)) with true
        by (symmetry; apply andb_true_intro; split; lia). }
    cbn [constrain_int].
    unfold respond, mbind, M_bind, query.
    rewrite filter_without_week_and_month_is_accepted by done.
    change (ExpenseFilter.new day None None None category)
      with (Ok (ExpenseFilter.mk day None None None category)).
    assert (ExpenseService.get_user_expenses db user_id
              (Some (ExpenseFilter.mk day None None (Some y) category))
            = ExpenseService.get_user_expenses db user_id
                (Some (ExpenseFilter.mk day None None None category))) as Heq.
    { unfold ExpenseService.get_user_expenses.
      destruct (ExpenseService.verify_user_exists db user_id); [| done].
      cbn [mbind result_bind]. by destruct day. }
    split; [by rewrite Heq |].
    unfold ExpenseService.get_budget_summary. by rewrite Heq.
Qed.

Lemma listing_endpoints_select_by_day_and_category_only_witness :
  (endpoints.expenses.get_user_expenses 1 None None (Some 1) (Some 2025) None
     Sample.db = (RequestValidationError, Sample.db)
   ∨ endpoints.expenses.get_user_expenses 1 None None (Some 1) (Some 2025)
       None Sample.db = (Raised ValidationError, Sample.db))
  ∧ endpoints.expenses.get_user_expenses 1 None None None (Some 2025)
      (Some FOOD) Sample.db
    = endpoints.expenses.get_user_expenses 1 None None None None (Some FOOD)
        Sample.db.
Proof.
  split.
  - apply (proj1 (listing_endpoints_select_by_day_and_category_only
                    pyfloat.Naive Sample.db 1 None None (Some 1) (Some 2025)
                    None)).
    right. discriminate.
  - apply (proj2 (listing_endpoints_select_by_day_and_category_only
                    pyfloat.Naive Sample.db 1 None None None None (Some FOOD))
             2025).
    lia.
Defined.

(** ** The accounts *)

Section user_lookups.

Lemma get_user_by_id_missing (db : DB) (user_id : Z) :
  (∀ u, u ∈ users db → User.user_id u ≠ user_id) →
  UserService.get_user_by_id db user_id = Ok None.
Proof.
  intros Hnone. unfold UserService.get_user_by_id.
  by rewrite (filter_column_none User.user_id).
Qed.

Lemma get_user_by_id_found (db : DB) (u : User.t) :
  NoDup (User.user_id <$> users db) → u ∈ users db →
  UserService.get_user_by_id db (User.user_id u) = Ok (Some u).
Proof.
  intros Hnodup Hin. unfold UserService.get_user_by_id.
  by rewrite (filter_column_unique User.user_id).
Qed.

Lemma get_user_by_id_Some (db : DB) (k : Z) (u : User.t) :
  UserService.get_user_by_id db k = Ok (Some u) →
  filter (λ r, User.user_id r = k) (users db) = [u]
  ∧ u ∈ users db ∧ User.user_id u = k.
Proof.
  unfold UserService.get_user_by_id, scalar_one_or_none.
  destruct (filter _ _) as [| r [| r' rows]] eqn:Ef; intros [= <-].
  split; [done |].
  assert (r ∈ filter (λ u, User.user_id u = k) (users db)) as Hr
    by (rewrite Ef; by left).
  apply list_elem_of_filter in Hr as [? ?]. done.
Qed.

Lemma get_user_by_email_missing (db : DB) (email : string) :
  (∀ u, u ∈ users db → User.email u ≠ Some email) →
  UserService.get_user_by_email db email = Ok None.
Proof.
  intros Hnone. unfold UserService.get_user_by_email.
  by rewrite (filter_column_none User.email).
Qed.

(** Among rows whose addresses are unique, an address finds its row. *)
Lemma filter_email_unique (rows : list User.t) (u : User.t) (email : string) :
  NoDup (omap User.email rows) → u ∈ rows → User.email u = Some email →
  filter (λ r, User.email r = Some email) rows = [u].
Proof.
  induction rows as [| r rows IH]; intros Hnodup Hin Hu.
  - by apply elem_of_nil in Hin.
  - cbn [omap list_omap] in Hnodup.
    apply elem_of_cons in Hin as [<- | Hin].
    + rewrite Hu in Hnodup. apply NoDup_cons in Hnodup as [Hnew _].
      rewrite filter_cons_True by done. f_equal.
      apply (filter_column_none User.email). intros r' Hr' Heq. apply Hnew.
      apply list_elem_of_omap. by exists r'.
    + destruct (User.email r) as [e|] eqn:Er.
      * apply NoDup_cons in Hnodup as [Hnew Hnodup].
        rewrite filter_cons_False; [by apply IH |].
        intros Heq. rewrite Er in Heq. injection Heq as ->. apply Hnew.
        apply list_elem_of_omap. by exists u.
      * rewrite filter_cons_False; [by apply IH |]. by rewrite Er.
Qed.

Lemma get_user_by_email_found (db : DB) (u : User.t) (email : string) :
  NoDup (omap User.email (users db)) → u ∈ users db →
  User.email u = Some email →
  UserService.get_user_by_email db email = Ok (Some u).
Proof.
  intros Hnodup Hin Hu. unfold UserService.get_user_by_email.
  by rewrite (filter_email_unique _ u).
Qed.

Lemma truthy_str_Some (s : string) :
  s ≠ EmptyString → truthy_str (Some s) = true.
Proof. intros Hs. cbn. by rewrite bool_decide_eq_false_2. Qed.

Lemma omap_app_singleton (rows : list User.t) (row : User.t) :
  omap User.email (rows ++ [row])
  = omap User.email rows
    ++ match User.email row with Some e => [e] | None => [] end.
Proof.
  induction rows as [| r rows IH]; cbn [app omap list_omap].
  - by destruct (User.email row).
  - rewrite IH. by destruct (User.email r).
Qed.

Lemma NoDup_snoc {A : Type} (l : list A) (x : A) :
  NoDup l → x ∉ l → NoDup (l ++ [x]).
Proof.
  intros Hl Hx. apply NoDup_app. split; [done |]. split.
  - intros y Hy Hy'. apply list_elem_of_singleton in Hy' as ->. done.
  - apply NoDup_singleton.
Qed.

End user_lookups.

Section create_user.
Variable get_password_hash : option string → result string.

(** What a successful [create_user] has checked and stored. *)
Lemma create_user_inv (db db' : DB) (user_id : Z)
    (created_at updated_at : datetime.t) (d : UserCreate.t) (row : User.t) :
  UserService.create_user get_password_hash user_id created_at updated_at d db
  = (Ok row, db') →
  ∃ hashed,
    (if truthy_str (UserCreate.password d)
     then ∃ h, get_password_hash (UserCreate.password d) = Ok h
               ∧ hashed = Some h
     else hashed = None)
    ∧ row = User.mk user_id (UserCreate.username d) (UserCreate.email d)
              hashed (UserCreate.salary d) true created_at updated_at
    ∧ (user_id ∉ User.user_id <$> users db)
    ∧ (UserCreate.username d ∉ User.username <$> users db)
    ∧ (is_Some (UserCreate.email d) →
       UserCreate.email d ∉ User.email <$> users db)
    ∧ db' = mkDB (users db ++ [row]) (expenses db).
Proof.
  unfold UserService.create_user, mbind, M_bind, query, raise, mret, M_ret.
  destruct (UserService.get_user_by_username db _) as [[x|]|]; [done | | done].
  assert (∀ hashed,
            insert_user user_id created_at updated_at (UserCreate.username d)
              (UserCreate.email d) hashed (UserCreate.salary d) db
            = (Ok row, db') →
            row = User.mk user_id (UserCreate.username d) (UserCreate.email d)
                    hashed (UserCreate.salary d) true created_at updated_at
            ∧ (user_id ∉ User.user_id <$> users db)
            ∧ (UserCreate.username d ∉ User.username <$> users db)
            ∧ (is_Some (UserCreate.email d) →
               UserCreate.email d ∉ User.email <$> users db)
            ∧ db' = mkDB (users db ++ [row]) (expenses db)) as Hinsert.
  { intros hashed. unfold insert_user.
    destruct (_ || _) eqn:Echeck; [done |]. intros [= <- <-].
    apply orb_false_iff in Echeck as [Echeck Hemail].
    apply orb_false_iff in Echeck as [Hid Hname].
    apply bool_decide_eq_false in Hid, Hname.
    split; [done |]. split; [done |]. split; [done |]. split; [| done].
    intros Hsome. apply andb_false_iff in Hemail as [Hemail | Hemail];
      apply bool_decide_eq_false in Hemail; done. }
  destruct (truthy_str (UserCreate.email d));
    [destruct (UserService.get_user_by_email db _) as [[x|]|];
       [done | | done] |];
    (destruct (truthy_str (UserCreate.password d));
       [destruct (get_password_hash _) as [h|] eqn:Eh; [| done] |]);
    intros Hrun; apply Hinsert in Hrun; eexists; (split; [| exact Hrun]);
    first [by exists h | done].
Qed.

(** A name that no stored row holds finds the row that was appended. *)
Lemma get_user_by_username_app (us : list User.t) (es : list Expense.t)
    (row : User.t) :
  User.username row ∉ User.username <$> us →
  UserService.get_user_by_username (mkDB (us ++ [row]) es) (User.username row)
  = Ok (Some row).
Proof.
  intros Hnew. unfold UserService.get_user_by_username. cbn [users].
  rewrite filter_app, filter_cons_True, filter_nil by done.
  rewrite (filter_column_none User.username); [done |].
  intros x Hx Heq. apply Hnew. rewrite <- Heq.
  apply list_elem_of_fmap. by exists x.
Qed.

Lemma get_user_by_id_app (us : list User.t) (es : list Expense.t)
    (row : User.t) :
  User.user_id row ∉ User.user_id <$> us →
  UserService.get_user_by_id (mkDB (us ++ [row]) es) (User.user_id row)
  = Ok (Some row).
Proof.
  intros Hnew. unfold UserService.get_user_by_id. cbn [users].
  rewrite filter_app, filter_cons_True, filter_nil by done.
  rewrite (filter_column_none User.user_id); [done |].
  intros x Hx Heq. apply Hnew. rewrite <- Heq.
  apply list_elem_of_fmap. by exists x.
Qed.

End create_user.

(** X17. [create_user] fails with 400, and writes nothing, when a stored
    user holds the name of the request, or holds its address when the
    request has one that is not empty. *)
Theorem create_user_refuses_a_taken_name_or_address
    (get_password_hash : option string → result string) (db : DB)
    (user_id : Z) (created_at updated_at : datetime.t)
    (user_data : UserCreate.t) :
  users_constraints db →
  (∃ x, x ∈ users db ∧ User.username x = UserCreate.username user_data)
  ∨ (∃ x e, x ∈ users db ∧ UserCreate.email user_data = Some e
            ∧ e ≠ EmptyString ∧ User.email x = Some e) →
  UserService.create_user get_password_hash user_id created_at updated_at
    user_data db
  = (Err (HTTPException HTTP_400_BAD_REQUEST), db).
Proof.
  intros (_ & Hnames & Hemails) Htaken.
  assert (∀ x, x ∈ users db → User.username x = UserCreate.username user_data →
               UserService.create_user get_password_hash user_id created_at
                 updated_at user_data db
               = (Err (HTTPException HTTP_400_BAD_REQUEST), db)) as Hname.
  { intros x Hx Heq.
    unfold UserService.create_user, mbind, M_bind, query.
    by rewrite <- Heq, get_user_by_username_found. }
  destruct Htaken as [(x & Hx & Heq) | (x & e & Hx & He & Hne & Hxe)];
    [by apply (Hname x) |].
  destruct (decide (Exists (λ u, User.username u = UserCreate.username user_data)
                      (users db))) as [Hex | Hnex].
  { apply Exists_exists in Hex as (u & Hu & Heq). by apply (Hname u). }
  unfold UserService.create_user, mbind, M_bind, query.
  rewrite get_user_by_username_missing.
  2:{ intros u Hu Heq. apply Hnex, Exists_exists. by exists u. }
  rewrite He, truthy_str_Some by done. cbn [default]. unfold id.
  by rewrite (get_user_by_email_found db x e).
Qed.

Lemma create_user_refuses_a_taken_name_or_address_witness :
  UserService.create_user (λ _, Ok "hash-c"%string) 3
    (Sample.at_hour 2025 7 1 8) (Sample.at_hour 2025 7 1 8)
    (UserCreate.mk "carol" (Some "alice@example.com"%string)
       (Some "correct horse"%string) 10%float) Sample.db
  = (Err (HTTPException HTTP_400_BAD_REQUEST), Sample.db).
Proof.
  apply (create_user_refuses_a_taken_name_or_address (λ _, Ok "hash-c"%string)
           Sample.db 3 (Sample.at_hour 2025 7 1 8) (Sample.at_hour 2025 7 1 8)
           (UserCreate.mk "carol" (Some "alice@example.com"%string)
              (Some "correct horse"%string) 10%float)).
  - repeat split; apply (bool_decide_unpack _); vm_compute; exact I.
  - right. exists Sample.alice, "alice@example.com"%string.
    split; [by left |]. split; [reflexivity |]. split; [discriminate |].
    reflexivity.
Defined.

(** X18. When no stored user holds the name or the address of the request
    and the credential, if any, could be computed, [create_user] stores one
    active user with the fields of the request and the key and the times it
    was given.  The constraints of the table hold afterwards, the key and
    the name find the new user, and the expenses are as they were. *)
Theorem created_user_is_stored
    (get_password_hash : option string → result string) (db : DB)
    (user_id : Z) (created_at updated_at : datetime.t)
    (user_data : UserCreate.t) (hashed : option string) :
  users_constraints db →
  user_id ∉ User.user_id <$> users db →
  (∀ x, x ∈ users db → User.username x ≠ UserCreate.username user_data) →
  (∀ x e, x ∈ users db → UserCreate.email user_data = Some e →
          User.email x ≠ Some e) →
  (if truthy_str (UserCreate.password user_data)
   then ∃ h, get_password_hash (UserCreate.password user_data) = Ok h
             ∧ hashed = Some h
   else hashed = None) →
  ∃ db',
    let row :=
      User.mk user_id (UserCreate.username user_data)
        (UserCreate.email user_data) hashed (UserCreate.salary user_data)
        true created_at updated_at in
    UserService.create_user get_password_hash user_id created_at updated_at
      user_data db = (Ok row, db')
    ∧ users db' = users db ++ [row]
    ∧ expenses db' = expenses db
    ∧ users_constraints db'
    ∧ UserService.get_user_by_id db' user_id = Ok (Some row)
    ∧ UserService.get_user_by_username db' (UserCreate.username user_data)
      = Ok (Some row).
Proof.
  intros (Hids & Hnames & Hemails) Hid Hname Hemail Hhash.
  destruct user_data as [name email password salary].
  cbn [UserCreate.username UserCreate.email UserCreate.password
       UserCreate.salary] in *.
  assert (name ∉ User.username <$> users db) as Hname'.
  { intros Hin. apply list_elem_of_fmap in Hin as (x & Heq & Hx).
    by apply (Hname x). }
  set (row := User.mk user_id name email hashed salary true created_at
                updated_at).
  exists (mkDB (users db ++ [row]) (expenses db)). cbv zeta.
  split; [| split; [done |]; split; [done |]; split; [| split]].
  - unfold UserService.create_user, mbind, M_bind, query, mret, M_ret.
    cbn [UserCreate.username UserCreate.email UserCreate.password
         UserCreate.salary].
    rewrite get_user_by_username_missing by done.
    assert (UserService.get_user_by_email db (default EmptyString email)
            = Ok None ∨ truthy_str email = false) as Hlookup.
    { destruct email as [e|]; [left | by right].
      apply get_user_by_email_missing. intros x Hx. by apply Hemail. }
    assert (insert_user user_id created_at updated_at name email hashed salary
              db = (Ok row, mkDB (users db ++ [row]) (expenses db)))
      as Hinsert.
    { unfold insert_user.
      rewrite (bool_decide_eq_false_2 (user_id ∈ _)) by done.
      rewrite (bool_decide_eq_false_2 (name ∈ _)) by done.
      cbn [orb]. destruct email as [e|].
      - rewrite (bool_decide_eq_false_2 (Some e ∈ _)); [by rewrite andb_false_r |].
        intros Hin. apply list_elem_of_fmap in Hin as (x & Heq & Hx).
        by apply (Hemail x e).
      - by rewrite (bool_decide_eq_false_2 (is_Some None))
          by (by intros [? ?]). }
    destruct (truthy_str email) eqn:Et.
    + destruct Hlookup as [-> | ?]; [| done].
      destruct (truthy_str password).
      * destruct Hhash as (h & -> & ->). exact Hinsert.
      * subst hashed. exact Hinsert.
    + destruct (truthy_str password).
      * destruct Hhash as (h & -> & ->). exact Hinsert.
      * subst hashed. exact Hinsert.
  - split; [| split]; cbn [users].
    + rewrite fmap_app. by apply NoDup_snoc.
    + rewrite fmap_app. by apply NoDup_snoc.
    + rewrite omap_app_singleton. cbn [User.email row].
      destruct email as [e|]; [| by rewrite app_nil_r].
      apply NoDup_snoc; [done |]. intros Hin.
      apply list_elem_of_omap in Hin as (x & Hx & Hxe). by apply (Hemail x e).
  - by apply (get_user_by_id_app (users db) (expenses db) row).
  - by apply (get_user_by_username_app (users db) (expenses db) row).
Qed.

Lemma created_user_is_stored_witness :
  ∃ db',
    let row :=
      User.mk 3 "carol" (Some "carol@example.com"%string)
        (Some "hash-c"%string) 10%float true
        (Sample.at_hour 2025 7 1 8) (Sample.at_hour 2025 7 1 9) in
    UserService.create_user (λ _, Ok "hash-c"%string) 3
      (Sample.at_hour 2025 7 1 8) (Sample.at_hour 2025 7 1 9)
      (UserCreate.mk "carol" (Some "carol@example.com"%string)
         (Some "correct horse"%string) 10%float) Sample.db = (Ok row, db')
    ∧ users db' = users Sample.db ++ [row]
    ∧ expenses db' = expenses Sample.db
    ∧ users_constraints db'
    ∧ UserService.get_user_by_id db' 3 = Ok (Some row)
    ∧ UserService.get_user_by_username db' "carol" = Ok (Some row).
Proof.
  apply (created_user_is_stored (λ _, Ok "hash-c"%string) Sample.db 3
           (Sample.at_hour 2025 7 1 8) (Sample.at_hour 2025 7 1 9)
           (UserCreate.mk "carol" (Some "carol@example.com"%string)
              (Some "correct horse"%string) 10%float)
           (Some "hash-c"%string)).
  - repeat split; apply (bool_decide_unpack _); vm_compute; exact I.
  - apply (bool_decide_unpack _). vm_compute. exact I.
  - intros x Hx.
    repeat (apply elem_of_cons in Hx as [-> | Hx]; [discriminate |]).
    by apply elem_of_nil in Hx.
  - intros x e Hx [= <-].
    repeat (apply elem_of_cons in Hx as [-> | Hx]; [discriminate |]).
    by apply elem_of_nil in Hx.
  - by exists "hash-c"%string.
Defined.

(** X19. A user that [create_user] stored with a password is authenticated
    by exactly the passwords that verify against the credential computed
    from it, provided that credential is not empty; a user stored without
    password, or with the empty one, is authenticated by none. *)
Theorem created_user_can_log_in
    (verify_password : string → string → bool)
    (get_password_hash : option string → result string) (db db' : DB)
    (user_id : Z) (created_at updated_at : datetime.t)
    (user_data : UserCreate.t) (row : User.t) :
  UserService.create_user get_password_hash user_id created_at updated_at
    user_data db = (Ok row, db') →
  (∀ p h, UserCreate.password user_data = Some p → p ≠ EmptyString →
          get_password_hash (Some p) = Ok h → h ≠ EmptyString →
          ∀ password,
            UserService.authenticate_user verify_password db'
              (UserCreate.username user_data) password
            = Ok (if verify_password password h then Some row else None))
  ∧ (truthy_str (UserCreate.password user_data) = false →
     ∀ password,
       UserService.authenticate_user verify_password db'
         (UserCreate.username user_data) password = Ok None).
Proof.
  intros Hrun.
  apply create_user_inv in Hrun
    as (hashed & Hhash & Hrow & _ & Hname & _ & ->).
  assert (UserService.get_user_by_username
            (mkDB (users db ++ [row]) (expenses db))
            (UserCreate.username user_data) = Ok (Some row)) as Hget.
  { replace (UserCreate.username user_data) with (User.username row)
      by (by rewrite Hrow).
    apply get_user_by_username_app. by rewrite Hrow. }
  split.
  - intros p h Hp Hpne Hh Hhne password.
    unfold UserService.authenticate_user. rewrite Hget.
    cbn [mbind result_bind].
    rewrite Hp, truthy_str_Some in Hhash by done.
    destruct Hhash as (h' & Hh' & ->). rewrite Hh in Hh'. injection Hh' as <-.
    rewrite Hrow. cbn [User.hashed_password default].
    rewrite truthy_str_Some by done. cbn [negb]. unfold id.
    by destruct (verify_password password h).
  - intros Hnone password.
    unfold UserService.authenticate_user. rewrite Hget.
    cbn [mbind result_bind]. rewrite Hnone in Hhash. subst hashed.
    by rewrite Hrow.
Qed.

Lemma created_user_can_log_in_witness :
  let db' :=
    mkDB (users Sample.db
          ++ [User.mk 3 "carol" None (Some "correct horse"%string) 10%float
                true (Sample.at_hour 2025 7 1 8) (Sample.at_hour 2025 7 1 9)])
         (expenses Sample.db) in
  UserService.authenticate_user String.eqb db' "carol" "correct horse"
  = Ok (Some (User.mk 3 "carol" None (Some "correct horse"%string) 10%float
                true (Sample.at_hour 2025 7 1 8) (Sample.at_hour 2025 7 1 9)))
  ∧ UserService.authenticate_user String.eqb db' "carol" "guess" = Ok None.
Proof.
  intros db'.
  pose proof (created_user_can_log_in String.eqb
                (λ p, Ok (default EmptyString p)) Sample.db db' 3
                (Sample.at_hour 2025 7 1 8) (Sample.at_hour 2025 7 1 9)
                (UserCreate.mk "carol" None (Some "correct horse"%string)
                   10%float)
                (User.mk 3 "carol" None (Some "correct horse"%string) 10%float
                   true (Sample.at_hour 2025 7 1 8) (Sample.at_hour 2025 7 1 9))
                ltac:(vm_compute; reflexivity)) as [Hlogin _].
  split.
  - apply (Hlogin "correct horse"%string "correct horse"%string);
      (reflexivity || discriminate).
  - apply (Hlogin "correct horse"%string "correct horse"%string);
      (reflexivity || discriminate).
Defined.

Section delete_user.

Lemma delete_user_inv (db db' : DB) (user_id : Z) (r : result bool) :
  UserService.delete_user user_id db = (r, db') →
  (db' = db ∧ ∃ err, r = Err err)
  ∨ (r = Ok true
     ∧ db' = mkDB (filter (λ x, User.user_id x ≠ user_id) (users db))
               (filter (λ e, Expense.user_id e ≠ user_id) (expenses db))).
Proof.
  unfold UserService.delete_user, mbind, M_bind, query.
  destruct (UserService.get_user_by_id db user_id) as [[u|]|err] eqn:Eget;
    cbn.
  - apply get_user_by_id_Some in Eget as (_ & _ & <-).
    intros [= <- <-]. by right.
  - intros [= <- <-]. left. eauto.
  - intros [= <- <-]. left. eauto.
Qed.

End delete_user.

(** X20. [delete_user] fails with 404 when no user has the id.  For a
    stored user it returns [True] and removes the user together with all
    the expenses of the user: the id finds no user afterwards, the listing
    of the user and a second deletion fail with 404, and the other users
    and their listings are as they were. *)
Theorem delete_user_removes_the_user_and_the_expenses
    (db : DB) (user_id : Z) :
  ((∀ x, x ∈ users db → User.user_id x ≠ user_id) →
   UserService.delete_user user_id db
   = (Err (HTTPException HTTP_404_NOT_FOUND), db))
  ∧ (∀ u,
       NoDup (User.user_id <$> users db) →
       u ∈ users db → User.user_id u = user_id →
       ∃ db',
         UserService.delete_user user_id db = (Ok true, db')
         ∧ users db' = filter (λ x, User.user_id x ≠ user_id) (users db)
         ∧ expenses db'
           = filter (λ e, Expense.user_id e ≠ user_id) (expenses db)
         ∧ UserService.get_user_by_id db' user_id = Ok None
         ∧ (∀ filters,
              ExpenseService.get_user_expenses db' user_id filters
              = Err (HTTPException HTTP_404_NOT_FOUND))
         ∧ UserService.delete_user user_id db'
           = (Err (HTTPException HTTP_404_NOT_FOUND), db')
         ∧ ∀ other filters,
             other ≠ user_id →
             ExpenseService.get_user_expenses db' other filters
             = ExpenseService.get_user_expenses db other filters).
Proof.
  split.
  - intros Hnone. unfold UserService.delete_user, mbind, M_bind, query.
    by rewrite get_user_by_id_missing.
  - intros u Hnodup Hin <-.
    set (db' := mkDB (filter (λ x, User.user_id x ≠ User.user_id u) (users db))
                  (filter (λ e, Expense.user_id e ≠ User.user_id u)
                     (expenses db))).
    assert (∀ x, x ∈ users db' → User.user_id x ≠ User.user_id u) as Hgone.
    { intros x Hx. by apply list_elem_of_filter in Hx as [? _]. }
    exists db'. split; [| split; [| split; [done |]; split; [| split; [| split]]]].
    + unfold UserService.delete_user, mbind, M_bind, query.
      by rewrite get_user_by_id_found.
    + done.
    + by apply get_user_by_id_missing.
    + intros filters. unfold ExpenseService.get_user_expenses.
      by rewrite verify_user_exists_missing.
    + unfold UserService.delete_user, mbind, M_bind, query.
      by rewrite get_user_by_id_missing.
    + intros other filters Hother.
      unfold ExpenseService.get_user_expenses,
        ExpenseService.verify_user_exists.
      assert (filter (λ x, User.user_id x = other) (users db')
              = filter (λ x, User.user_id x = other) (users db)) as ->.
      { unfold db'. cbn [users]. apply filter_filter_in. congruence. }
      destruct (scalar_one_or_none _ ≫= _); [| done].
      cbn [mbind result_bind].
      destruct (match filters with Some _ => _ | None => _ end)
        as [conditions|]; [| done].
      cbn [mbind result_bind]. do 2 f_equal. unfold db'. cbn [expenses].
      apply filter_filter_in. intros e _ [He _]. congruence.
Qed.

Lemma delete_user_removes_the_user_and_the_expenses_witness :
  UserService.delete_user 9 Sample.db
  = (Err (HTTPException HTTP_404_NOT_FOUND), Sample.db)
  ∧ ∃ db',
      UserService.delete_user 1 Sample.db = (Ok true, db')
      ∧ users db' = filter (λ x, User.user_id x ≠ 1) (users Sample.db)
      ∧ expenses db' = filter (λ e, Expense.user_id e ≠ 1) (expenses Sample.db)
      ∧ UserService.get_user_by_id db' 1 = Ok None
      ∧ (∀ filters,
           ExpenseService.get_user_expenses db' 1 filters
           = Err (HTTPException HTTP_404_NOT_FOUND))
      ∧ UserService.delete_user 1 db'
        = (Err (HTTPException HTTP_404_NOT_FOUND), db')
      ∧ ∀ other filters,
          other ≠ 1 →
          ExpenseService.get_user_expenses db' other filters
          = ExpenseService.get_user_expenses Sample.db other filters.
Proof.
  split.
  - apply (proj1 (delete_user_removes_the_user_and_the_expenses Sample.db 9)).
    intros x Hx.
    repeat (apply elem_of_cons in Hx as [-> | Hx]; [discriminate |]).
    by apply elem_of_nil in Hx.
  - apply (proj2 (delete_user_removes_the_user_and_the_expenses Sample.db 1)
             Sample.alice).
    + apply (bool_decide_unpack _). vm_compute. exact I.
    + by left.
    + reflexivity.
Defined.

Section update_user.
Variable get_password_hash : option string → result string.

(** The items that [update_user] sets, for a credential [h]. *)
Lemma User_of_attrs_updated (utcnow : datetime.t) (u : User.t)
    (d : UserUpdate.t) (h : string) :
  User_of_attrs utcnow u
    (fold_left (λ obj item, setattr obj item.1 item.2)
       (match UserUpdate.password d with
        | Some _ =>
            filter (λ item, item.1 ≠ "password"%string)
              (UserUpdate.model_dump_exclude_unset d)
            ++ [("hashed_password"%string, PStr h)]
        | None => UserUpdate.model_dump_exclude_unset d
        end)
       ∅)
  = match UserUpdate.username d, UserUpdate.salary d with
    | Some None, _ | _, Some None => Err IntegrityError
    | _, _ => Ok (updated_user utcnow u d h)
    end.
Proof.
  destruct u as [i n [e|] [hp|] s a c t], d as [dn de ds dp];
    destruct dn as [[n'|]|], de as [[e'|]|], ds as [[s'|]|], dp as [[p'|]|];
    reflexivity.
Qed.

(** [update_user] after its lookups: the credential is computed when a
    password is supplied, the items are set and the row is committed. *)
Lemma update_user_run (utcnow : datetime.t) (db : DB) (u : User.t)
    (d : UserUpdate.t) :
  UserService.get_user_by_id db (User.user_id u) = Ok (Some u) →
  (truthy_str (mjoin (UserUpdate.username d))
   && negb (bool_decide (mjoin (UserUpdate.username d)
                         = Some (User.username u))) = false
   ∨ UserService.get_user_by_username db
       (default EmptyString (mjoin (UserUpdate.username d))) = Ok None) →
  (truthy_str (mjoin (UserUpdate.email d))
   && negb (bool_decide (mjoin (UserUpdate.email d) = User.email u)) = false
   ∨ UserService.get_user_by_email db
       (default EmptyString (mjoin (UserUpdate.email d))) = Ok None) →
  UserService.update_user get_password_hash utcnow (User.user_id u) d db
  = match UserUpdate.password d with
    | Some v =>
        match get_password_hash v with
        | Ok h =>
            match UserUpdate.username d, UserUpdate.salary d with
            | Some None, _ | _, Some None => (Err IntegrityError, db)
            | _, _ =>
                commit_user utcnow u
                  (fold_left (λ attrs item, setattr attrs item.1 item.2)
                     (filter (λ item, item.1 ≠ "password"%string)
                        (UserUpdate.model_dump_exclude_unset d)
                      ++ [("hashed_password"%string, PStr h)]) ∅) db
            end
        | Err e => (Err e, db)
        end
    | None =>
        match UserUpdate.username d, UserUpdate.salary d with
        | Some None, _ | _, Some None => (Err IntegrityError, db)
        | _, _ =>
            commit_user utcnow u
              (fold_left (λ attrs item, setattr attrs item.1 item.2)
                 (UserUpdate.model_dump_exclude_unset d) ∅) db
        end
    end.
Proof.
  intros Hget Hname Hemail.
  unfold UserService.update_user, mbind at 1, M_bind at 1, query at 1.
  rewrite Hget.
  assert (∀ (k : M User.t),
            (_ ← (if truthy_str (mjoin (UserUpdate.username d))
                     && negb (bool_decide (mjoin (UserUpdate.username d)
                                           = Some (User.username u)))
                  then
                    existing_user ←
                      query (λ db, UserService.get_user_by_username db
                                     (default EmptyString
                                        (mjoin (UserUpdate.username d))));
                    match existing_user with
                    | Some _ => raise (HTTPException HTTP_400_BAD_REQUEST)
                    | None => mret ()
                    end
                  else mret ()); k) db = k db) as Hstep1.
  { intros k. unfold mbind, M_bind, query, mret, M_ret.
    destruct Hname as [-> | Hname]; [reflexivity |].
    destruct (truthy_str (mjoin (UserUpdate.username d)) && _);
      [| reflexivity].
    by rewrite Hname. }
  assert (∀ (k : M User.t),
            (_ ← (if truthy_str (mjoin (UserUpdate.email d))
                     && negb (bool_decide (mjoin (UserUpdate.email d)
                                           = User.email u))
                  then
                    existing_email ←
                      query (λ db, UserService.get_user_by_email db
                                     (default EmptyString
                                        (mjoin (UserUpdate.email d))));
                    match existing_email with
                    | Some _ => raise (HTTPException HTTP_400_BAD_REQUEST)
                    | None => mret ()
                    end
                  else mret ()); k) db = k db) as Hstep2.
  { intros k. unfold mbind, M_bind, query, mret, M_ret.
    destruct Hemail as [-> | Hemail]; [reflexivity |].
    destruct (truthy_str (mjoin (UserUpdate.email d)) && _);
      [| reflexivity].
    by rewrite Hemail. }
  cbv zeta. rewrite Hstep1, Hstep2.
  unfold mbind, M_bind, query, mret, M_ret, commit_user.
  destruct (UserUpdate.password d) as [v|] eqn:Ep.
  - destruct (get_password_hash v) as [h|err]; [| done].
    pose proof (User_of_attrs_updated utcnow u d h) as Hrow.
    rewrite Ep in Hrow. rewrite Hrow.
    by destruct (UserUpdate.username d) as [[?|]|],
      (UserUpdate.salary d) as [[?|]|].
  - pose proof (User_of_attrs_updated utcnow u d EmptyString) as Hrow.
    rewrite Ep in Hrow. rewrite Hrow.
    by destruct (UserUpdate.username d) as [[?|]|],
      (UserUpdate.salary d) as [[?|]|].
Qed.

End update_user.

(** X21. [update_user] fails, and writes nothing, in this order.  With
    404 when no user has the id.  With 400 when the request names a
    non-empty name other than the user's own that a stored user holds.
    When the check of the name passes (no name, [None], the empty name, the
    user's own name or a name that no stored user holds): with 400 when the
    request names a non-empty address other than the user's own that a
    stored user holds.  When the check of the address passes as well, and
    the password, if one is supplied, is hashed without an error: with the
    refusal of the database when the request supplies [None] as the name or
    as the salary, whatever else it supplies. *)
Theorem update_user_refusals
    (get_password_hash : option string → result string)
    (utcnow : datetime.t) (db : DB) (user_id : Z) (user_data : UserUpdate.t) :
  ((∀ x, x ∈ users db → User.user_id x ≠ user_id) →
   UserService.update_user get_password_hash utcnow user_id user_data db
   = (Err (HTTPException HTTP_404_NOT_FOUND), db))
  ∧ (∀ u,
       users_constraints db → u ∈ users db → User.user_id u = user_id →
       (∀ n x, UserUpdate.username user_data = Some (Some n) →
               n ≠ EmptyString → n ≠ User.username u →
               x ∈ users db → User.username x = n →
               UserService.update_user get_password_hash utcnow user_id
                 user_data db
               = (Err (HTTPException HTTP_400_BAD_REQUEST), db))
       ∧ ((∀ n, UserUpdate.username user_data = Some (Some n) →
                n = EmptyString ∨ n = User.username u
                ∨ ∀ x, x ∈ users db → User.username x ≠ n) →
          (∀ e x, UserUpdate.email user_data = Some (Some e) →
                  e ≠ EmptyString → Some e ≠ User.email u →
                  x ∈ users db → User.email x = Some e →
                  UserService.update_user get_password_hash utcnow user_id
                    user_data db
                  = (Err (HTTPException HTTP_400_BAD_REQUEST), db))
          ∧ ((∀ e, UserUpdate.email user_data = Some (Some e) →
                   e = EmptyString ∨ Some e = User.email u
                   ∨ ∀ x, x ∈ users db → User.email x ≠ Some e) →
             (∀ v, UserUpdate.password user_data = Some v →
                   ∃ h, get_password_hash v = Ok h) →
             UserUpdate.username user_data = Some None
             ∨ UserUpdate.salary user_data = Some None →
             UserService.update_user get_password_hash utcnow user_id
               user_data db
             = (Err IntegrityError, db)))).
Proof.
  split.
  - intros Hnone. unfold UserService.update_user, mbind, M_bind, query.
    by rewrite get_user_by_id_missing.
  - intros u (Hids & Hnames & Hemails) Hin <-.
    pose proof (get_user_by_id_found db u Hids Hin) as Hget.
    split.
    { intros n x Hn Hne Hown Hx Hxn.
      unfold UserService.update_user, mbind, M_bind, query.
      rewrite Hget, Hn. cbn [mjoin option_join default]. unfold id.
      rewrite truthy_str_Some by done.
      rewrite bool_decide_eq_false_2 by congruence. cbn [andb negb].
      by rewrite <- Hxn, get_user_by_username_found. }
    intros Hname.
    assert (truthy_str (mjoin (UserUpdate.username user_data))
            && negb (bool_decide (mjoin (UserUpdate.username user_data)
                                  = Some (User.username u))) = false
            ∨ UserService.get_user_by_username db
                (default EmptyString (mjoin (UserUpdate.username user_data)))
              = Ok None) as Hname'.
    { destruct (UserUpdate.username user_data) as [[n|]|]; [| by left..].
      destruct (Hname n eq_refl) as [-> | [-> | Hfree]].
      - by left.
      - left. cbn [mjoin option_join]. unfold id.
        rewrite bool_decide_eq_true_2 by done. apply andb_false_r.
      - right. by apply get_user_by_username_missing. }
    split.
    { intros e x He Hne Hown Hx Hxe.
      unfold UserService.update_user, mbind at 1, M_bind at 1, query at 1.
      rewrite Hget. cbv zeta.
      unfold mbind at 1, M_bind at 1.
      assert ((if truthy_str (mjoin (UserUpdate.username user_data))
                  && negb (bool_decide (mjoin (UserUpdate.username user_data)
                                        = Some (User.username u)))
               then
                 existing_user ←
                   query (λ db, UserService.get_user_by_username db
                                  (default EmptyString
                                     (mjoin (UserUpdate.username user_data))));
                 match existing_user with
                 | Some _ => raise (HTTPException HTTP_400_BAD_REQUEST)
                 | None => mret ()
                 end
               else mret ()) db = (Ok (), db)) as ->.
      { unfold mbind, M_bind, query, mret, M_ret.
        destruct Hname' as [-> | Hfree]; [reflexivity |].
        destruct (truthy_str (mjoin (UserUpdate.username user_data)) && _);
          [| reflexivity].
        by rewrite Hfree. }
      unfold mbind, M_bind, query.
      rewrite He. cbn [mjoin option_join default]. unfold id.
      rewrite truthy_str_Some by done.
      rewrite bool_decide_eq_false_2 by congruence. cbn [andb negb].
      by rewrite (get_user_by_email_found db x e). }
    intros Hemail Hhash Hnull.
    rewrite update_user_run; [| done | done |].
    + destruct (UserUpdate.password user_data) as [v|] eqn:Ep.
      * destruct (Hhash v eq_refl) as [h ->].
        by destruct Hnull as [-> | ->];
          [| destruct (UserUpdate.username user_data) as [[?|]|]].
      * by destruct Hnull as [-> | ->];
          [| destruct (UserUpdate.username user_data) as [[?|]|]].
    + destruct (UserUpdate.email user_data) as [[e|]|]; [| by left..].
      destruct (Hemail e eq_refl) as [-> | [<- | Hfree]].
      * by left.
      * left. cbn [mjoin option_join]. unfold id.
        rewrite bool_decide_eq_true_2 by done. apply andb_false_r.
      * right. by apply get_user_by_email_missing.
Qed.

Lemma update_user_refusals_witness :
  UserService.update_user (λ _, Ok "hash-n"%string)
    (Sample.at_hour 2025 7 1 8) 9
    (UserUpdate.mk (Some (Some "bob"%string)) None None None) Sample.db
  = (Err (HTTPException HTTP_404_NOT_FOUND), Sample.db)
  ∧ UserService.update_user (λ _, Ok "hash-n"%string)
      (Sample.at_hour 2025 7 1 8) 1
      (UserUpdate.mk (Some (Some "bob"%string)) None None None) Sample.db
    = (Err (HTTPException HTTP_400_BAD_REQUEST), Sample.db)
  ∧ UserService.update_user (λ _, Ok "hash-n"%string)
      (Sample.at_hour 2025 7 1 8) 2
      (UserUpdate.mk (Some None) (Some (Some "alice@example.com"%string))
         None None)
      Sample.db
    = (Err (HTTPException HTTP_400_BAD_REQUEST), Sample.db)
  ∧ UserService.update_user (λ _, Ok "hash-n"%string)
      (Sample.at_hour 2025 7 1 8) 1
      (UserUpdate.mk (Some (Some "alicia"%string))
         (Some (Some "alicia@example.com"%string)) (Some None)
         (Some (Some "secret"%string)))
      Sample.db
    = (Err IntegrityError, Sample.db).
Proof.
  assert (users_constraints Sample.db) as Hc
    by (repeat split; apply (bool_decide_unpack _); vm_compute; exact I).
  assert (∀ s : string, s ≠ "alice"%string → s ≠ "bob"%string →
            ∀ x, x ∈ users Sample.db → User.username x ≠ s) as Hfree.
  { intros s Ha Hb x Hx.
    repeat (apply elem_of_cons in Hx as [-> | Hx]; [by intros <- |]).
    by apply elem_of_nil in Hx. }
  split; [| split; [| split]].
  - apply (proj1 (update_user_refusals (λ _, Ok "hash-n"%string)
                    (Sample.at_hour 2025 7 1 8) Sample.db 9
                    (UserUpdate.mk (Some (Some "bob"%string)) None None None))).
    intros x Hx.
    repeat (apply elem_of_cons in Hx as [-> | Hx]; [discriminate |]).
    by apply elem_of_nil in Hx.
  - apply (proj1 (proj2 (update_user_refusals (λ _, Ok "hash-n"%string)
                           (Sample.at_hour 2025 7 1 8) Sample.db 1
                           (UserUpdate.mk (Some (Some "bob"%string)) None None
                              None))
                    Sample.alice Hc ltac:(by left) eq_refl)
             "bob"%string Sample.bob);
      first [reflexivity | discriminate | by right; left].
  - apply (proj1 (proj2 (proj2 (update_user_refusals (λ _, Ok "hash-n"%string)
                           (Sample.at_hour 2025 7 1 8) Sample.db 2
                           (UserUpdate.mk (Some None)
                              (Some (Some "alice@example.com"%string)) None
                              None))
                    Sample.bob Hc ltac:(by right; left) eq_refl)
                    ltac:(intros n [=]))
             "alice@example.com"%string Sample.alice);
      first [reflexivity | discriminate | by left].
  - apply (proj2 (proj2 (proj2 (update_user_refusals (λ _, Ok "hash-n"%string)
                           (Sample.at_hour 2025 7 1 8) Sample.db 1
                           (UserUpdate.mk (Some (Some "alicia"%string))
                              (Some (Some "alicia@example.com"%string))
                              (Some None) (Some (Some "secret"%string))))
                    Sample.alice Hc ltac:(by left) eq_refl)
                    ltac:(intros n [= <-]; right; right;
                          by apply Hfree))).
    + intros e [= <-]. right. right. intros x Hx.
      repeat (apply elem_of_cons in Hx as [-> | Hx]; [discriminate |]).
      by apply elem_of_nil in Hx.
    + intros v _. by eexists.
    + by right.
Defined.

Section update_user_commit.

(** The commit of a row whose new name and new address no stored user
    holds. *)
Lemma commit_user_Ok (utcnow : datetime.t) (u row : User.t)
    (attrs : gmap string pyval) (db : DB) :
  User_of_attrs utcnow u attrs = Ok row →
  User.username row = User.username u
  ∨ (∀ x, x ∈ users db → User.username x ≠ User.username row) →
  User.email row = User.email u ∨ User.email row = None
  ∨ (∀ x, x ∈ users db → User.email x ≠ User.email row) →
  commit_user utcnow u attrs db
  = (Ok row,
     mkDB ((λ r, if decide (User.user_id r = User.user_id u) then row else r)
             <$> users db)
          (expenses db)).
Proof.
  intros Hrow Hname Hemail. unfold commit_user. rewrite Hrow.
  assert (negb (bool_decide (User.username row = User.username u))
          && bool_decide (User.username row ∈ User.username <$> users db)
          = false) as ->.
  { destruct Hname as [-> | Hfree].
    - by rewrite bool_decide_eq_true_2.
    - rewrite (bool_decide_eq_false_2 (_ ∈ _)); [by rewrite andb_false_r |].
      intros Hin. apply list_elem_of_fmap in Hin as (x & Heq & Hx).
      by apply (Hfree x). }
  assert (negb (bool_decide (User.email row = User.email u))
          && bool_decide (is_Some (User.email row))
          && bool_decide (User.email row ∈ User.email <$> users db)
          = false) as ->; [| done].
  destruct Hemail as [-> | [-> | Hfree]].
  - by rewrite bool_decide_eq_true_2.
  - rewrite (bool_decide_eq_false_2 (is_Some None)) by (by intros [? ?]).
    by rewrite andb_false_r.
  - rewrite (bool_decide_eq_false_2 (_ ∈ _)); [by rewrite andb_false_r |].
    intros Hin. apply list_elem_of_fmap in Hin as (x & Heq & Hx).
    by apply (Hfree x).
Qed.


(** The update of a stored user, when the request passes the checks. *)
Lemma update_user_updated
    (get_password_hash : option string → result string)
    (utcnow : datetime.t) (db : DB) (u : User.t) (user_data : UserUpdate.t)
    (h : string) :
  NoDup (User.user_id <$> users db) →
  u ∈ users db →
  UserUpdate.username user_data ≠ Some None →
  UserUpdate.salary user_data ≠ Some None →
  (∀ n, UserUpdate.username user_data = Some (Some n) →
        n = User.username u ∨ ∀ x, x ∈ users db → User.username x ≠ n) →
  (∀ e, UserUpdate.email user_data = Some (Some e) →
        Some e = User.email u ∨ ∀ x, x ∈ users db → User.email x ≠ Some e) →
  (∀ v, UserUpdate.password user_data = Some v → get_password_hash v = Ok h) →
  UserService.update_user get_password_hash utcnow (User.user_id u)
    user_data db
  = (Ok (updated_user utcnow u user_data h),
     mkDB ((λ r, if decide (User.user_id r = User.user_id u)
                 then updated_user utcnow u user_data h else r) <$> users db)
          (expenses db)).
Proof.
  intros Hids Hin Hn Hs Hname Hemail Hhash.
  pose proof (get_user_by_id_found db u Hids Hin) as Hget.
  set (row := updated_user utcnow u user_data h).
  rewrite update_user_run; [| done | |].
  - assert (commit_user utcnow u
              (fold_left (λ attrs item, setattr attrs item.1 item.2)
                 (match UserUpdate.password user_data with
                  | Some _ =>
                      filter (λ item, item.1 ≠ "password"%string)
                        (UserUpdate.model_dump_exclude_unset user_data)
                      ++ [("hashed_password"%string, PStr h)]
                  | None => UserUpdate.model_dump_exclude_unset user_data
                  end) ∅) db
            = (Ok row,
               mkDB ((λ r, if decide (User.user_id r = User.user_id u)
                           then row else r) <$> users db)
                    (expenses db))) as Hcommit.
    { apply commit_user_Ok.
      - rewrite User_of_attrs_updated.
        by destruct (UserUpdate.username user_data) as [[?|]|],
          (UserUpdate.salary user_data) as [[?|]|].
      - unfold row, updated_user. cbn [User.username].
        destruct (UserUpdate.username user_data) as [[n|]|]; [| by left ..].
        destruct (Hname n eq_refl) as [-> | Hfree]; [by left | by right].
      - unfold row, updated_user. cbn [User.email].
        destruct (UserUpdate.email user_data) as [[e|]|];
          [| by right; left | by left].
        destruct (Hemail e eq_refl) as [<- | Hfree]; [by left |].
        by right; right. }
    destruct (UserUpdate.password user_data) as [v|] eqn:Ep.
    + rewrite (Hhash v eq_refl).
      destruct (UserUpdate.username user_data) as [[?|]|],
        (UserUpdate.salary user_data) as [[?|]|]; done.
    + destruct (UserUpdate.username user_data) as [[?|]|],
        (UserUpdate.salary user_data) as [[?|]|]; done.
  - destruct (UserUpdate.username user_data) as [[n|]|]; [| by left ..].
    cbn [mjoin option_join default]. unfold id.
    destruct (Hname n eq_refl) as [-> | Hfree].
    + left. rewrite bool_decide_eq_true_2 by done. by rewrite andb_false_r.
    + right. by apply get_user_by_username_missing.
  - destruct (UserUpdate.email user_data) as [[e|]|]; [| by left ..].
    cbn [mjoin option_join default]. unfold id.
    destruct (Hemail e eq_refl) as [Hown | Hfree].
    + left. rewrite bool_decide_eq_true_2 by done. by rewrite andb_false_r.
    + right. by apply get_user_by_email_missing.
Qed.

End update_user_commit.



(** X23. After a request that supplies a new password only, the user is
    authenticated by exactly the passwords that verify against the
    credential computed from the new one, provided that credential is not
    empty. *)
Theorem new_password_logs_in
    (verify_password : string → string → bool)
    (get_password_hash : option string → result string)
    (utcnow : datetime.t) (db : DB) (u : User.t) (p h : string) :
  users_constraints db →
  u ∈ users db →
  get_password_hash (Some p) = Ok h →
  h ≠ EmptyString →
  ∃ row db',
    UserService.update_user get_password_hash utcnow (User.user_id u)
      (UserUpdate.mk None None None (Some (Some p))) db = (Ok row, db')
    ∧ User.hashed_password row = Some h
    ∧ ∀ password,
        UserService.authenticate_user verify_password db' (User.username u)
          password
        = Ok (if verify_password password h then Some row else None).
Proof.
  intros (Hids & Hnames & _) Hin Hh Hne.
  set (d := UserUpdate.mk None None None (Some (Some p))).
  set (row := updated_user utcnow u d h).
  set (f := λ r : User.t,
              if decide (User.user_id r = User.user_id u) then row else r).
  exists row, (mkDB (f <$> users db) (expenses db)).
  split; [| split; [done |]].
  - apply update_user_updated; try done. by intros v [= <-].
  - intros password.
    assert (User.username <$> (f <$> users db) = User.username <$> users db)
      as Hsame.
    { rewrite <- list_fmap_compose. apply list_fmap_ext. intros j r Hr.
      unfold compose, f.
      destruct (decide (User.user_id r = User.user_id u)) as [Heq|]; [| done].
      apply list_elem_of_lookup_2 in Hr.
      by rewrite (filter_column_singleton User.user_id (users db) u r)
        by (by try apply filter_column_unique). }
    pose proof (authenticate_matched verify_password
                  (mkDB (f <$> users db) (expenses db)) row password) as Hauth.
    cbn [users] in Hauth. rewrite Hsame in Hauth.
    change (User.username row) with (User.username u) in Hauth.
    rewrite (Hauth Hnames).
    + cbn [User.hashed_password row updated_user UserUpdate.password d default].
      unfold id. by rewrite truthy_str_Some.
    + apply list_elem_of_fmap. exists u. split; [| done].
      unfold f. by rewrite decide_True.
Qed.

Lemma new_password_logs_in_witness :
  ∃ row db',
    UserService.update_user (λ p, Ok (default EmptyString p))
      (Sample.at_hour 2025 7 1 8) 2
      (UserUpdate.mk None None None (Some (Some "tr0ub4dor&3"%string)))
      Sample.db = (Ok row, db')
    ∧ User.hashed_password row = Some "tr0ub4dor&3"%string
    ∧ ∀ password,
        UserService.authenticate_user String.eqb db' "bob" password
        = Ok (if String.eqb password "tr0ub4dor&3" then Some row else None).
Proof.
  apply (new_password_logs_in String.eqb (λ p, Ok (default EmptyString p))
           (Sample.at_hour 2025 7 1 8) Sample.db Sample.bob
           "tr0ub4dor&3"%string "tr0ub4dor&3"%string).
  - repeat split; apply (bool_decide_unpack _); vm_compute; exact I.
  - right. by left.
  - reflexivity.
  - discriminate.
Defined.

(** ** The endpoints of the accounts *)

Section users_endpoints.

Lemma commit_user_inv (utcnow : datetime.t) (stored : User.t)
    (attrs : gmap string pyval) (db db' : DB) (r : result User.t) :
  commit_user utcnow stored attrs db = (r, db') →
  db' = db
  ∨ ∃ row,
      User_of_attrs utcnow stored attrs = Ok row
      ∧ (User.username row = User.username stored
         ∨ User.username row ∉ User.username <$> users db)
      ∧ (User.email row = User.email stored ∨ User.email row = None
         ∨ User.email row ∉ User.email <$> users db)
      ∧ db' = mkDB ((λ x, if decide (User.user_id x = User.user_id stored)
                          then row else x) <$> users db)
                (expenses db).
Proof.
  unfold commit_user.
  destruct (User_of_attrs utcnow stored attrs) as [row|] eqn:Erow;
    [| intros [= _ <-]; by left].
  destruct (_ || _) eqn:Etaken; intros [= _ <-]; [by left | right].
  apply orb_false_iff in Etaken as [Hname Hemail].
  exists row. split; [done |]. split; [| split; [| done]].
  - apply andb_false_iff in Hname as [Hname | Hname].
    + left. by apply negb_false_iff, bool_decide_eq_true in Hname.
    + right. by apply bool_decide_eq_false in Hname.
  - apply andb_false_iff in Hemail as [Hemail | Hemail];
      [apply andb_false_iff in Hemail as [Hemail | Hemail] |].
    + left. by apply negb_false_iff, bool_decide_eq_true in Hemail.
    + right. left. apply bool_decide_eq_false in Hemail.
      destruct (User.email row); [| done]. destruct Hemail. by eexists.
    + right. right. by apply bool_decide_eq_false in Hemail.
Qed.

(** What [update_user] can end with. *)
Lemma update_user_inv (get_password_hash : option string → result string)
    (utcnow : datetime.t) (user_id : Z) (d : UserUpdate.t) (db db' : DB)
    (r : result User.t) :
  UserService.update_user get_password_hash utcnow user_id d db = (r, db') →
  db' = db
  ∨ ∃ u h,
      u ∈ users db
      ∧ User.user_id u = user_id
      ∧ (User.username (updated_user utcnow u d h) = User.username u
         ∨ User.username (updated_user utcnow u d h)
           ∉ User.username <$> users db)
      ∧ (User.email (updated_user utcnow u d h) = User.email u
         ∨ User.email (updated_user utcnow u d h) = None
         ∨ User.email (updated_user utcnow u d h) ∉ User.email <$> users db)
      ∧ db' = mkDB ((λ x, if decide (User.user_id x = user_id)
                          then updated_user utcnow u d h else x) <$> users db)
                (expenses db).
Proof.
  unfold UserService.update_user, mbind, M_bind, query, raise, mret, M_ret.
  destruct (UserService.get_user_by_id db user_id) as [[u|]|] eqn:Eget;
    [| intros [= _ <-]; by left ..].
  apply get_user_by_id_Some in Eget as (_ & Hin & <-).
  assert (∀ h,
            commit_user utcnow u
              (fold_left (λ attrs item, setattr attrs item.1 item.2)
                 (match UserUpdate.password d with
                  | Some _ =>
                      filter (λ item, item.1 ≠ "password"%string)
                        (UserUpdate.model_dump_exclude_unset d)
                      ++ [("hashed_password"%string, PStr h)]
                  | None => UserUpdate.model_dump_exclude_unset d
                  end) ∅) db = (r, db') →
            db' = db
            ∨ ∃ u0 h0,
                u0 ∈ users db
                ∧ User.user_id u0 = User.user_id u
                ∧ (User.username (updated_user utcnow u0 d h0)
                   = User.username u0
                   ∨ User.username (updated_user utcnow u0 d h0)
                     ∉ User.username <$> users db)
                ∧ (User.email (updated_user utcnow u0 d h0) = User.email u0
                   ∨ User.email (updated_user utcnow u0 d h0) = None
                   ∨ User.email (updated_user utcnow u0 d h0)
                     ∉ User.email <$> users db)
                ∧ db' = mkDB ((λ x, if decide (User.user_id x = User.user_id u)
                                    then updated_user utcnow u0 d h0 else x)
                                <$> users db)
                          (expenses db)) as Hcommit.
  { intros h Hrun.
    apply commit_user_inv in Hrun
      as [-> | (row & Hrow & Hname & Hemail & ->)]; [by left |].
    right. exists u, h. split; [done |]. split; [done |].
    rewrite User_of_attrs_updated in Hrow.
    destruct (UserUpdate.username d) as [[?|]|],
      (UserUpdate.salary d) as [[?|]|]; first [discriminate Hrow |
      by injection Hrow as <-]. }
  destruct (truthy_str (mjoin (UserUpdate.username d)) && _);
    [destruct (UserService.get_user_by_username db _) as [[?|]|];
       [intros [= _ <-]; by left | | intros [= _ <-]; by left] |];
    (destruct (truthy_str (mjoin (UserUpdate.email d)) && _);
       [destruct (UserService.get_user_by_email db _) as [[?|]|];
          [intros [= _ <-]; by left | | intros [= _ <-]; by left] |]);
    (destruct (UserUpdate.password d) as [v|] eqn:Ep;
       [destruct (get_password_hash _) as [h|];
          [apply (Hcommit h) | intros [= _ <-]; by left]
       | apply (Hcommit EmptyString)]).
Qed.

Lemma get_user_by_username_Some (db : DB) (username : string) (u : User.t) :
  UserService.get_user_by_username db username = Ok (Some u) →
  u ∈ users db ∧ User.username u = username.
Proof.
  unfold UserService.get_user_by_username, scalar_one_or_none.
  destruct (filter _ _) as [| r [| r' rows]] eqn:Ef; intros [= <-].
  assert (r ∈ filter (λ u, User.username u = username) (users db)) as Hr
    by (rewrite Ef; by left).
  apply list_elem_of_filter in Hr as [? ?]. done.
Qed.

End users_endpoints.

(** X24. Whatever the request and however it ends, the endpoints that
    update and delete an account leave the other users and the expenses of
    the other users as they are. *)
Theorem account_endpoints_keep_the_other_accounts
    (EmailStr : string → result string)
    (get_password_hash : option string → result string)
    (db db' : DB) (current_user_id : Z) :
  (∃ utcnow user_id user_data o,
     endpoints.users.update_user EmailStr get_password_hash utcnow user_id
       user_data current_user_id db = (o, db'))
  ∨ (∃ user_id o,
       endpoints.users.delete_user user_id current_user_id db = (o, db')) →
  filter (λ x, User.user_id x ≠ current_user_id) (users db')
  = filter (λ x, User.user_id x ≠ current_user_id) (users db)
  ∧ filter (λ e, Expense.user_id e ≠ current_user_id) (expenses db')
    = filter (λ e, Expense.user_id e ≠ current_user_id) (expenses db).
Proof.
  intros [(utcnow & user_id & d & o & Hrun) | (user_id & o & Hrun)];
    apply respond_inv in Hrun as [r Hrun];
    (destruct (Z.eqb_spec user_id current_user_id) as [-> | Hne];
       cbn [negb] in Hrun; [| by injection Hrun as _ <-]).
  - apply update_user_inv in Hrun as [-> | (u & h & _ & Hu & _ & _ & ->)];
      [done |].
    split; [| done]. cbn [users]. apply filter_fmap_in. intros x _.
    destruct (decide (User.user_id x = current_user_id)) as [Hx|];
      [right | by left].
    change (User.user_id (updated_user utcnow u d h)) with (User.user_id u).
    rewrite Hu. split; intros H; by apply H.
  - apply delete_user_inv in Hrun as [[-> _] | [_ ->]]; [done |].
    cbn [users expenses].
    split; apply filter_filter_in; by intros.
Qed.

Lemma account_endpoints_keep_the_other_accounts_witness :
  filter (λ x, User.user_id x ≠ 1)
    (users (mkDB [Sample.bob] [Sample.bobs_lunch]))
  = filter (λ x, User.user_id x ≠ 1) (users Sample.db)
  ∧ filter (λ e, Expense.user_id e ≠ 1)
      (expenses (mkDB [Sample.bob] [Sample.bobs_lunch]))
    = filter (λ e, Expense.user_id e ≠ 1) (expenses Sample.db).
Proof.
  apply (account_endpoints_keep_the_other_accounts Ok (λ _, Ok "h"%string)
           Sample.db _ 1).
  right. exists 1, (Responded ()). vm_compute. reflexivity.
Defined.

(** X25. [login] and [login_json] never write, and they answer with tokens
    only for a stored, active user of the given name whose credential is
    not empty and verifies the password; the tokens are made from the
    decimal id and the name of that user, and the token type is bearer. *)
Theorem tokens_are_issued_to_verified_active_users_only
    (verify_password : string → string → bool)
    (create_access_token create_refresh_token : list (string * string) → string)
    (db db' : DB) (username password : string)
    (o : outcome endpoints.auth.Token) :
  endpoints.auth.login verify_password create_access_token
    create_refresh_token username password db = (o, db')
  ∨ endpoints.auth.login_json verify_password create_access_token
      create_refresh_token username password db = (o, db') →
  db' = db
  ∧ ∀ token,
      o = Responded token →
      ∃ u h,
        u ∈ users db
        ∧ User.username u = username
        ∧ User.is_active u = true
        ∧ User.hashed_password u = Some h
        ∧ h ≠ EmptyString
        ∧ verify_password password h = true
        ∧ token
          = endpoints.auth.mkToken
              (create_access_token
                 [("sub"%string, pretty (User.user_id u));
                  ("username"%string, username)])
              (create_refresh_token
                 [("sub"%string, pretty (User.user_id u));
                  ("username"%string, username)])
              "bearer".
Proof.
  assert (endpoints.auth.login_json verify_password create_access_token
            create_refresh_token username password db
          = endpoints.auth.login verify_password create_access_token
              create_refresh_token username password db) as -> by reflexivity.
  intros Hrun. assert (endpoints.auth.login verify_password create_access_token
                         create_refresh_token username password db = (o, db'))
    as Hlogin by (by destruct Hrun).
  clear Hrun. revert Hlogin.
  unfold endpoints.auth.login, respond, mbind, M_bind, query, raise, mret,
    M_ret, UserService.authenticate_user.
  destruct (UserService.get_user_by_username db username) as [[u|]|] eqn:Eget;
    cbn [mbind result_bind]; [| by intros [= <- <-] ..].
  apply get_user_by_username_Some in Eget as [Hin Hname].
  destruct (User.hashed_password u) as [h|] eqn:Eh;
    [| by intros [= <- <-]].
  destruct (truthy_str (Some h)) eqn:Et; cbn [negb];
    [| by intros [= <- <-]].
  cbn [default]. unfold id.
  destruct (verify_password password h) eqn:Ev; cbn [negb];
    [| by intros [= <- <-]].
  destruct (User.is_active u) eqn:Ea; cbn [negb]; [| by intros [= <- <-]].
  intros [= <- <-]. split; [done |]. intros token [= <-].
  exists u, h. rewrite Hname. repeat split; try done.
  intros ->. discriminate Et.
Qed.

Lemma tokens_are_issued_to_verified_active_users_only_witness :
  Sample.db = Sample.db
  ∧ ∀ token,
      Responded
        (endpoints.auth.mkToken "access 1 alice" "refresh 1 alice" "bearer")
      = Responded token →
      ∃ u h,
        u ∈ users Sample.db
        ∧ User.username u = "alice"%string
        ∧ User.is_active u = true
        ∧ User.hashed_password u = Some h
        ∧ h ≠ EmptyString
        ∧ String.eqb "hash-a" h = true
        ∧ token
          = endpoints.auth.mkToken
              ((λ data, "access " +:+ default EmptyString (snd <$> head data)
                        +:+ " "
                        +:+ default EmptyString (snd <$> last data))
                 [("sub"%string, pretty (User.user_id u));
                  ("username"%string, "alice"%string)])
              ((λ data, "refresh " +:+ default EmptyString (snd <$> head data)
                        +:+ " "
                        +:+ default EmptyString (snd <$> last data))
                 [("sub"%string, pretty (User.user_id u));
                  ("username"%string, "alice"%string)])
              "bearer".
Proof.
  apply (tokens_are_issued_to_verified_active_users_only String.eqb
           (λ data, "access " +:+ default EmptyString (snd <$> head data)
                    +:+ " " +:+ default EmptyString (snd <$> last data))
           (λ data, "refresh " +:+ default EmptyString (snd <$> head data)
                    +:+ " " +:+ default EmptyString (snd <$> last data))
           Sample.db Sample.db "alice" "hash-a").
  left. vm_compute. reflexivity.
Defined.

(** ** The settings *)

(** X26. When no database URL is set, the URL that the settings end with
    follows the database type: for [sqlite] it starts with [sqlite], so the
    engine is made without a pool; for [postgresql] it does not, so the
    engine is made with the pool; for any other type no URL is made and
    [ValueError] is raised.  A URL that is set is kept as it is. *)
Theorem engine_follows_the_database_type (settings : config.Settings) :
  (truthy_str (config.DATABASE_URL settings) = false →
   (config.DB_TYPE settings = "sqlite"%string →
    ∃ url, config.settings_DATABASE_URL settings = Ok url
           ∧ config.is_sqlite url = true)
   ∧ (config.DB_TYPE settings = "postgresql"%string →
      ∃ url, config.settings_DATABASE_URL settings = Ok url
             ∧ config.is_sqlite url = false)
   ∧ (config.DB_TYPE settings ≠ "sqlite"%string →
      config.DB_TYPE settings ≠ "postgresql"%string →
      config.settings_DATABASE_URL settings = Err ValueError))
  ∧ (∀ url, config.DATABASE_URL settings = Some url → url ≠ EmptyString →
            config.settings_DATABASE_URL settings = Ok url).
Proof.
  split.
  - intros Hunset.
    unfold config.settings_DATABASE_URL, config.get_database_url.
    rewrite Hunset. cbn [negb]. split; [| split].
    + intros ->. eexists. split; [reflexivity | reflexivity].
    + intros ->. eexists. split; [reflexivity | reflexivity].
    + intros H1 H2. by rewrite !bool_decide_eq_false_2.
  - intros url Hurl Hne. unfold config.settings_DATABASE_URL.
    by rewrite Hurl, truthy_str_Some.
Qed.

Lemma engine_follows_the_database_type_witness :
  ∃ url,
    config.settings_DATABASE_URL
      (config.mkSettings None "sqlite" "aiosqlite" "localhost" 5432
         "postgres" "" "expense_budget_db") = Ok url
    ∧ config.is_sqlite url = true.
Proof.
  apply (proj1 (proj1 (engine_follows_the_database_type
                         (config.mkSettings None "sqlite" "aiosqlite"
                            "localhost" 5432 "postgres" ""
                            "expense_budget_db")) eq_refl)).
  reflexivity.
Defined.

(** ** The bounds of the stored amounts and salaries *)

Section bounds.

Lemma ltb_ge0 (x : float) : (0 <? x)%float = true → ge0 x = true.
Proof.
  unfold ge0. rewrite ltb_spec, leb_spec. unfold SFltb, SFleb.
  by destruct (SFcompare _ _) as [[]|].
Qed.

(** What the request schemas accept is within the bounds. *)
Lemma ExpenseCreate_new_ge0 (name : string) (amount : float)
    (category : ExpenseCategory) (user_id : Z) (d : ExpenseCreate.t) :
  ExpenseCreate.new name amount category user_id = Ok d →
  ge0 (ExpenseCreate.amount d) = true.
Proof.
  intros Hnew. apply ExpenseCreate_new_Ok in Hnew as (-> & _ & Hpos & _).
  cbn [ExpenseCreate.amount]. by apply round2_nonneg, ltb_ge0.
Qed.

Lemma ExpenseUpdate_new_ge0 (name : option (option string))
    (amount : option (option float))
    (category : option (option ExpenseCategory)) (d : ExpenseUpdate.t)
    (a : float) :
  ExpenseUpdate.new name amount category = Ok d →
  ExpenseUpdate.amount d = Some (Some a) → ge0 a = true.
Proof.
  unfold ExpenseUpdate.new, ExpenseUpdate.validate_amount.
  destruct (match name with Some (Some _) => _ | _ => _ end); [| done].
  destruct amount as [[x|]|]; cbn [fmap result_fmap].
  - destruct (0 <? x)%float eqn:Hpos; [| done].
    destruct (x <=? 0)%float; [done |]. intros [= <-] [= <-].
    by apply round2_nonneg, ltb_ge0.
  - by intros [= <-].
  - by intros [= <-].
Qed.

Section users.
Variable EmailStr : string → result string.

Lemma UserCreate_new_ge0 (username : string) (email password : option string)
    (salary : option float) (d : UserCreate.t) :
  UserCreate.new EmailStr username email password salary = Ok d →
  ge0 (UserCreate.salary d) = true.
Proof.
  unfold UserCreate.new, UserCreate.validate_salary.
  destruct (length_between 3 100 username); [| done].
  destruct (match email with Some _ => _ | None => _ end); [| done].
  destruct (match password with Some _ => _ | None => _ end); [| done].
  destruct salary as [v|].
  - destruct (ge0 v) eqn:Hv; [| done].
    destruct (v <? 0)%float; [done |]. by intros [= <-].
  - by intros [= <-].
Qed.

Lemma UserUpdate_new_ge0 (username email : option (option string))
    (salary : option (option float)) (password : option (option string))
    (d : UserUpdate.t) (x : float) :
  UserUpdate.new EmailStr username email salary password = Ok d →
  UserUpdate.salary d = Some (Some x) → ge0 x = true.
Proof.
  unfold UserUpdate.new, UserUpdate.validate_salary.
  destruct (match username with Some (Some _) => _ | _ => _ end); [| done].
  destruct (match email with Some (Some _) => _ | _ => _ end); [| done].
  destruct salary as [[v|]|]; cbn [fmap result_fmap].
  - destruct (ge0 v) eqn:Hv; [| done].
    destruct (v <? 0)%float; [done |].
    destruct (match password with Some (Some _) => _ | _ => _ end); [| done].
    by intros [= <-] [= <-].
  - destruct (match password with Some (Some _) => _ | _ => _ end); [| done].
    by intros [= <-].
  - destruct (match password with Some (Some _) => _ | _ => _ end); [| done].
    by intros [= <-].
Qed.

End users.

Lemma create_user_Err (get_password_hash : option string → result string)
    (db db' : DB) (user_id : Z) (created_at updated_at : datetime.t)
    (d : UserCreate.t) (e : exn) :
  UserService.create_user get_password_hash user_id created_at updated_at d db
  = (Err e, db') →
  db' = db.
Proof.
  unfold UserService.create_user, mbind, M_bind, query, raise, mret, M_ret,
    insert_user.
  destruct (UserService.get_user_by_username db _) as [[x|]|];
    [by intros [= _ <-] | | by intros [= _ <-]].
  destruct (truthy_str (UserCreate.email d));
    [destruct (UserService.get_user_by_email db _) as [[x|]|];
       [by intros [= _ <-] | | by intros [= _ <-]] |];
    (destruct (truthy_str (UserCreate.password d));
       [destruct (get_password_hash _) as [h|]; [| by intros [= _ <-]] |]);
    (destruct (_ || _); [by intros [= _ <-] | done]).
Qed.

Lemma Forall_filter_of {A : Type} (P Q : A → Prop) `{∀ x, Decision (Q x)}
    (l : list A) :
  Forall P l → Forall P (filter Q l).
Proof.
  rewrite !Forall_forall. intros HP x Hx.
  apply list_elem_of_filter in Hx as [_ Hx]. by apply HP.
Qed.

End bounds.

(** X27. The writes keep the stored salaries and amounts within the bound
    [ge=0]: the creation and the update of an expense and of a user, with a
    request that the schema of the request accepted, and the deletions. *)
Theorem validated_writes_keep_the_rows_within_bounds
    (EmailStr : string → result string)
    (get_password_hash : option string → result string) (db db' : DB) :
  rows_within_bounds db →
  (∃ expense_id utcnow name amount category user_id d r,
     ExpenseCreate.new name amount category user_id = Ok d
     ∧ ExpenseService.create_expense expense_id utcnow d db = (r, db'))
  ∨ (∃ expense_id name amount category acting d r,
       ExpenseUpdate.new name amount category = Ok d
       ∧ ExpenseService.update_expense expense_id d acting db = (r, db'))
  ∨ (∃ expense_id acting r,
       ExpenseService.delete_expense expense_id acting db = (r, db'))
  ∨ (∃ user_id created_at updated_at username email password salary d r,
       UserCreate.new EmailStr username email password salary = Ok d
       ∧ UserService.create_user get_password_hash user_id created_at
           updated_at d db = (r, db'))
  ∨ (∃ utcnow user_id username email salary password d r,
       UserUpdate.new EmailStr username email salary password = Ok d
       ∧ UserService.update_user get_password_hash utcnow user_id d db
         = (r, db'))
  ∨ (∃ user_id r, UserService.delete_user user_id db = (r, db')) →
  rows_within_bounds db'.
Proof.
  intros [Hsalaries Hamounts]
    [(expense_id & utcnow & name & amount & category & user_id & d & r
      & Hnew & Hrun)
    | [(expense_id & name & amount & category & acting & d & r & Hnew & Hrun)
    | [(expense_id & acting & r & Hrun)
    | [(user_id & created_at & updated_at & username & email & password
        & salary & d & r & Hnew & Hrun)
    | [(utcnow & user_id & username & email & salary & password & d & r
        & Hnew & Hrun)
    | (user_id & r & Hrun)]]]]].
  - apply ExpenseCreate_new_ge0 in Hnew. revert Hrun.
    unfold ExpenseService.create_expense, mbind, M_bind, query, insert_expense.
    destruct (ExpenseService.verify_user_exists db _);
      [| by intros [= _ <-]].
    destruct (bool_decide _); intros [= _ <-]; [done |].
    split; [done |]. cbn [expenses]. apply Forall_app. split; [done |].
    by apply Forall_singleton.
  - apply update_expense_inv in Hrun
      as [[-> _] | (e & Hget & _ & _ & ->)]; [done |].
    apply get_expense_by_id_Some in Hget as (_ & Hin & _).
    split; [done |]. cbn [expenses]. apply Forall_fmap, Forall_forall.
    intros x Hx. cbn.
    destruct (decide (Expense.expense_id x = expense_id));
      [| by apply (proj1 (Forall_forall _ _) Hamounts)].
    unfold updated. cbn [Expense.amount].
    destruct (ExpenseUpdate.amount d) as [[a|]|] eqn:Ea;
      [by apply (ExpenseUpdate_new_ge0 _ _ _ _ _ Hnew)
      | by apply (proj1 (Forall_forall _ _) Hamounts) ..].
  - apply delete_expense_inv in Hrun as [[-> _] | (e & _ & _ & _ & ->)];
      [done |].
    split; [done |]. cbn [expenses]. by apply Forall_filter_of.
  - apply (UserCreate_new_ge0 EmailStr) in Hnew.
    destruct r as [row | err].
    + apply create_user_inv in Hrun as (hashed & _ & -> & _ & _ & _ & ->).
      split; [| done]. cbn [users]. apply Forall_app. split; [done |].
      by apply Forall_singleton.
    + by apply create_user_Err in Hrun as ->.
  - apply update_user_inv in Hrun as [-> | (u & h & Hu & _ & _ & _ & ->)];
      [done |].
    split; [| done]. cbn [users]. apply Forall_fmap, Forall_forall.
    intros x Hx. cbn.
    destruct (decide (User.user_id x = user_id));
      [| by apply (proj1 (Forall_forall _ _) Hsalaries)].
    unfold updated_user. cbn [User.salary].
    pose proof (proj1 (Forall_forall _ _) Hsalaries u Hu) as Hold.
    destruct (UserUpdate.salary d) as [[s|]|] eqn:Es; [| done ..].
    destruct (negb _); [| done].
    by apply (UserUpdate_new_ge0 EmailStr _ _ _ _ _ _ Hnew).
  - apply delete_user_inv in Hrun as [[-> _] | [_ ->]]; [done |].
    split; cbn [users expenses]; by apply Forall_filter_of.
Qed.

Lemma validated_writes_keep_the_rows_within_bounds_witness :
  rows_within_bounds
    (mkDB (users Sample.db)
       (expenses Sample.db
        ++ [Expense.mk 5 1 "Gum" 0%float FOOD (Sample.at_hour 2025 7 1 8)])).
Proof.
  apply (validated_writes_keep_the_rows_within_bounds Ok (λ _, Ok "h"%string)
           Sample.db).
  - split; repeat constructor.
  - left. exists 5, (Sample.at_hour 2025 7 1 8), "Gum"%string, 0.004%float,
      FOOD, 1, (ExpenseCreate.mk "Gum" 0%float FOOD 1),
      (Ok (Expense.mk 5 1 "Gum" 0%float FOOD (Sample.at_hour 2025 7 1 8))).
    split; vm_compute; reflexivity.
Defined.

(** ** The constraints of the tables *)

Section constraints.

Lemma NoDup_omap_filter {A K : Type} (col : A → option K) (P : A → Prop)
    `{∀ x, Decision (P x)} (l : list A) :
  NoDup (omap col l) → NoDup (omap col (filter P l)).
Proof.
  intros Hnodup. apply (sublist_NoDup _ (omap col l)); [done |].
  clear Hnodup. induction l as [| x l IH]; [done |].
  rewrite filter_cons. cbn [omap list_omap].
  destruct (decide (P x)); cbn [omap list_omap]; destruct (col x).
  - by constructor.
  - done.
  - by constructor.
  - done.
Qed.

Lemma NoDup_fmap_filter {A K : Type} (col : A → K) (P : A → Prop)
    `{∀ x, Decision (P x)} (l : list A) :
  NoDup (col <$> l) → NoDup (col <$> filter P l).
Proof. rewrite !list_fmap_alt. apply NoDup_omap_filter. Qed.

(** A unique column stays unique when the row of a key is replaced by a row
    whose value is that of the replaced row, or no value, or one that no row
    holds. *)
Lemma NoDup_omap_replace {K : Type} (col : User.t → option K)
    (l : list User.t) (u row : User.t) :
  NoDup (User.user_id <$> l) → NoDup (omap col l) → u ∈ l →
  col row = col u ∨ col row = None ∨ (∀ x, x ∈ l → col x ≠ col row) →
  NoDup (omap col
           ((λ x, if decide (User.user_id x = User.user_id u) then row else x)
              <$> l)).
Proof.
  set (f := λ x : User.t,
              if decide (User.user_id x = User.user_id u) then row else x).
  induction l as [| r l IH]; intros Hids Hcol Hin Hrow; [done |].
  cbn [fmap list_fmap] in Hids. apply NoDup_cons in Hids as [Hr Hids].
  assert (∀ k, k ∈ omap col (f <$> l) →
               k ∈ omap col l ∨ (u ∈ l ∧ col row = Some k)) as Hfrom.
  { intros k Hk. apply list_elem_of_omap in Hk as (y & Hy & Hyk).
    apply list_elem_of_fmap in Hy as (x & -> & Hx). unfold f in Hyk.
    destruct (decide (User.user_id x = User.user_id u)) as [Heq|].
    - right. split; [| done].
      destruct (decide (User.user_id r = User.user_id u)) as [Hru|Hru].
      + destruct Hr. rewrite Hru, <- Heq. apply list_elem_of_fmap. by exists x.
      + apply elem_of_cons in Hin as [-> | Hin]; [done | done].
    - left. apply list_elem_of_omap. by exists x. }
  cbn [fmap list_fmap]. unfold f at 1.
  destruct (decide (User.user_id r = User.user_id u)) as [Hru | Hru].
  - assert (u = r) as ->.
    { apply elem_of_cons in Hin as [-> | Hin]; [done |].
      destruct Hr. rewrite Hru. apply list_elem_of_fmap. by exists u. }
    assert (f <$> l = l) as ->.
    { rewrite <- (list_fmap_id l) at 2. apply list_fmap_ext. intros j x Hx.
      unfold f. rewrite decide_False; [done |].
      intros Heq. apply Hr. rewrite <- Heq. apply list_elem_of_fmap.
      exists x. split; [done |]. by apply list_elem_of_lookup_2 in Hx. }
    cbn [omap list_omap] in Hcol |- *.
    destruct (col row) as [k|] eqn:Ek.
    + destruct (col r) as [k'|] eqn:Ek'.
      * apply NoDup_cons in Hcol as [Hnew Hcol]. apply NoDup_cons.
        split; [| done].
        destruct Hrow as [[= ->] | [? | Hfree]]; [done | done |].
        intros Hk. apply list_elem_of_omap in Hk as (x & Hx & Hxk).
        apply (Hfree x); [by right | done].
      * apply NoDup_cons. split; [| done].
        destruct Hrow as [? | [? | Hfree]]; [done | done |].
        intros Hk. apply list_elem_of_omap in Hk as (x & Hx & Hxk).
        apply (Hfree x); [by right | done].
    + by destruct (col r); [apply NoDup_cons in Hcol as [_ Hcol] |].
  - assert (u ∈ l) as Hin'
      by (apply elem_of_cons in Hin as [-> | Hin]; done).
    cbn [omap list_omap] in Hcol |- *.
    assert (NoDup (omap col (f <$> l))) as IH'.
    { apply IH; [done | | done |].
      - by destruct (col r); [apply NoDup_cons in Hcol as [_ Hcol] |].
      - destruct Hrow as [? | [? | Hfree]]; [by left | by right; left |].
        right. right. intros x Hx. apply Hfree. by right. }
    destruct (col r) as [k|] eqn:Ek; [| done].
    apply NoDup_cons in Hcol as [Hnew Hcol]. apply NoDup_cons.
    split; [| done]. intros Hk.
    apply Hfrom in Hk as [Hk | [_ Hk]]; [done |].
    destruct Hrow as [Hown | [Hnone | Hfree]].
    + apply Hnew. apply list_elem_of_omap. exists u. split; [done |].
      by rewrite <- Hown.
    + by rewrite Hnone in Hk.
    + apply (Hfree r); [by left | by rewrite Ek].
Qed.

Lemma verify_user_exists_Ok (db : DB) (user_id : Z) (user : User.t) :
  ExpenseService.verify_user_exists db user_id = Ok user →
  user ∈ users db ∧ User.user_id user = user_id.
Proof.
  unfold ExpenseService.verify_user_exists, scalar_one_or_none.
  destruct (filter _ _) as [| r [| r' rows]] eqn:Ef; intros [= <-].
  assert (r ∈ filter (λ u, User.user_id u = user_id) (users db)) as Hr
    by (rewrite Ef; by left).
  apply list_elem_of_filter in Hr as [? ?]. done.
Qed.

End constraints.

(** X29. Every write of the two services keeps the constraints of the
    tables, whether it succeeds or fails: the keys, the names and the
    addresses stay unique, and every expense stays that of a stored user. *)
Theorem writes_keep_the_constraints_of_the_tables
    (get_password_hash : option string → result string) (db db' : DB) :
  tables_constraints db →
  (∃ expense_id utcnow d r,
     ExpenseService.create_expense expense_id utcnow d db = (r, db'))
  ∨ (∃ expense_id d acting r,
       ExpenseService.update_expense expense_id d acting db = (r, db'))
  ∨ (∃ expense_id acting r,
       ExpenseService.delete_expense expense_id acting db = (r, db'))
  ∨ (∃ user_id created_at updated_at d r,
       UserService.create_user get_password_hash user_id created_at
         updated_at d db = (r, db'))
  ∨ (∃ utcnow user_id d r,
       UserService.update_user get_password_hash utcnow user_id d db
       = (r, db'))
  ∨ (∃ user_id r, UserService.delete_user user_id db = (r, db')) →
  tables_constraints db'.
Proof.
  intros ((Hids & Hnames & Hemails) & Hkeys & Hfk)
    [(expense_id & utcnow & d & r & Hrun)
    | [(expense_id & d & acting & r & Hrun)
    | [(expense_id & acting & r & Hrun)
    | [(user_id & created_at & updated_at & d & r & Hrun)
    | [(utcnow & user_id & d & r & Hrun)
    | (user_id & r & Hrun)]]]]];
    unfold tables_constraints, users_constraints.
  - revert Hrun.
    unfold ExpenseService.create_expense, mbind, M_bind, query, insert_expense.
    destruct (ExpenseService.verify_user_exists db _) as [user|] eqn:Hu;
      [| by intros [= _ <-]].
    apply verify_user_exists_Ok in Hu as [Hin Hu].
    destruct (bool_decide _) eqn:Hfresh; intros [= _ <-]; [done |].
    apply bool_decide_eq_false in Hfresh.
    split; [done |]. cbn [users expenses]. split.
    + rewrite fmap_app. by apply NoDup_snoc.
    + intros e He. apply elem_of_app in He as [He | He]; [by apply Hfk |].
      apply list_elem_of_singleton in He as ->. cbn [Expense.user_id].
      rewrite <- Hu. apply list_elem_of_fmap. by exists user.
  - apply update_expense_inv in Hrun
      as [[-> _] | (e & Hget & _ & _ & ->)]; [done |].
    apply get_expense_by_id_Some in Hget as (_ & Hin & Hid).
    split; [done |]. cbn [users expenses]. split.
    + by rewrite replaced_row_ids.
    + intros x Hx. apply list_elem_of_fmap in Hx as (y & -> & Hy).
      destruct (decide _); [by apply (Hfk e) | by apply Hfk].
  - apply delete_expense_inv in Hrun as [[-> _] | (e & _ & _ & _ & ->)];
      [done |].
    split; [done |]. cbn [users expenses]. split.
    + by apply NoDup_fmap_filter.
    + intros x Hx. apply list_elem_of_filter in Hx as [_ Hx]. by apply Hfk.
  - destruct r as [row | err];
      [| by apply create_user_Err in Hrun as ->].
    apply create_user_inv in Hrun
      as (hashed & _ & Hrow & Hid & Hname & Hemail & ->).
    cbn [users expenses]. split; [split; [| split] | split; [done |]].
    + rewrite fmap_app. apply NoDup_snoc; [done | by rewrite Hrow].
    + rewrite fmap_app. apply NoDup_snoc; [done | by rewrite Hrow].
    + rewrite omap_app_singleton.
      destruct (User.email row) as [e|] eqn:Ee; [| by rewrite app_nil_r].
      apply NoDup_snoc; [done |]. intros Hin.
      apply list_elem_of_omap in Hin as (x & Hx & Hxe).
      rewrite Hrow in Ee. cbn [User.email] in Ee.
      apply Hemail; [by rewrite Ee |]. rewrite Ee, <- Hxe.
      apply list_elem_of_fmap. by exists x.
    + intros e He. rewrite fmap_app. apply elem_of_app. left. by apply Hfk.
  - apply update_user_inv in Hrun
      as [-> | (u & h & Hu & <- & Hname & Hemail & ->)]; [done |].
    set (row := updated_user utcnow u d h) in *.
    set (f := λ x : User.t,
                if decide (User.user_id x = User.user_id u) then row else x).
    assert (User.user_id <$> (f <$> users db) = User.user_id <$> users db)
      as Hsame.
    { rewrite <- list_fmap_compose. apply list_fmap_ext. intros j x _.
      unfold compose, f. by destruct (decide _). }
    cbn [users expenses]. fold f.
    split; [split; [| split] | split; [done |]].
    + by rewrite Hsame.
    + rewrite list_fmap_alt. apply NoDup_omap_replace; [done | | done |].
      * by rewrite <- list_fmap_alt.
      * destruct Hname as [Hown | Hfree].
        { left. change (Some (User.username row) = Some (User.username u)).
          f_equal. exact Hown. }
        right. right. intros x Hx Heq. apply Hfree.
        assert (User.username x = User.username row) as <-
          by (by injection Heq).
        apply list_elem_of_fmap. by exists x.
    + apply NoDup_omap_replace; [done | done | done |].
      destruct Hemail as [? | [? | Hfree]]; [by left | by right; left |].
      right. right. intros x Hx Heq. apply Hfree. rewrite <- Heq.
      apply list_elem_of_fmap. by exists x.
    + intros e He. rewrite Hsame. by apply Hfk.
  - apply delete_user_inv in Hrun as [[-> _] | [_ ->]]; [done |].
    cbn [users expenses]. split; [split; [| split] | split].
    + by apply NoDup_fmap_filter.
    + by apply NoDup_fmap_filter.
    + by apply NoDup_omap_filter.
    + by apply NoDup_fmap_filter.
    + intros e He. apply list_elem_of_filter in He as [Hne He].
      apply Hfk in He. apply list_elem_of_fmap in He as (x & Heq & Hx).
      apply list_elem_of_fmap. exists x. split; [done |].
      apply list_elem_of_filter. split; [congruence | done].
Qed.

Lemma writes_keep_the_constraints_of_the_tables_witness :
  tables_constraints (mkDB [Sample.bob] [Sample.bobs_lunch]).
Proof.
  apply (writes_keep_the_constraints_of_the_tables (λ _, Ok "h"%string)
           Sample.db).
  - split; [repeat split; apply (bool_decide_unpack _); vm_compute; exact I |].
    split; [apply (bool_decide_unpack _); vm_compute; exact I |].
    intros e He.
    repeat (apply elem_of_cons in He as [-> | He];
            [apply (bool_decide_unpack _); vm_compute; exact I |]).
    by apply elem_of_nil in He.
  - do 5 right. exists 1, (Ok true). vm_compute. reflexivity.
Defined.
